(** * ERP data transformation engine: embedding and verified properties

    Shallow embedding of the Cython modules of the ERP platform: the SAP
    transformer and the string utilities ([sap_transformer_cy.pyx]), the
    CSV processor ([csv_processor_cy.pyx]), the JSON processor (class
    [JSONProcessorCy]) and the numeric utilities ([math_utils_cy.pyx]);
    and the properties of the specification proved, or refuted, on them.

    Conventions of the embedding:
    - a Python [str] is a [string] whose characters are the code points
      U+0000..U+00FF; [str.isspace], [str.isdigit] and [str.isalnum] are the
      Unicode tables restricted to that range;
    - a Python [dict] is an association list in insertion order, written
      through [dict_set] (an existing key keeps its position and takes the
      new value) and read through [dict_get] (first entry of the key);
    - a Python exception is the [Raise] case of the result type [exc];
    - a C [double] is a primitive binary64 [float]. *)

From Stdlib Require Import ZArith List Bool Arith Lia.
From Stdlib Require Import Strings.Ascii Strings.String.
From Stdlib Require Import Floats.PrimFloat Numbers.Cyclic.Int63.Uint63.
From Stdlib Require Import Numbers.DecimalString.
From Stdlib Require Numbers.DecimalNat.
From Stdlib Require Import Sorting.Permutation.
Import ListNotations.

#[local] Set Warnings "-register-all,-automation,-notation-for-abbreviation".

Local Open Scope bool_scope.
Local Open Scope string_scope.
Local Open Scope nat_scope.

(* ===================================================================== *)
(** * Part I: definitions *)
(* ===================================================================== *)

(** ** Python strings *)
Module PyStr.

(** [str.isspace] on one character (code points below 256). *)
Definition is_space (c : ascii) : bool :=
  let n := nat_of_ascii c in
  ((9 <=? n) && (n <=? 13)) || ((28 <=? n) && (n <=? 32))
  || (n =? 133) || (n =? 160).

(** [str.isdigit] on one character: the decimal digits and the
    superscripts U+00B2, U+00B3, U+00B9. *)
Definition is_digit (c : ascii) : bool :=
  let n := nat_of_ascii c in
  ((48 <=? n) && (n <=? 57)) || (n =? 178) || (n =? 179) || (n =? 185).

(** [str.isdecimal] on one character: what [int()] accepts as a digit. *)
Definition is_decimal (c : ascii) : bool :=
  let n := nat_of_ascii c in (48 <=? n) && (n <=? 57).

(** [str.isalnum] on one character. *)
Definition is_alnum (c : ascii) : bool :=
  let n := nat_of_ascii c in
  is_digit c
  || ((65 <=? n) && (n <=? 90)) || ((97 <=? n) && (n <=? 122))
  || (n =? 170) || (n =? 181) || (n =? 186)
  || ((188 <=? n) && (n <=? 190))
  || ((192 <=? n) && (n <=? 214)) || ((216 <=? n) && (n <=? 246))
  || (248 <=? n).

Fixpoint all_chars (p : ascii -> bool) (s : string) : bool :=
  match s with
  | EmptyString => true
  | String c s' => p c && all_chars p s'
  end.

Definition is_empty (s : string) : bool :=
  match s with EmptyString => true | _ => false end.

(** [s.isdigit()]: false on the empty string. *)
Definition isdigit (s : string) : bool :=
  negb (is_empty s) && all_chars is_digit s.

(** [s.isalnum()]. *)
Definition isalnum (s : string) : bool :=
  negb (is_empty s) && all_chars is_alnum s.

(** [s.lstrip(c)] for a one-character set, and [s.lstrip()]. *)
Fixpoint lstrip_by (p : ascii -> bool) (s : string) : string :=
  match s with
  | EmptyString => EmptyString
  | String c s' => if p c then lstrip_by p s' else s
  end.

Fixpoint rstrip_by (p : ascii -> bool) (s : string) : string :=
  match s with
  | EmptyString => EmptyString
  | String c s' =>
      match rstrip_by p s' with
      | EmptyString => if p c then EmptyString else String c EmptyString
      | r => String c r
      end
  end.

(** A string that does not start with a character of the stripped set. *)
Definition head_kept (p : ascii -> bool) (s : string) : Prop :=
  match s with
  | EmptyString => True
  | String c _ => p c = false
  end.

(** [s.strip()]. *)
Definition strip (s : string) : string :=
  rstrip_by is_space (lstrip_by is_space s).

(** [s[i:j]] for [0 <= i <= j]; like Python it clamps to the length. *)
Definition slice (s : string) (i j : nat) : string :=
  substring i (j - i) s.

(** [s.replace(old, new)] for a one-character [old]. *)
Fixpoint replace (old : ascii) (new : string) (s : string) : string :=
  match s with
  | EmptyString => EmptyString
  | String c s' =>
      if Ascii.eqb c old then new ++ replace old new s'
      else String c (replace old new s')
  end.

(** [c in s] for a one-character [c]. *)
Fixpoint contains (c : ascii) (s : string) : bool :=
  match s with
  | EmptyString => false
  | String d s' => Ascii.eqb d c || contains c s'
  end.

(** [s.startswith(c)] and [s.endswith(c)] for a one-character [c]. *)
Definition startswith (c : ascii) (s : string) : bool :=
  match s with
  | String d _ => Ascii.eqb d c
  | EmptyString => false
  end.

Fixpoint endswith (c : ascii) (s : string) : bool :=
  match s with
  | EmptyString => false
  | String d EmptyString => Ascii.eqb d c
  | String _ s' => endswith c s'
  end.

(** [s[:-1]]. *)
Fixpoint drop_last (s : string) : string :=
  match s with
  | EmptyString => EmptyString
  | String _ EmptyString => EmptyString
  | String c s' => String c (drop_last s')
  end.

(** [s[1:-1]]. *)
Definition strip_ends (s : string) : string :=
  match s with
  | EmptyString => EmptyString
  | String _ s' => drop_last s'
  end.

(** [s.split(c)] for a one-character separator: never the empty list. *)
Fixpoint split (sep : ascii) (s : string) : list string :=
  match s with
  | EmptyString => [EmptyString]
  | String c s' =>
      if Ascii.eqb c sep then EmptyString :: split sep s'
      else match split sep s' with
           | [] => [String c EmptyString]
           | f :: fs => String c f :: fs
           end
  end.

(** [str(n)] for a non-negative integer. *)
Definition str_of_nat (n : nat) : string :=
  NilZero.string_of_uint (Nat.to_uint n).

(** [str(z)] for an integer. *)
Definition str_of_Z (z : Z) : string :=
  NilZero.string_of_int (Z.to_int z).

End PyStr.

(** ** Python values, dictionaries and exceptions *)
Module Py.

(** Insertion-ordered dictionary. *)
Definition keyed (K V : Type) : Type := list (K * V).

(** Dictionary with string keys. *)
Notation dict V := (keyed string V).

(** JSON-like values. A [PDict] lists its items in insertion order. *)
Inductive pyval : Type :=
| PNone : pyval
| PBool : bool -> pyval
| PInt : Z -> pyval
| PFloat : float -> pyval
| PStr : string -> pyval
| PList : list pyval -> pyval
| PDict : dict pyval -> pyval.

(** Induction on values, with the hypothesis for every element of a list
    and every value of a dictionary. *)
Section PyvalInduction.
Variable P : pyval -> Prop.
Hypothesis HNone : P PNone.
Hypothesis HBool : forall b, P (PBool b).
Hypothesis HInt : forall z, P (PInt z).
Hypothesis HFloat : forall f, P (PFloat f).
Hypothesis HStr : forall s, P (PStr s).
Hypothesis HList : forall l, Forall P l -> P (PList l).
Hypothesis HDict : forall d, Forall (fun kv => P (snd kv)) d -> P (PDict d).

Fixpoint pyval_nested_ind (v : pyval) : P v :=
  match v with
  | PNone => HNone
  | PBool b => HBool b
  | PInt z => HInt z
  | PFloat f => HFloat f
  | PStr s => HStr s
  | PList l =>
      HList l
        ((fix elements (l : list pyval) : Forall P l :=
            match l with
            | [] => Forall_nil P
            | x :: l' => Forall_cons x (pyval_nested_ind x) (elements l')
            end) l)
  | PDict d =>
      HDict d
        ((fix items (d : list (string * pyval))
            : Forall (fun kv => P (snd kv)) d :=
            match d with
            | [] => Forall_nil _
            | kv :: d' =>
                Forall_cons kv (pyval_nested_ind (snd kv)) (items d')
            end) d)
  end.

End PyvalInduction.

(** The keys of a dictionary: a type with a decidable equality. *)
Class Hashable (K : Type) : Type := {
  key_eqb : K -> K -> bool;
  key_eqb_spec : forall a b, reflect (a = b) (key_eqb a b)
}.

#[export] Instance Hashable_string : Hashable string :=
  {| key_eqb := String.eqb; key_eqb_spec := String.eqb_spec |}.

#[export] Instance Hashable_Z : Hashable Z :=
  {| key_eqb := Z.eqb; key_eqb_spec := Z.eqb_spec |}.

Section Dict.
Context {K : Type} {HK : Hashable K} {V : Type}.

Fixpoint dict_get (d : keyed K V) (k : K) : option V :=
  match d with
  | [] => None
  | (k', v) :: d' => if key_eqb k' k then Some v else dict_get d' k
  end.

(** [d.get(k, default)]. *)
Definition dict_get_default (d : keyed K V) (k : K) (default : V) : V :=
  match dict_get d k with
  | Some v => v
  | None => default
  end.

(** [k in d]. *)
Definition dict_mem (d : keyed K V) (k : K) : bool :=
  match dict_get d k with Some _ => true | None => false end.

(** [d[k] = v]. *)
Fixpoint dict_set (d : keyed K V) (k : K) (v : V) : keyed K V :=
  match d with
  | [] => [(k, v)]
  | (k', v') :: d' =>
      if key_eqb k' k then (k', v) :: d' else (k', v') :: dict_set d' k v
  end.

(** [d.update(e)]. *)
Definition dict_update (d e : keyed K V) : keyed K V :=
  fold_left (fun acc kv => dict_set acc (fst kv) (snd kv)) e d.

(** [list(d.keys())]. *)
Definition dict_keys (d : keyed K V) : list K := map fst d.

(** The value of the last pair of key [k] in a list of pairs. *)
Definition last_binding (l : list (K * V)) (k : K) : option V :=
  dict_get (rev l) k.

End Dict.

(** Truth value of a Python object. *)
Definition truthy (v : pyval) : bool :=
  match v with
  | PNone => false
  | PBool b => b
  | PInt z => negb (Z.eqb z 0)
  | PFloat f => negb (PrimFloat.eqb f 0)
  | PStr s => negb (PyStr.is_empty s)
  | PList l => match l with [] => false | _ => true end
  | PDict d => match d with [] => false | _ => true end
  end.

(** [v == lit] for a [str] or [None] value [v] and a string literal. *)
Definition str_is (v : option string) (lit : string) : bool :=
  match v with
  | Some s => String.eqb s lit
  | None => false
  end.

(** The exceptions the modelled code can raise. *)
Inductive exn : Type :=
| TypeError
| AttributeError
| ValueError
| KeyError
| IndexError
| OverflowError
| Exception (msg : string).

Inductive exc (A : Type) : Type :=
| Ok : A -> exc A
| Raise : exn -> exc A.
Arguments Ok {A} _.
Arguments Raise {A} _.

Definition bind {A B} (m : exc A) (f : A -> exc B) : exc B :=
  match m with
  | Ok a => f a
  | Raise e => Raise e
  end.

End Py.

Declare Scope py_scope.
Delimit Scope py_scope with py.
Notation "x <- m ;; k" := (Py.bind m (fun x => k))
(at level 61, m at next level, right associativity) : py_scope.

(** ** [sap_transformer_cy.pyx]: class [SAPTransformerCy] *)
Module SAPTransformerCy.
Import PyStr Py.

(** The argument of the amount test: the value without [.], [,], [-]. *)
Definition amount_digits (string_value : string) : string :=
  replace "-" "" (replace "," "" (replace "." "" string_value)).

(** The rule chain of [_transform_sap_field], from the test for an empty
    value on; [string_value] is the stripped value. *)
Definition transform_stripped (string_value : string) : string :=
  if is_empty string_value then ""
  else if (String.length string_value =? 8) && isdigit string_value then
    if negb (String.eqb string_value "00000000") then
      slice string_value 0 4 ++ "-" ++ slice string_value 4 6
        ++ "-" ++ slice string_value 6 8
    else ""
  else if (String.length string_value =? 6) && isdigit string_value then
    slice string_value 0 2 ++ ":" ++ slice string_value 2 4
      ++ ":" ++ slice string_value 4 6
  else if isdigit (amount_digits string_value) then
    if contains "," string_value && negb (contains "." string_value)
    then replace "," "." string_value
    else string_value
  else if isdigit string_value && (8 <=? String.length string_value) then
    (if is_empty (lstrip_by (Ascii.eqb "0") string_value) then "0"
     else lstrip_by (Ascii.eqb "0") string_value)
  else string_value.

(** [_transform_sap_field] on a value that is a [str]. *)
Definition transform_str (value : string) : string :=
  let string_value := strip value in
  transform_stripped string_value.

(** [_transform_sap_field]: anything that is not a [str] is returned as
    it is. *)
Definition _transform_sap_field (value : pyval) : pyval :=
  match value with
  | PStr s => PStr (transform_str s)
  | _ => value
  end.

(** Assignment to a [cdef str] variable: a [str] or [None], anything else
    raises [TypeError]. *)
Definition as_cdef_str (v : pyval) : exc (option string) :=
  match v with
  | PStr s => Ok (Some s)
  | PNone => Ok None
  | _ => Raise TypeError
  end.

(** Assignment to a [cdef dict] variable: a [dict] or [None], anything else
    raises [TypeError]. A method call on the [None] it lets through raises
    [AttributeError]. *)
Definition as_cdef_dict (v : pyval) : exc (option (dict pyval)) :=
  match v with
  | PDict d => Ok (Some d)
  | PNone => Ok None
  | _ => Raise TypeError
  end.

(** The items a [for] loop draws from a value. *)
Definition py_iter (v : pyval) : exc (list pyval) :=
  match v with
  | PList l => Ok l
  | PDict d => Ok (map PStr (dict_keys d))
  | PStr s => Ok (map (fun c => PStr (String c "")) (list_ascii_of_string s))
  | _ => Raise TypeError
  end.

(** [_get_message_severity]. *)
Definition _get_message_severity (msg_type : option string) : string :=
  match msg_type with
  | None => "unknown"
  | Some t =>
      if String.eqb t "S" then "success"
      else if String.eqb t "I" then "info"
      else if String.eqb t "W" then "warning"
      else if String.eqb t "E" then "error"
      else if String.eqb t "A" then "abort"
      else "unknown"
  end.

(** One entry of [result['messages']]. *)
Record Message : Type := mkMessage {
  m_type : option string;
  m_message : pyval;
  m_field : pyval;
  m_number : pyval;
  m_severity : string
}.

(** The dictionary [_transform_sap_table] returns. *)
Record ParsedTable : Type := mkParsedTable {
  headers : list string;
  rows : list (list pyval);
  row_count : nat
}.

Record Metadata : Type := mkMetadata {
  record_count : nat;
  table_count : nat;
  has_errors : bool;
  message_count : nat
}.

(** The dictionary [_transform_bapi_result] returns. *)
Record BAPIResult : Type := mkBAPIResult {
  success : bool;
  messages : list Message;
  data : dict pyval;
  tables : dict ParsedTable;
  metadata : Metadata
}.

(** [msg_type in ['E', 'A']]. *)
Definition is_error_type (msg_type : option string) : bool :=
  match msg_type with
  | Some t => String.eqb t "E" || String.eqb t "A"
  | None => false
  end.

(** The loop [for msg in return_data] of [_transform_bapi_result], on the
    state [(result['success'], result['messages'])]. *)
Fixpoint process_return (return_data : list pyval) (success : bool)
    (messages : list Message) : exc (bool * list Message) :=
  match return_data with
  | [] => Ok (success, messages)
  | item :: rest =>
      (msg <- as_cdef_dict item ;;
       match msg with
       | None => Raise AttributeError
       | Some msg =>
           msg_type <- as_cdef_str (dict_get_default msg "TYPE" (PStr "")) ;;
           let messages :=
             (messages ++
              [ {| m_type := msg_type;
                   m_message := dict_get_default msg "MESSAGE" (PStr "");
                   m_field := dict_get_default msg "FIELD" (PStr "");
                   m_number := dict_get_default msg "NUMBER" (PStr "");
                   m_severity := _get_message_severity msg_type |} ])%list in
           let success := if is_error_type msg_type then false else success in
           process_return rest success messages
       end)%py
  end.

(** The loop [for header in headers] of [_transform_sap_table] for one row. *)
Fixpoint row_loop (row : option (dict pyval)) (headers : list string)
    (row_values : list pyval) : exc (list pyval) :=
  match headers with
  | [] => Ok row_values
  | header :: rest =>
      match row with
      | None => Raise AttributeError
      | Some d =>
          let value := dict_get_default d header (PStr "") in
          let transformed_value := _transform_sap_field value in
          row_loop row rest (row_values ++ [transformed_value])%list
      end
  end.

(** The loop [for row in table_data] of [_transform_sap_table]. *)
Fixpoint table_loop (headers : list string) (table_data : list pyval)
    (rows : list (list pyval)) : exc (list (list pyval)) :=
  match table_data with
  | [] => Ok rows
  | item :: rest =>
      (row <- as_cdef_dict item ;;
       row_values <- row_loop row headers [] ;;
       table_loop headers rest (rows ++ [row_values])%list)%py
  end.

(** [_transform_sap_table]. *)
Definition _transform_sap_table (table_data : list pyval) : exc ParsedTable :=
  match table_data with
  | [] => Ok {| headers := []; rows := []; row_count := 0 |}
  | first :: _ =>
      (first_row <- as_cdef_dict first ;;
       match first_row with
       | None => Raise AttributeError
       | Some first_row =>
           let headers := dict_keys first_row in
           rows <- table_loop headers table_data [] ;;
           Ok {| headers := headers; rows := rows; row_count := List.length rows |}
       end)%py
  end.

(** The loop [for key, value in bapi_response.items()] of
    [_transform_bapi_result], on the state
    [(result['data'], result['tables'])]. *)
Fixpoint process_fields (items : list (string * pyval)) (data : dict pyval)
    (tables : dict ParsedTable) : exc (dict pyval * dict ParsedTable) :=
  match items with
  | [] => Ok (data, tables)
  | (key, value) :: rest =>
      if String.eqb key "RETURN" then process_fields rest data tables
      else
        match value with
        | PList ((_ :: _) as table_data) =>
            (t <- _transform_sap_table table_data ;;
             process_fields rest data (dict_set tables key t))%py
        | _ =>
            process_fields rest
              (dict_set data key (_transform_sap_field value)) tables
        end
  end.

(** [_transform_bapi_result]. *)
Definition _transform_bapi_result (bapi_response : dict pyval)
    : exc BAPIResult :=
  (sm <- match dict_get bapi_response "RETURN" with
         | Some return_data =>
             let return_data :=
               match return_data with
               | PDict _ => PList [return_data]
               | _ => return_data
               end in
             msgs <- py_iter return_data ;;
             process_return msgs true []
         | None => Ok (true, [])
         end ;;
   dt <- process_fields bapi_response [] [] ;;
   let success := fst sm in
   let messages := snd sm in
   let data := fst dt in
   let tables := snd dt in
   Ok {| success := success;
         messages := messages;
         data := data;
         tables := tables;
         metadata :=
           {| record_count :=
                list_sum (map (fun kt => List.length (rows (snd kt))) tables);
              table_count := List.length tables;
              has_errors := negb success;
              message_count := List.length messages |} |})%py.

(** A message whose severity is error or abort. *)
Definition severe (m : Message) : Prop :=
  m_severity m = "error" \/ m_severity m = "abort".

(** [row] is the projection of the source row [src] on [headers]: one value
    per header, in header order, each the normalized value of the header in
    the source row, the empty string standing for a missing one. *)
Definition projects_row (headers : list string) (src : pyval)
    (row : list pyval) : Prop :=
  List.length row = List.length headers
  /\ forall j h, nth_error headers j = Some h ->
       exists d, src = PDict d
         /\ nth_error row j
            = Some (_transform_sap_field (dict_get_default d h (PStr "")))
         /\ (dict_get d h = None -> nth_error row j = Some (PStr "")).

(** Responses the parser accepts. A RETURN message is a dictionary whose
    TYPE, when it has one, is a [str] or [None]; RETURN is one message or a
    list of messages; the rows of a table parameter are dictionaries. *)
Definition message_ok (v : pyval) : bool :=
  match v with
  | PDict msg =>
      match dict_get_default msg "TYPE" (PStr "") with
      | PStr _ | PNone => true
      | _ => false
      end
  | _ => false
  end.

Definition return_ok (v : pyval) : bool :=
  match v with
  | PDict _ => message_ok v
  | PList l => forallb message_ok l
  | _ => false
  end.

Definition row_ok (v : pyval) : bool :=
  match v with
  | PDict _ => true
  | _ => false
  end.

Definition field_ok (kv : string * pyval) : bool :=
  String.eqb (fst kv) "RETURN"
  || match snd kv with
     | PList l => forallb row_ok l
     | _ => true
     end.

Definition response_ok (bapi_response : dict pyval) : bool :=
  match dict_get bapi_response "RETURN" with
  | Some v => return_ok v
  | None => true
  end && forallb field_ok bapi_response.

(** The BAPI response of the specification's example. *)
Definition bapi_example : dict pyval :=
  [ ("RETURN", PDict [("TYPE", PStr "E"); ("MESSAGE", PStr "Invalid data")]);
    ("RESULT", PStr "42") ].

Definition bapi_example_result : BAPIResult :=
  {| success := false;
     messages :=
       [ {| m_type := Some "E";
            m_message := PStr "Invalid data";
            m_field := PStr "";
            m_number := PStr "";
            m_severity := "error" |} ];
     data := [("RESULT", PStr "42")];
     tables := [];
     metadata :=
       {| record_count := 0; table_count := 0;
          has_errors := true; message_count := 1 |} |}.

(** A table parameter whose rows do not all carry the keys of the first. *)
Definition table_example : list pyval :=
  [ PDict [("MATNR", PStr "000000000000001234"); ("ERSDA", PStr "20230615")];
    PDict [("ERSDA", PStr "00000000"); ("EXTRA", PStr "x")] ].

Definition table_example_result : ParsedTable :=
  {| headers := ["MATNR"; "ERSDA"];
     rows := [ [PStr "000000000000001234"; PStr "2023-06-15"];
               [PStr ""; PStr ""] ];
     row_count := 2 |}.

End SAPTransformerCy.

(** ** [csv_processor_cy.pyx]: class [CSVProcessorCy]

    The tokenizer works on the bytes of the UTF-8 encoding of a line and is
    given the number of characters of the line as its length. The two agree
    on ASCII text, where encoding and decoding change nothing: CSV text is
    modelled on that range. *)
Module CSVProcessorCy.
Import PyStr Py.

(** The double quote and the line feed. *)
Definition dquote : ascii := "034"%char.
Definition newline : ascii := "010"%char.

(** The attributes of an instance. *)
Record t : Type := mkCSVProcessor {
  delimiter : ascii;
  quotechar : ascii;
  buffer_size : Z
}.

(** [__init__]: the first characters of [delimiter] and [quotechar] are
    stored in C [char]s, which hold 0..127. Bounds checks are compiled out,
    so the first character of an empty string is undefined; the model
    raises. *)
Definition init (delimiter quotechar : string) (buffer_size : Z) : exc t :=
  match delimiter, quotechar with
  | String d _, String q _ =>
      if (nat_of_ascii d <? 128) && (nat_of_ascii q <? 128)
      then Ok {| delimiter := d; quotechar := q; buffer_size := buffer_size |}
      else Raise OverflowError
  | _, _ => Raise IndexError
  end.

(** The instance built with the default arguments. *)
Definition default : t :=
  {| delimiter := ","; quotechar := dquote; buffer_size := 8192 |}.

(** [line[field_start:i].decode('utf-8').strip()], then one layer of
    double quotes taken off when the field starts and ends with one. *)
Definition extract_field (line : string) (field_start i : nat) : string :=
  let field := strip (slice line field_start i) in
  if startswith dquote field && endswith dquote field
  then strip_ends field
  else field.

(** The [while i < line_length] loop of [_parse_csv_line_fast], with
    [remaining = line_length - i]; it returns [fields] and [field_start].
    Reading past the end of [line] stops the scan. *)
Fixpoint scan (self : t) (line : string) (remaining i field_start : nat)
    (in_quotes : Z) (fields : list string) : list string * nat :=
  match remaining with
  | O => (fields, field_start)
  | S remaining =>
      match String.get i line with
      | None => (fields, field_start)
      | Some c =>
          if Ascii.eqb c (quotechar self) then
            scan self line remaining (S i) field_start (1 - in_quotes) fields
          else if Ascii.eqb c (delimiter self) && (in_quotes =? 0)%Z then
            let field := extract_field line field_start i in
            scan self line remaining (S i) (S i) in_quotes
              (fields ++ [field])%list
          else
            scan self line remaining (S i) field_start in_quotes fields
      end
  end.

(** [_parse_csv_line_fast]. *)
Definition _parse_csv_line_fast (self : t) (line : string)
    (line_length : nat) : list string :=
  let '(fields, field_start) := scan self line line_length 0 0 0%Z [] in
  (fields ++ [extract_field line field_start line_length])%list.

(** [for j in range(min(len(headers), len(fields))):
       record[headers[j]] = fields[j]]. *)
Fixpoint zip_record (headers fields : list string) (record : dict string)
    : dict string :=
  match headers, fields with
  | field_name :: headers, field_value :: fields =>
      zip_record headers fields (dict_set record field_name field_value)
  | _, _ => record
  end.

(** [for j in range(len(fields)): record[f"col_{j}"] = fields[j]]. *)
Fixpoint generic_record (fields : list string) (j : nat) (record : dict string)
    : dict string :=
  match fields with
  | [] => record
  | field_value :: fields =>
      generic_record fields (S j)
        (dict_set record ("col_" ++ str_of_nat j) field_value)
  end.

(** The loop over the data lines of [process_fast]. *)
Fixpoint data_loop (self : t) (has_header : bool)
    (headers : option (list string)) (lines : list string)
    (result : list (dict string)) : list (dict string) :=
  match lines with
  | [] => result
  | line :: lines =>
      if is_empty (strip line) then
        data_loop self has_header headers lines result
      else
        let fields := _parse_csv_line_fast self line (String.length line) in
        let record :=
          match headers with
          | Some ((_ :: _) as hs) =>
              if has_header then zip_record hs fields []
              else generic_record fields 0 []
          | _ => generic_record fields 0 []
          end in
        data_loop self has_header headers lines (result ++ [record])%list
  end.

(** [process_fast]. *)
Definition process_fast (self : t) (file_content : string)
    (has_header : bool) : list (dict string) :=
  let lines := split newline (strip file_content) in
  match lines with
  | [] => []
  | first :: others =>
      if has_header then
        let headers :=
          _parse_csv_line_fast self first (String.length first) in
        data_loop self has_header (Some headers) others []
      else
        data_loop self has_header None lines []
  end.

(** A file as [open] finds it: unreadable, or its lines, each with the line
    feed that ends it. *)
Inductive file : Type :=
| Unreadable (reason : string)
| Lines (lines : list string).

(** The local function [process_chunk] of [process_large_file_fast]. *)
Definition process_chunk (chunk_data : list (dict string))
    : list (dict string) :=
  chunk_data.

(** The loop [for line in f] of [process_large_file_fast], on the state
    [(chunk, line_count)]. [line_count] is a C [int]; files of fewer than
    2^31 lines keep it in range. *)
Fixpoint large_file_loop (self : t) (headers : option (list string))
    (chunk_size : Z) (lines : list string) (chunk : list (dict string))
    (line_count : Z) : list (dict string) * Z :=
  match lines with
  | [] => (chunk, line_count)
  | line :: lines =>
      let line := strip line in
      if is_empty line then
        large_file_loop self headers chunk_size lines chunk line_count
      else
        let fields := _parse_csv_line_fast self line (String.length line) in
        let chunk :=
          match headers with
          | Some ((_ :: _) as hs) => (chunk ++ [zip_record hs fields []])%list
          | _ => chunk
          end in
        let line_count := (line_count + 1)%Z in
        if (chunk_size <=? Z.of_nat (List.length chunk))%Z then
          let _ := process_chunk chunk in
          large_file_loop self headers chunk_size lines [] line_count
        else
          large_file_loop self headers chunk_size lines chunk line_count
  end.

(** [process_large_file_fast]: the first line gives the headers, the others
    are counted and gathered in chunks handed to the local [process_chunk];
    a failure to read is raised again as a plain [Exception]. *)
Definition process_large_file_fast (self : t) (f : file) (chunk_size : Z)
    : exc Z :=
  match f with
  | Unreadable reason =>
      Raise (Exception ("Error processing large CSV file: " ++ reason))
  | Lines lines =>
      let header_line :=
        match lines with
        | [] => ""
        | first :: _ => strip first
        end in
      let headers :=
        if is_empty header_line then None
        else Some (_parse_csv_line_fast self header_line
                     (String.length header_line)) in
      let '(chunk, line_count) :=
        large_file_loop self headers chunk_size (tl lines) [] 0%Z in
      let _ := match chunk with [] => [] | _ => process_chunk chunk end in
      Ok line_count
  end.

(** A chunk handler a caller supplies: it takes a chunk and may raise. *)
Definition chunk_handler : Type := list (dict string) -> exc unit.

(** [stream_process]: the [callback] argument is accepted and the work is
    [process_large_file_fast(file_path, chunk_size)]. *)
Definition stream_process (self : t) (f : file) (chunk_size : Z)
    (callback : option chunk_handler) : exc Z :=
  process_large_file_fast self f chunk_size.

(** One entry of the list [erp_data_validator] returns. *)
Record ValidationError : Type := mkValidationError {
  ve_record : nat;
  ve_field : string;
  ve_error : string
}.

(** The bound of a length constraint taken from a rule object, with its
    text: an integer (a [bool] is one). A [float] bound is left out of the
    model; the other values cannot be compared with a length. *)
Definition length_bound (bound : pyval) : exc (Z * string) :=
  match bound with
  | PInt n => Ok (n, str_of_Z n)
  | PBool true => Ok (1%Z, "True")
  | PBool false => Ok (0%Z, "False")
  | _ => Raise TypeError
  end.

Section Validator.

(** [int(s)] and [float(s)] of the Python runtime: whether they return
    rather than raise [ValueError]. *)
Variable int_parses : string -> bool.
Variable float_parses : string -> bool.

(** The body of the loop over the schema of [erp_data_validator], for one
    field of one record. Records are those the decoders produce: their
    values are strings, on which [str] changes nothing. *)
Definition validate_field (record_idx : nat) (record : dict string)
    (field_name : string) (field_rules : pyval)
    (errors : list ValidationError) : exc (list ValidationError) :=
  match field_rules with
  | PDict field_rules =>
      match dict_get record field_name with
      | None =>
          if truthy (dict_get_default field_rules "required" (PBool false))
          then Ok (errors ++ [ {| ve_record := record_idx;
                                  ve_field := field_name;
                                  ve_error := "Required field missing" |} ])%list
          else Ok errors
      | Some field_value =>
          (field_type <- SAPTransformerCy.as_cdef_str
                           (dict_get_default field_rules "type" (PStr "string")) ;;
           let errors :=
             if str_is field_type "integer" then
               if int_parses field_value then errors
               else (errors ++ [ {| ve_record := record_idx;
                                    ve_field := field_name;
                                    ve_error := "Invalid integer: "
                                                ++ field_value |} ])%list
             else if str_is field_type "float" then
               if float_parses field_value then errors
               else (errors ++ [ {| ve_record := record_idx;
                                    ve_field := field_name;
                                    ve_error := "Invalid float: "
                                                ++ field_value |} ])%list
             else errors in
           match dict_get field_rules "max_length" with
           | None => Ok errors
           | Some bound =>
               b <- length_bound bound ;;
               if (fst b <? Z.of_nat (String.length field_value))%Z then
                 Ok (errors ++ [ {| ve_record := record_idx;
                                    ve_field := field_name;
                                    ve_error :=
                                      "Value too long: "
                                      ++ str_of_nat (String.length field_value)
                                      ++ " > " ++ snd b |} ])%list
               else Ok errors
           end)%py
      end
  | _ => Raise AttributeError
  end.

(** [for field_name, field_rules in schema.items()]. *)
Fixpoint validate_record (record_idx : nat) (record : dict string)
    (schema : dict pyval) (errors : list ValidationError)
    : exc (list ValidationError) :=
  match schema with
  | [] => Ok errors
  | (field_name, field_rules) :: schema =>
      (errors <- validate_field record_idx record field_name field_rules
                   errors ;;
       validate_record record_idx record schema errors)%py
  end.

(** [for record_idx in range(len(data))]. *)
Fixpoint validate_records (record_idx : nat) (data : list (dict string))
    (schema : dict pyval) (errors : list ValidationError)
    : exc (list ValidationError) :=
  match data with
  | [] => Ok errors
  | record :: data =>
      (errors <- validate_record record_idx record schema errors ;;
       validate_records (S record_idx) data schema errors)%py
  end.

(** [erp_data_validator]. *)
Definition erp_data_validator (data : list (dict string)) (schema : dict pyval)
    : exc (list ValidationError) :=
  validate_records 0 data schema [].

End Validator.

(** A rule object without its [min_length] and [pattern] entries. *)
Definition other_rule (kv : string * pyval) : bool :=
  negb (String.eqb (fst kv) "min_length" || String.eqb (fst kv) "pattern").

Definition without_floor_and_pattern (field_rules : pyval) : pyval :=
  match field_rules with
  | PDict rules => PDict (filter other_rule rules)
  | _ => field_rules
  end.

(** The CSV text of the specification's example. *)
Definition csv_example : string :=
  "id,name,amount" ++ String newline
    ("1," ++ String dquote ("Acme, Inc." ++ String dquote ",100.50"))
  ++ String newline "2,Beta Corp,200.00".

(** An instance whose quote character is the apostrophe. *)
Definition apostrophe_quoted : t :=
  {| delimiter := ","; quotechar := "'"; buffer_size := 8192 |}.

(** A file of a header line and one data line. *)
Definition two_line_file : file :=
  Lines [ "id,name" ++ String newline ""; "1,Acme" ++ String newline "" ].

(** A chunk handler that raises whatever it is given. *)
Definition failing_handler : chunk_handler :=
  fun _ => Raise (Exception "handler failed").

End CSVProcessorCy.

(** ** [string_utils_cy.pyx] *)
Module StringUtilsCy.
Import PyStr Py.

(** [errors.append(msg)]. *)
Definition append_error (errors : list string) (msg : string) : list string :=
  (errors ++ [msg])%list.

(** The value of a decimal digit. *)
Definition digit_value (c : ascii) : Z := Z.of_nat (nat_of_ascii c) - 48.

(** [int(s)] on a string [s] for which [s.isdigit()] holds: the number it
    writes when all its characters are decimal digits, [ValueError] when
    one of them is a superscript digit. *)
Definition int_of_digits (s : string) : exc Z :=
  if all_chars is_decimal s then
    Ok (fold_left (fun acc c => acc * 10 + digit_value c)%Z
          (list_ascii_of_string s) 0%Z)
  else Raise ValueError.

Section FieldValidator.

(** [re.match(pattern, s) is not None], of the Python runtime. *)
Variable re_match : string -> string -> bool.

(** The type-specific part of [erp_field_validator]. *)
Definition validate_type (field_value : string) (field_type : option string)
    (errors : list string) : exc (list string) :=
  if str_is field_type "numeric" then
    if negb (isdigit (replace "-" "" (replace "." "" field_value)))
    then Ok (append_error errors ("Invalid numeric value: " ++ field_value))
    else Ok errors
  else if str_is field_type "date" then
    if (String.length field_value =? 8) && isdigit field_value then
      (year <- int_of_digits (slice field_value 0 4) ;;
       month <- int_of_digits (slice field_value 4 6) ;;
       day <- int_of_digits (slice field_value 6 8) ;;
       let errors :=
         if (year <? 1900)%Z || (2100 <? year)%Z
         then (append_error errors ("Invalid year: " ++ str_of_Z year))
         else errors in
       let errors :=
         if (month <? 1)%Z || (12 <? month)%Z
         then (append_error errors ("Invalid month: " ++ str_of_Z month))
         else errors in
       let errors :=
         if (day <? 1)%Z || (31 <? day)%Z
         then (append_error errors ("Invalid day: " ++ str_of_Z day))
         else errors in
       Ok errors)%py
    else Ok (append_error errors ("Invalid date format: " ++ field_value))
  else if str_is field_type "material_number" then
    if negb (isalnum (replace "-" "" field_value))
    then Ok (append_error errors ("Invalid material number format: " ++ field_value))
    else Ok errors
  else Ok errors.

(** The constraint part of [erp_field_validator]. *)
Definition validate_constraints (field_value : string)
    (constraints : dict pyval) (errors : list string) : exc (list string) :=
  let len := String.length field_value in
  (errors <- match dict_get constraints "min_length" with
             | None => Ok errors
             | Some bound =>
                 b <- CSVProcessorCy.length_bound bound ;;
                 if (Z.of_nat len <? fst b)%Z
                 then Ok (append_error errors ("Value too short: " ++ str_of_nat len ++ " < " ++ snd b))
                 else Ok errors
             end ;;
   errors <- match dict_get constraints "max_length" with
             | None => Ok errors
             | Some bound =>
                 b <- CSVProcessorCy.length_bound bound ;;
                 if (fst b <? Z.of_nat len)%Z
                 then Ok (append_error errors ("Value too long: " ++ str_of_nat len ++ " > " ++ snd b))
                 else Ok errors
             end ;;
   match dict_get constraints "pattern" with
   | None => Ok errors
   | Some (PStr pattern) =>
       if negb (re_match pattern field_value)
       then Ok (append_error errors ("Value doesn't match pattern: " ++ pattern))
       else Ok errors
   | Some _ => Raise TypeError
   end)%py.

(** [erp_field_validator]; [None] for an argument is Python's [None]. *)
Definition erp_field_validator (field_value field_type : option string)
    (constraints : option (dict pyval)) : exc (list string) :=
  let no_value :=
    match field_value with
    | None => true
    | Some v => is_empty v
    end in
  let has_constraints :=
    match constraints with
    | Some (_ :: _) => true
    | _ => false
    end in
  let required :=
    match constraints with
    | Some c => truthy (dict_get_default c "required" (PBool false))
    | None => false
    end in
  if no_value && has_constraints && required then Ok ["Field is required"]
  else
    match field_value with
    | None => Ok []
    | Some field_value =>
        if is_empty field_value then Ok []
        else
          (errors <- validate_type field_value field_type [] ;;
           match constraints with
           | Some ((_ :: _) as c) => validate_constraints field_value c errors
           | _ => Ok errors
           end)%py
    end.

End FieldValidator.

End StringUtilsCy.

(** ** [json_processor_cy.pyx]: class [JSONProcessorCy] *)
Module JSONProcessorCy.
Import PyStr Py.

(** [_flatten_dict_fast] on the dictionary [v]; the loop over the items of
    the dictionary and, inside it, the loop over the elements of a list
    value are the two inner fixpoints. *)
Fixpoint flatten_value (sep : string) (v : pyval) (parent_key : string)
    {struct v} : dict pyval :=
  match v with
  | PDict obj =>
      (fix items_loop (kvs : list (string * pyval)) (items : dict pyval)
           {struct kvs} : dict pyval :=
         match kvs with
         | [] => items
         | (k, v) :: kvs =>
             let new_key :=
               if is_empty parent_key then k else parent_key ++ sep ++ k in
             let items :=
               match v with
               | PDict _ => dict_update items (flatten_value sep v new_key)
               | PList l =>
                   (fix list_loop (l : list pyval) (i : nat)
                        (items : dict pyval) {struct l} : dict pyval :=
                      match l with
                      | [] => items
                      | item :: l =>
                          let items :=
                            match item with
                            | PDict _ =>
                                dict_update items
                                  (flatten_value sep item
                                     (new_key ++ sep ++ str_of_nat i))
                            | _ =>
                                dict_set items
                                  (new_key ++ sep ++ str_of_nat i) item
                            end in
                          list_loop l (S i) items
                      end) l 0 items
               | _ => dict_set items new_key v
               end in
             items_loop kvs items
         end) obj []
  | _ => []
  end.

(** [_flatten_dict_fast]. *)
Definition _flatten_dict_fast (obj : dict pyval) (parent_key sep : string)
    : dict pyval :=
  flatten_value sep (PDict obj) parent_key.

(** [flatten]: the dictionary flattened from the empty parent key. *)
Definition flatten (data : dict pyval) (sep : string) : dict pyval :=
  _flatten_dict_fast data "" sep.

(** The loop [for i in range(len(v))] of [_flatten_dict_fast], by name. *)
Fixpoint flatten_list (sep new_key : string) (l : list pyval) (i : nat)
    (items : dict pyval) : dict pyval :=
  match l with
  | [] => items
  | item :: l =>
      let items :=
        match item with
        | PDict _ =>
            dict_update items
              (flatten_value sep item (new_key ++ sep ++ str_of_nat i))
        | _ => dict_set items (new_key ++ sep ++ str_of_nat i) item
        end in
      flatten_list sep new_key l (S i) items
  end.

(** The loop [for k, v in obj.items()] of [_flatten_dict_fast], by name. *)
Fixpoint flatten_items (sep parent_key : string) (kvs : list (string * pyval))
    (items : dict pyval) : dict pyval :=
  match kvs with
  | [] => items
  | (k, v) :: kvs =>
      let new_key :=
        if is_empty parent_key then k else parent_key ++ sep ++ k in
      let items :=
        match v with
        | PDict _ => dict_update items (flatten_value sep v new_key)
        | PList l => flatten_list sep new_key l 0 items
        | _ => dict_set items new_key v
        end in
      flatten_items sep parent_key kvs items
  end.

(** *** The reading of the specification *)

(** A step of a path from the root: a dictionary key or a list index. *)
Inductive seg : Type :=
| Key (k : string)
| Idx (i : nat).

(** The key of the child reached by one step from the value of key
    [parent_key]: a dictionary key under the empty parent key is taken as
    it is. *)
Definition join_seg (sep parent_key : string) (s : seg) : string :=
  match s with
  | Key k => if is_empty parent_key then k else parent_key ++ sep ++ k
  | Idx i => parent_key ++ sep ++ str_of_nat i
  end.

(** The joined path. *)
Definition join_path (sep parent_key : string) (path : list seg) : string :=
  fold_left (join_seg sep) path parent_key.

Definition under (s : seg) (leaf : list seg * pyval) : list seg * pyval :=
  (s :: fst leaf, snd leaf).

(** The scalar leaves of a value with their paths, in the order of the
    traversal: dictionaries and lists are descended into, wherever they
    are. *)
Fixpoint scalar_leaves (v : pyval) : list (list seg * pyval) :=
  match v with
  | PDict obj =>
      (fix of_items (kvs : list (string * pyval)) : list (list seg * pyval) :=
         match kvs with
         | [] => []
         | (k, v) :: kvs =>
             (map (under (Key k)) (scalar_leaves v) ++ of_items kvs)%list
         end) obj
  | PList l =>
      (fix of_list (l : list pyval) (i : nat) : list (list seg * pyval) :=
         match l with
         | [] => []
         | item :: l =>
             (map (under (Idx i)) (scalar_leaves item) ++ of_list l (S i))%list
         end) l 0
  | _ => [([], v)]
  end.

Fixpoint leaves_of_list (l : list pyval) (i : nat)
    : list (list seg * pyval) :=
  match l with
  | [] => []
  | item :: l =>
      (map (under (Idx i)) (scalar_leaves item) ++ leaves_of_list l (S i))%list
  end.

Fixpoint leaves_of_items (kvs : list (string * pyval))
    : list (list seg * pyval) :=
  match kvs with
  | [] => []
  | (k, v) :: kvs =>
      (map (under (Key k)) (scalar_leaves v) ++ leaves_of_items kvs)%list
  end.

(** The leaves with their joined paths as keys. *)
Definition keyed_leaves (sep parent_key : string)
    (leaves : list (list seg * pyval)) : list (string * pyval) :=
  map (fun leaf => (join_path sep parent_key (fst leaf), snd leaf)) leaves.

(** No list is directly an element of a list. *)
Fixpoint no_list_in_list (v : pyval) : bool :=
  match v with
  | PDict obj =>
      (fix of_items (kvs : list (string * pyval)) : bool :=
         match kvs with
         | [] => true
         | (_, v) :: kvs => no_list_in_list v && of_items kvs
         end) obj
  | PList l =>
      (fix of_list (l : list pyval) : bool :=
         match l with
         | [] => true
         | item :: l =>
             match item with
             | PList _ => false
             | _ => no_list_in_list item
             end && of_list l
         end) l
  | _ => true
  end.

(** The value of [key] once the dictionary [items] has taken, in order,
    the pairs of [l]. *)
Definition get_after {V} (items : dict V) (l : list (string * V))
    (key : string) : option V :=
  match last_binding l key with
  | Some x => Some x
  | None => dict_get items key
  end.

(** What the flattening loops are shown to do on a value without a list
    directly inside a list: on a dictionary, under any parent key, a key of
    the result has the value of the last leaf of that joined path; on a
    list, the loop over its elements adds its leaves to [items]. *)
Definition flattens_to_leaves (sep : string) (v : pyval) : Prop :=
  no_list_in_list v = true ->
  match v with
  | PDict _ =>
      forall parent_key key,
        dict_get (flatten_value sep v parent_key) key
        = last_binding (keyed_leaves sep parent_key (scalar_leaves v)) key
  | PList l =>
      forall new_key i items key,
        dict_get (flatten_list sep new_key l i items) key
        = get_after items (keyed_leaves sep new_key (leaves_of_list l i)) key
  | _ => True
  end.

(** The claim of the specification on one dictionary: every scalar leaf is
    stored under its joined path. *)
Definition stores_every_leaf (sep : string) (data : dict pyval) : Prop :=
  forall path x,
    In (path, x) (scalar_leaves (PDict data)) ->
    dict_get (flatten data sep) (join_path sep "" path) = Some x.

(** A list directly inside a list. *)
Definition list_in_list_example : dict pyval :=
  [("a", PList [PList [PInt 1]])].

(** Two leaves whose paths join to the same key. *)
Definition collision_example : dict pyval :=
  [("a_b", PInt 1); ("a", PDict [("b", PInt 2)])].

(** Nested dictionaries and a list of dictionaries and scalars. *)
Definition nested_example : dict pyval :=
  [ ("id", PInt 7);
    ("address", PDict [("city", PStr "Ankara"); ("zip", PStr "06000")]);
    ("items", PList [PDict [("sku", PStr "A1")]; PStr "note"]) ].

End JSONProcessorCy.

(** ** [math_utils_cy.pyx]

    A [double[:]] argument is the list of its elements and a [long[:]]
    argument a list of integers; the lengths of the arrays are below 2^31,
    the range of the C [int] that holds them. *)
Module MathUtilsCy.
Import Py.

(** A C [int] converted to a [double]. *)
Definition double_of_int (n : Z) : float :=
  if (0 <=? n)%Z then PrimFloat.of_uint63 (Uint63.of_Z n)
  else PrimFloat.opp (PrimFloat.of_uint63 (Uint63.of_Z (- n))).

(** [arr.shape[0]]. *)
Definition shape0 (arr : list float) : Z := Z.of_nat (List.length arr).

(** [fast_sum]. *)
Definition fast_sum (arr : list float) : float :=
  fold_left PrimFloat.add arr 0%float.

(** [fast_mean]. *)
Definition fast_mean (arr : list float) : float :=
  let n := shape0 arr in
  if (n =? 0)%Z then 0%float
  else
    let total := fold_left PrimFloat.add arr 0%float in
    PrimFloat.div total (double_of_int n).

(** [fast_std]. *)
Definition fast_std (arr : list float) : float :=
  let mean_val := fast_mean arr in
  let n := shape0 arr in
  if (n <=? 1)%Z then 0%float
  else
    let variance :=
      fold_left
        (fun variance x =>
           let diff := PrimFloat.sub x mean_val in
           PrimFloat.add variance (PrimFloat.mul diff diff))
        arr 0%float in
    let variance := PrimFloat.div variance (double_of_int (n - 1)) in
    PrimFloat.sqrt variance.

(** [min(values)] and [max(values)] of Python on a list of floats: the
    first element is replaced by each later one that compares below,
    respectively above, it. *)
Definition py_min (values : list float) : float :=
  match values with
  | [] => 0%float
  | x :: rest =>
      fold_left (fun best y => if PrimFloat.ltb y best then y else best)
        rest x
  end.

Definition py_max (values : list float) : float :=
  match values with
  | [] => 0%float
  | x :: rest =>
      fold_left (fun best y => if PrimFloat.ltb best y then y else best)
        rest x
  end.

(** A value of the result dictionary: a [float], or the [int] of a count. *)
Inductive aggval : Type :=
| AFloat (x : float)
| AInt (n : Z).

(** The loop [for i in range(n)] of [erp_group_aggregation], with
    [n = values.shape[0]]: bounds checks are compiled out, and reading
    [group_ids] past its end has no defined result ([None]). *)
Fixpoint group_loop (group_ids : list Z) (values : list float)
    (groups : keyed Z (list float)) {struct values}
    : option (keyed Z (list float)) :=
  match values with
  | [] => Some groups
  | value :: values =>
      match group_ids with
      | [] => None
      | group_id :: group_ids =>
          let groups :=
            if negb (dict_mem groups group_id)
            then dict_set groups group_id []
            else groups in
          let groups :=
            dict_set groups group_id
              (dict_get_default groups group_id [] ++ [value])%list in
          group_loop group_ids values groups
      end
  end.

Section Aggregation.

(** [np.sort] of NumPy, on which [fast_median] relies. *)
Variable np_sort : list float -> list float.

(** [fast_median]. *)
Definition fast_median (arr : list float) : float :=
  let n := List.length arr in
  let sorted_arr := np_sort arr in
  if n =? 0 then 0%float
  else if n mod 2 =? 1 then nth (n / 2) sorted_arr 0%float
  else
    PrimFloat.div
      (PrimFloat.add (nth (n / 2 - 1) sorted_arr 0%float)
                     (nth (n / 2) sorted_arr 0%float))
      2%float.

(** The loop [for group_id, group_values in groups.items()]. *)
Fixpoint aggregate_loop (agg_func : string)
    (groups : list (Z * list float)) (results : keyed Z aggval)
    : keyed Z aggval :=
  match groups with
  | [] => results
  | (group_id, group_values) :: groups =>
      let results :=
        if String.eqb agg_func "sum" then
          dict_set results group_id (AFloat (fast_sum group_values))
        else if String.eqb agg_func "mean" then
          dict_set results group_id (AFloat (fast_mean group_values))
        else if String.eqb agg_func "std" then
          dict_set results group_id (AFloat (fast_std group_values))
        else if String.eqb agg_func "median" then
          dict_set results group_id (AFloat (fast_median group_values))
        else if String.eqb agg_func "count" then
          dict_set results group_id
            (AInt (Z.of_nat (List.length group_values)))
        else if String.eqb agg_func "min" then
          dict_set results group_id (AFloat (py_min group_values))
        else if String.eqb agg_func "max" then
          dict_set results group_id (AFloat (py_max group_values))
        else results in
      aggregate_loop agg_func groups results
  end.

(** [erp_group_aggregation]. *)
Definition erp_group_aggregation (group_ids : list Z) (values : list float)
    (agg_func : string) : option (keyed Z aggval) :=
  match group_loop group_ids values [] with
  | Some groups => Some (aggregate_loop agg_func groups [])
  | None => None
  end.

End Aggregation.

(** The values assigned to the group [g], in the order of the input. *)
Fixpoint values_of (g : Z) (group_ids : list Z) (values : list float)
    : list float :=
  match group_ids, values with
  | group_id :: group_ids, value :: values =>
      if Z.eqb group_id g then value :: values_of g group_ids values
      else values_of g group_ids values
  | _, _ => []
  end.

(** The value of a group in a result, when there is a result. *)
Definition result_of (r : option (keyed Z aggval)) (g : Z) : option aggval :=
  match r with
  | Some results => dict_get results g
  | None => None
  end.

(** The claim of the specification read on any reordering of the input:
    two inputs that pair the same values with the same group ids give
    every group the same mean. *)
Definition mean_order_independent : Prop :=
  forall np_sort group_ids values group_ids' values',
    List.length group_ids = List.length values ->
    List.length group_ids' = List.length values' ->
    Permutation (combine group_ids values) (combine group_ids' values') ->
    forall g,
      result_of (erp_group_aggregation np_sort group_ids values "mean") g
      = result_of (erp_group_aggregation np_sort group_ids' values' "mean") g.

(** 2^53, from which on a [double] no longer holds every integer. *)
Definition two_53 : float := 9007199254740992%float.

End MathUtilsCy.

(** ** [sap_transformer_cy.pyx]: the RFC table decoder, the record
    transformers and the table utilities

    [str.upper] and [str.title] of the Python runtime leave the range of
    code points modelled here; they, and the test whether [float] accepts a
    string, are parameters. *)
Module SAPRecordsCy.
Import PyStr Py SAPTransformerCy.






(** The dictionary [sap_table_to_polars_format] returns. *)
Record PolarsTable : Type := mkPolarsTable {
  columns : list string;
  data : list (list pyval)
}.

(** The loop [for col in columns] of [sap_table_to_polars_format]. *)
Fixpoint polars_row_loop (record : option (dict pyval))
    (columns : list string) (row_values : list pyval) : exc (list pyval) :=
  match columns with
  | [] => Ok row_values
  | col :: rest =>
      match record with
      | None => Raise AttributeError
      | Some d =>
          polars_row_loop record rest
            (row_values ++ [dict_get_default d col (PStr "")])%list
      end
  end.

(** The loop [for record in sap_table_data]. *)
Fixpoint polars_loop (columns : list string) (sap_table_data : list pyval)
    (rows : list (list pyval)) : exc (list (list pyval)) :=
  match sap_table_data with
  | [] => Ok rows
  | item :: rest =>
      (record <- as_cdef_dict item ;;
       row_values <- polars_row_loop record columns [] ;;
       polars_loop columns rest (rows ++ [row_values])%list)%py
  end.

(** [sap_table_to_polars_format]: the first record is not typed, and
    anything but a dictionary has no [keys]. *)
Definition sap_table_to_polars_format (sap_table_data : list pyval)
    : exc PolarsTable :=
  match sap_table_data with
  | [] => Ok {| columns := []; data := [] |}
  | first :: _ =>
      match first with
      | PDict first_record =>
          let columns := dict_keys first_record in
          (rows <- polars_loop columns sap_table_data [] ;;
           Ok {| columns := columns; data := rows |})%py
      | _ => Raise AttributeError
      end
  end.

(** [s.lstrip('0') or '0']. *)
Definition strip_zeros (s : string) : string :=
  if is_empty (lstrip_by (Ascii.eqb "0") s) then "0"
  else lstrip_by (Ascii.eqb "0") s.

(** A [str] or [None] as a value of a result dictionary. *)
Definition of_cdef_str (v : option string) : pyval :=
  match v with
  | Some s => PStr s
  | None => PNone
  end.

(** [self._transform_sap_field(value).lstrip('0') or '0'] for a [cdef str]
    value: [None] is returned as it is by the normalizer and has no
    [lstrip]. *)
Definition key_number (value : option string) : exc pyval :=
  match value with
  | Some s => Ok (PStr (strip_zeros (transform_str s)))
  | None => Raise AttributeError
  end.

(** [self._transform_sap_field(value)] for a [cdef str] value. *)
Definition normalized (value : option string) : pyval :=
  _transform_sap_field (of_cdef_str value).

Section Records.

Variable str_upper : string -> string.
Variable str_title : string -> string.
Variable float_parses : string -> bool.

(** [value.strip().upper()], [value.strip().title()] and [value.strip()]
    for a [cdef str] value. *)
Definition stripped_upper (value : option string) : exc pyval :=
  match value with
  | Some s => Ok (PStr (str_upper (strip s)))
  | None => Raise AttributeError
  end.

Definition stripped_title (value : option string) : exc pyval :=
  match value with
  | Some s => Ok (PStr (str_title (strip s)))
  | None => Raise AttributeError
  end.

Definition stripped (value : option string) : exc pyval :=
  match value with
  | Some s => Ok (PStr (strip s))
  | None => Raise AttributeError
  end.

(** [_normalize_numeric_field]. *)
Definition _normalize_numeric_field (value : option string) : string :=
  match value with
  | None => "0"
  | Some value =>
      if is_empty value || is_empty (strip value) then "0"
      else
        let cleaned := strip value in
        let cleaned := replace "," "." cleaned in
        let is_negative := endswith "-" cleaned in
        let cleaned := if is_negative then drop_last cleaned else cleaned in
        if float_parses cleaned then
          (if is_negative then "-" ++ cleaned else cleaned)
        else "0"
  end.

(** [key in [a, b]]. *)
Definition one_of (key a b : string) : bool :=
  String.eqb key a || String.eqb key b.

(** The value [_transform_material_master] stores for one item. *)
Definition material_field (key : string) (value : option string)
    : exc pyval :=
  if String.eqb key "MATNR" then key_number value
  else if one_of key "ERSDA" "LAEDA" then Ok (normalized value)
  else if String.eqb key "MTART" then stripped_upper value
  else if one_of key "BRGEW" "NTGEW"
  then Ok (PStr (_normalize_numeric_field value))
  else Ok (normalized value).

(** The value [_transform_vendor_master] stores for one item. *)
Definition vendor_field (key : string) (value : option string) : exc pyval :=
  if String.eqb key "LIFNR" then key_number value
  else if String.eqb key "NAME1" then stripped_title value
  else if one_of key "STRAS" "PFACH" then stripped value
  else if String.eqb key "LAND1" then stripped_upper value
  else Ok (normalized value).

(** The value [_transform_customer_master] stores for one item. *)
Definition customer_field (key : string) (value : option string)
    : exc pyval :=
  if String.eqb key "KUNNR" then key_number value
  else if one_of key "NAME1" "NAME2" then stripped_title value
  else if String.eqb key "KTOKD" then stripped_upper value
  else Ok (normalized value).

(** The value [_transform_financial_document] stores for one item. *)
Definition financial_field (key : string) (value : option string)
    : exc pyval :=
  if String.eqb key "BELNR" then key_number value
  else if one_of key "DMBTR" "WRBTR"
  then Ok (PStr (_normalize_numeric_field value))
  else if String.eqb key "WAERS" then stripped_upper value
  else if one_of key "BUDAT" "BLDAT" then Ok (normalized value)
  else Ok (normalized value).

(** The loop [for key, value in record.items()] of the four record
    transformers, [key] and [value] being [cdef str] variables; [field] is
    the branch of the transformer. *)
Fixpoint typed_items_loop (field : string -> option string -> exc pyval)
    (items : list (string * pyval)) (result : dict pyval)
    : exc (dict pyval) :=
  match items with
  | [] => Ok result
  | (key, value) :: rest =>
      (value <- as_cdef_str value ;;
       v <- field key value ;;
       typed_items_loop field rest (dict_set result key v))%py
  end.

Definition _transform_material_master (record : dict pyval)
    : exc (dict pyval) :=
  typed_items_loop material_field record [].

Definition _transform_vendor_master (record : dict pyval)
    : exc (dict pyval) :=
  typed_items_loop vendor_field record [].

Definition _transform_customer_master (record : dict pyval)
    : exc (dict pyval) :=
  typed_items_loop customer_field record [].

Definition _transform_financial_document (record : dict pyval)
    : exc (dict pyval) :=
  typed_items_loop financial_field record [].

(** The generic branch of [batch_transform_records]:
    [for key, value in record.items():
       transformed_record[key] = self._transform_sap_field(value)]. *)
Fixpoint generic_items_loop (items : list (string * pyval))
    (transformed_record : dict pyval) : dict pyval :=
  match items with
  | [] => transformed_record
  | (key, value) :: rest =>
      generic_items_loop rest
        (dict_set transformed_record key (_transform_sap_field value))
  end.

(** One turn of the loop of [batch_transform_records]. *)
Definition transform_record (record_type : string) (record : dict pyval)
    : exc (dict pyval) :=
  if String.eqb record_type "material_master"
  then _transform_material_master record
  else if String.eqb record_type "vendor_master"
  then _transform_vendor_master record
  else if String.eqb record_type "customer_master"
  then _transform_customer_master record
  else if String.eqb record_type "financial_document"
  then _transform_financial_document record
  else Ok (generic_items_loop record []).

(** The loop [for record in records] of [batch_transform_records]. *)
Fixpoint batch_loop (record_type : string) (records : list pyval)
    (transformed : list (dict pyval)) : exc (list (dict pyval)) :=
  match records with
  | [] => Ok transformed
  | item :: rest =>
      (record <- as_cdef_dict item ;;
       match record with
       | None =>
           (* the type-specific transformers and [items] need a dict *)
           Raise AttributeError
       | Some record =>
           transformed_record <- transform_record record_type record ;;
           batch_loop record_type rest
             (transformed ++ [transformed_record])%list
       end)%py
  end.

(** [batch_transform_records]. *)
Definition batch_transform_records (records : list pyval)
    (record_type : string) : exc (list (dict pyval)) :=
  batch_loop record_type records [].

End Records.

(** The field that holds the key number of a record of a known type. *)
Definition key_field (record_type : string) : option string :=
  if String.eqb record_type "material_master" then Some "MATNR"
  else if String.eqb record_type "vendor_master" then Some "LIFNR"
  else if String.eqb record_type "customer_master" then Some "KUNNR"
  else if String.eqb record_type "financial_document" then Some "BELNR"
  else None.

(** Whether [batch_transform_records] has a transformer of its own for the
    record type. *)
Definition known_type (record_type : string) : bool :=
  match key_field record_type with
  | Some _ => true
  | None => false
  end.

(** A material master record. *)
Definition material_example : dict pyval :=
  [ ("MATNR", PStr "000000000000001234"); ("ERSDA", PStr "20230615");
    ("BRGEW", PStr "12,5-") ].

(** A key number in its final form: ["0"], or not starting with a zero. *)
Definition no_leading_zero (s : string) : Prop :=
  s = "0" \/ (s <> "" /\ startswith "0" s = false).




End SAPRecordsCy.

(** ** The string utilities: dates, JSON escaping, truncation *)
Module StringToolsCy.
Import PyStr Py.

(** [sap_date_normalize]; [None] is Python's [None]. *)
Definition sap_date_normalize (sap_date : option string) : string :=
  match sap_date with
  | None => ""
  | Some sap_date =>
      if is_empty sap_date || String.eqb sap_date "00000000" then ""
      else
        let cleaned := strip sap_date in
        if (String.length cleaned =? 8) && isdigit cleaned then
          slice cleaned 0 4 ++ "-" ++ slice cleaned 4 6
            ++ "-" ++ slice cleaned 6 8
        else cleaned
  end.

(** The characters [json_string_escape] works on. *)
Definition backslash : ascii := "092"%char.
Definition dquote : ascii := "034"%char.
Definition line_feed : ascii := "010"%char.
Definition carriage_return : ascii := "013"%char.
Definition tab : ascii := "009"%char.
Definition backspace : ascii := "008"%char.
Definition form_feed : ascii := "012"%char.

(** A backslash followed by [c]. *)
Definition escaped (c : ascii) : string := String backslash (String c "").

(** [json_string_escape]: seven replacements, one after the other. *)
Definition json_string_escape (input_string : option string) : string :=
  match input_string with
  | None => ""
  | Some input_string =>
      if is_empty input_string then ""
      else
        let result := input_string in
        let result := replace backslash (escaped backslash) result in
        let result := replace dquote (escaped dquote) result in
        let result := replace line_feed (escaped "n") result in
        let result := replace carriage_return (escaped "r") result in
        let result := replace tab (escaped "t") result in
        let result := replace backspace (escaped "b") result in
        let result := replace form_feed (escaped "f") result in
        result
  end.

(** The escape of one character, as a single pass over the string would
    write it. *)
Definition escape_char (c : ascii) : string :=
  if Ascii.eqb c backslash then escaped backslash
  else if Ascii.eqb c dquote then escaped dquote
  else if Ascii.eqb c line_feed then escaped "n"
  else if Ascii.eqb c carriage_return then escaped "r"
  else if Ascii.eqb c tab then escaped "t"
  else if Ascii.eqb c backspace then escaped "b"
  else if Ascii.eqb c form_feed then escaped "f"
  else String c "".

(** The single pass: every character replaced by its escape. *)
Fixpoint escape_all (s : string) : string :=
  match s with
  | EmptyString => EmptyString
  | String c rest => escape_char c ++ escape_all rest
  end.

(** The character a backslash and [c] stand for. *)
Definition unescape_char (c : ascii) : ascii :=
  if Ascii.eqb c "n" then line_feed
  else if Ascii.eqb c "r" then carriage_return
  else if Ascii.eqb c "t" then tab
  else if Ascii.eqb c "b" then backspace
  else if Ascii.eqb c "f" then form_feed
  else c.

(** The reading that undoes the escapes: a backslash and the character
    after it stand for one character. *)
Fixpoint json_string_unescape (s : string) : string :=
  match s with
  | EmptyString => EmptyString
  | String c rest =>
      if Ascii.eqb c backslash then
        match rest with
        | String d rest' => String (unescape_char d) (json_string_unescape rest')
        | EmptyString => String c EmptyString
        end
      else String c (json_string_unescape rest)
  end.



End StringToolsCy.

(** ** [csv_processor_cy.pyx]: the line writer

    A file handle is the text written to it so far. *)
Module CSVWriterCy.
Import PyStr Py CSVProcessorCy.













End CSVWriterCy.

(** ** Class [JSONProcessorCy]: the field renaming

    The mapping is the one the signature of [transform] announces: names
    to names. *)
Module JSONTransformCy.
Import PyStr Py.

(** [_transform_dict_fast] on a dictionary and [_transform_list_fast] on a
    list, in one function on values; the loops over the items and over the
    elements are the inner fixpoints. *)
Fixpoint transform_value (mapping : dict string) (v : pyval) {struct v}
    : pyval :=
  match v with
  | PDict obj =>
      PDict
        ((fix items_loop (kvs : list (string * pyval)) (result : dict pyval)
              {struct kvs} : dict pyval :=
            match kvs with
            | [] => result
            | (old_key, value) :: kvs =>
                let new_key := dict_get_default mapping old_key old_key in
                let transformed_value :=
                  match value with
                  | PDict _ => transform_value mapping value
                  | PList _ => transform_value mapping value
                  | _ => value
                  end in
                items_loop kvs (dict_set result new_key transformed_value)
            end) obj [])
  | PList obj =>
      PList
        ((fix list_loop (l : list pyval) (result : list pyval) {struct l}
              : list pyval :=
            match l with
            | [] => result
            | item :: l =>
                let transformed_item :=
                  match item with
                  | PDict _ => transform_value mapping item
                  | PList _ => transform_value mapping item
                  | _ => item
                  end in
                list_loop l (result ++ [transformed_item])%list
            end) obj [])
  | _ => v
  end.

(** The loop [for old_key, value in obj.items()], by name. *)
Fixpoint transform_items (mapping : dict string)
    (kvs : list (string * pyval)) (result : dict pyval) : dict pyval :=
  match kvs with
  | [] => result
  | (old_key, value) :: kvs =>
      let new_key := dict_get_default mapping old_key old_key in
      let transformed_value :=
        match value with
        | PDict _ => transform_value mapping value
        | PList _ => transform_value mapping value
        | _ => value
        end in
      transform_items mapping kvs (dict_set result new_key transformed_value)
  end.

(** The loop [for item in obj], by name. *)
Fixpoint transform_elements (mapping : dict string) (l : list pyval)
    (result : list pyval) : list pyval :=
  match l with
  | [] => result
  | item :: l =>
      let transformed_item :=
        match item with
        | PDict _ => transform_value mapping item
        | PList _ => transform_value mapping item
        | _ => item
        end in
      transform_elements mapping l (result ++ [transformed_item])%list
  end.

(** [_transform_dict_fast]. *)
Definition _transform_dict_fast (obj : dict pyval) (mapping : dict string)
    : dict pyval :=
  transform_items mapping obj [].

(** [_transform_list_fast]. *)
Definition _transform_list_fast (obj : list pyval) (mapping : dict string)
    : list pyval :=
  transform_elements mapping obj [].

(** [transform]. *)
Definition transform (data : pyval) (mapping : dict string) : pyval :=
  match data with
  | PDict obj => PDict (_transform_dict_fast obj mapping)
  | PList obj => PList (_transform_list_fast obj mapping)
  | _ => data
  end.

(** The new name of a key. *)
Definition renamed (mapping : dict string) (old_key : string) : string :=
  dict_get_default mapping old_key old_key.

(** No dictionary of the value, at any depth, has a key twice: so are the
    values [json.loads] gives. *)
Fixpoint distinct_keys (v : pyval) : Prop :=
  match v with
  | PDict obj =>
      NoDup (dict_keys obj)
      /\ (fix of_items (kvs : list (string * pyval)) : Prop :=
            match kvs with
            | [] => True
            | (_, v) :: kvs => distinct_keys v /\ of_items kvs
            end) obj
  | PList l =>
      (fix of_list (l : list pyval) : Prop :=
         match l with
         | [] => True
         | item :: l => distinct_keys item /\ of_list l
         end) l
  | _ => True
  end.

(** A value that is neither a dictionary nor a list. *)
Definition is_scalar (v : pyval) : bool :=
  match v with
  | PDict _ | PList _ => false
  | _ => true
  end.

(** The values of a dictionary are all scalars. *)
Definition flat (d : dict pyval) : Prop :=
  Forall (fun kv => is_scalar (snd kv) = true) d.

(** What the flattening loops store on a value without a list directly
    inside a list: scalars only. *)
Definition stores_scalars (sep : string) (v : pyval) : Prop :=
  JSONProcessorCy.no_list_in_list v = true ->
  match v with
  | PDict _ => forall parent_key, flat (JSONProcessorCy.flatten_value sep v parent_key)
  | PList l =>
      forall new_key i items,
        flat items -> flat (JSONProcessorCy.flatten_list sep new_key l i items)
  | _ => True
  end.

End JSONTransformCy.

(** ** The JSON processor's [sap_bapi_response_parser] *)
Module JSONBapiCy.
Import PyStr Py SAPTransformerCy.

(** One entry of [result['messages']]. *)
Record ParsedMessage : Type := mkParsedMessage {
  pm_type : option string;
  pm_message : pyval;
  pm_field : pyval;
  pm_number : pyval
}.

(** The dictionary [sap_bapi_response_parser] returns. *)
Record ParsedResponse : Type := mkParsedResponse {
  pr_success : bool;
  pr_messages : list ParsedMessage;
  pr_data : dict pyval;
  pr_tables : dict pyval
}.

(** The loop [for msg in return_data], on the state
    [(result['success'], result['messages'])]. *)
Fixpoint parse_return (return_data : list pyval) (success : bool)
    (messages : list ParsedMessage) : exc (bool * list ParsedMessage) :=
  match return_data with
  | [] => Ok (success, messages)
  | item :: rest =>
      (msg <- as_cdef_dict item ;;
       match msg with
       | None => Raise AttributeError
       | Some msg =>
           msg_type <- as_cdef_str (dict_get_default msg "TYPE" (PStr "")) ;;
           let messages :=
             (messages ++
              [ {| pm_type := msg_type;
                   pm_message := dict_get_default msg "MESSAGE" (PStr "");
                   pm_field := dict_get_default msg "FIELD" (PStr "");
                   pm_number := dict_get_default msg "NUMBER" (PStr "") |} ])%list in
           let success := if str_is msg_type "E" then false else success in
           parse_return rest success messages
       end)%py
  end.

(** The loop [for key, value in bapi_response.items()], on the state
    [(result['data'], result['tables'])]. *)
Fixpoint parse_parameters (items : list (string * pyval)) (data : dict pyval)
    (tables : dict pyval) : dict pyval * dict pyval :=
  match items with
  | [] => (data, tables)
  | (key, value) :: rest =>
      if String.eqb key "RETURN" then parse_parameters rest data tables
      else
        match value with
        | PList (_ :: _) =>
            parse_parameters rest data (dict_set tables key value)
        | _ => parse_parameters rest (dict_set data key value) tables
        end
  end.

(** [sap_bapi_response_parser]. *)
Definition sap_bapi_response_parser (bapi_response : dict pyval)
    : exc ParsedResponse :=
  (sm <- match dict_get bapi_response "RETURN" with
         | Some return_data =>
             let return_data :=
               match return_data with
               | PDict _ => PList [return_data]
               | _ => return_data
               end in
             msgs <- py_iter return_data ;;
             parse_return msgs true []
         | None => Ok (true, [])
         end ;;
   let dt := parse_parameters bapi_response [] [] in
   Ok {| pr_success := fst sm;
         pr_messages := snd sm;
         pr_data := fst dt;
         pr_tables := snd dt |})%py.

(** A table parameter: a list that is not empty, under a name other than
    RETURN; an export parameter: anything else under such a name. *)
Definition is_table (kv : string * pyval) : bool :=
  negb (String.eqb (fst kv) "RETURN")
  && match snd kv with
     | PList (_ :: _) => true
     | _ => false
     end.

Definition is_export (kv : string * pyval) : bool :=
  negb (String.eqb (fst kv) "RETURN")
  && match snd kv with
     | PList (_ :: _) => false
     | _ => true
     end.

(** The entry of a message in the two results: the same type, text, field
    and number. *)
Definition same_message (m : Message) (pm : ParsedMessage) : Prop :=
  m_type m = pm_type pm
  /\ m_message m = pm_message pm
  /\ m_field m = pm_field pm
  /\ m_number m = pm_number pm.

(** An export parameter as the transformer stores it. *)
Definition normalized_entry (kv : string * pyval) : string * pyval :=
  (fst kv, _transform_sap_field (snd kv)).

(** [msg_type == 'E']. *)
Definition is_error (msg_type : option string) : bool := str_is msg_type "E".

(** A response with an abort message. *)
Definition abort_example : dict pyval :=
  [ ("RETURN", PList [ PDict [("TYPE", PStr "W")];
                       PDict [("TYPE", PStr "A"); ("MESSAGE", PStr "Stop")] ]);
    ("DOCUMENT", PStr "0000004711") ].

End JSONBapiCy.

(** ** [math_utils_cy.pyx]: the aggregation functions and the moving
    average *)
Module MathMoreCy.
Import Py MathUtilsCy.

(** What [erp_group_aggregation] stores for a group under the name
    [agg_func]: nothing under a name that is none of the seven. *)
Definition aggregate (np_sort : list float -> list float)
    (agg_func : string) (group_values : list float) : option aggval :=
  if String.eqb agg_func "sum" then Some (AFloat (fast_sum group_values))
  else if String.eqb agg_func "mean" then
    Some (AFloat (fast_mean group_values))
  else if String.eqb agg_func "std" then Some (AFloat (fast_std group_values))
  else if String.eqb agg_func "median" then
    Some (AFloat (fast_median np_sort group_values))
  else if String.eqb agg_func "count" then
    Some (AInt (Z.of_nat (List.length group_values)))
  else if String.eqb agg_func "min" then Some (AFloat (py_min group_values))
  else if String.eqb agg_func "max" then Some (AFloat (py_max group_values))
  else None.

(** The seven names. *)
Definition known_function (agg_func : string) : bool :=
  existsb (String.eqb agg_func)
    ["sum"; "mean"; "std"; "median"; "count"; "min"; "max"].

(** The ids of a list, each at its first occurrence. *)
Fixpoint first_seen (ids : list Z) : list Z :=
  match ids with
  | [] => []
  | id :: ids => id :: filter (fun x => negb (Z.eqb x id)) (first_seen ids)
  end.






End MathMoreCy.

(** ** The string utilities: CSV field escaping and material numbers *)
Module StringMoreCy.
Import PyStr Py.


(** A run of [n] characters [0]. *)
Fixpoint zeros (n : nat) : string :=
  match n with
  | O => ""
  | S n => String "0" (zeros n)
  end.

(** [s.zfill(width)]: the zeros go after a leading sign. *)
Definition zfill (width : nat) (s : string) : string :=
  if width <=? String.length s then s
  else
    let fill := zeros (width - String.length s) in
    match s with
    | String c rest =>
        if Ascii.eqb c "+" || Ascii.eqb c "-" then String c (fill ++ rest)
        else fill ++ s
    | EmptyString => fill
    end.

Section MaterialNumber.

(** [str.upper] of the Python runtime. *)
Variable str_upper : string -> string.

(** [sap_material_number_normalize]. *)
Definition sap_material_number_normalize (material_number : option string)
    : string :=
  match material_number with
  | None => ""
  | Some material_number =>
      if is_empty material_number then ""
      else
        let cleaned := str_upper (strip material_number) in
        let result := SAPRecordsCy.strip_zeros cleaned in
        if isdigit result then zfill 18 result else result
  end.

End MaterialNumber.

End StringMoreCy.

(* ===================================================================== *)
(** * Part II: properties *)
(* ===================================================================== *)

Module StrFacts.
Import PyStr.

Lemma digit_char_facts c :
  is_digit c = true ->
  is_space c = false /\ Ascii.eqb c "." = false
  /\ Ascii.eqb c "," = false /\ Ascii.eqb c "-" = false.
Proof. destruct c as [[] [] [] [] [] [] [] []]; vm_compute; intuition congruence. Qed.

Lemma rstrip_by_idem p s : rstrip_by p (rstrip_by p s) = rstrip_by p s.
Proof.
  induction s as [|c s IH]; simpl; [reflexivity|].
  destruct (rstrip_by p s) as [|d r] eqn:E.
  - destruct (p c) eqn:Pc; simpl; [reflexivity | now rewrite Pc].
  - change (rstrip_by p (String c (String d r)))
      with (match rstrip_by p (String d r) with
            | EmptyString => if p c then EmptyString else String c EmptyString
            | r0 => String c r0
            end).
    now rewrite IH.
Qed.

Lemma lstrip_by_head p s : head_kept p (lstrip_by p s).
Proof.
  induction s as [|c s IH]; simpl; [exact I|].
  destruct (p c) eqn:Pc; [exact IH | exact Pc].
Qed.

Lemma lstrip_by_fixed p s : head_kept p s -> lstrip_by p s = s.
Proof. destruct s as [|c s]; simpl; [reflexivity|]. now intros ->. Qed.

Lemma rstrip_by_head p s : head_kept p s -> head_kept p (rstrip_by p s).
Proof.
  destruct s as [|c s]; simpl; [exact (fun H => H)|]. intros Pc.
  destruct (rstrip_by p s); [rewrite Pc|]; exact Pc.
Qed.

Lemma strip_head s : head_kept is_space (strip s).
Proof. apply rstrip_by_head, lstrip_by_head. Qed.

Lemma strip_idem s : strip (strip s) = strip s.
Proof.
  unfold strip at 1.
  rewrite (lstrip_by_fixed _ _ (strip_head s)).
  apply rstrip_by_idem.
Qed.

(** The German-decimal rewrite [replace(',', '.')] commutes with the
    stripping functions, neither character being white space. *)
Lemma lstrip_replace_comma s :
  lstrip_by is_space (replace "," "." s) = replace "," "." (lstrip_by is_space s).
Proof.
  induction s as [|c s IH]; simpl; [reflexivity|].
  destruct (Ascii.eqb c ",") eqn:E.
  - apply Ascii.eqb_eq in E; subst c. reflexivity.
  - simpl. destruct (is_space c); [exact IH|]. simpl. now rewrite E.
Qed.


Lemma rstrip_replace_comma s :
  rstrip_by is_space (replace "," "." s) = replace "," "." (rstrip_by is_space s).
Proof.
  induction s as [|c s IH]; simpl; [reflexivity|].
  destruct (Ascii.eqb c ",") eqn:E.
  - apply Ascii.eqb_eq in E; subst c. simpl. rewrite IH.
    destruct (rstrip_by is_space s) as [|d r]; [reflexivity|].
    simpl. destruct (Ascii.eqb d ","); reflexivity.
  - simpl. rewrite IH.
    destruct (rstrip_by is_space s) as [|d r]; simpl.
    + destruct (is_space c); simpl; [reflexivity | now rewrite E].
    + rewrite E. destruct (Ascii.eqb d ","); reflexivity.
Qed.

Lemma strip_replace_comma s :
  strip (replace "," "." s) = replace "," "." (strip s).
Proof. unfold strip. now rewrite lstrip_replace_comma, rstrip_replace_comma. Qed.

Lemma length_replace_comma s :
  String.length (replace "," "." s) = String.length s.
Proof.
  induction s as [|c s IH]; simpl; [reflexivity|].
  destruct (Ascii.eqb c ","); simpl; now rewrite IH.
Qed.

Lemma contains_replace_comma s : contains "," (replace "," "." s) = false.
Proof.
  induction s as [|c s IH]; simpl; [reflexivity|].
  destruct (Ascii.eqb c ",") eqn:E; simpl; [exact IH | now rewrite E].
Qed.

Lemma all_digits_replace_comma s :
  contains "," s = true -> all_chars is_digit (replace "," "." s) = false.
Proof.
  induction s as [|c s IH]; simpl; [discriminate|].
  destruct (Ascii.eqb c ",") eqn:E; simpl; [reflexivity|].
  intros H. rewrite (IH H). apply andb_false_r.
Qed.

Lemma amount_digits_step c s :
  SAPTransformerCy.amount_digits (String c s)
  = if Ascii.eqb c "." || Ascii.eqb c "," || Ascii.eqb c "-"
    then SAPTransformerCy.amount_digits s
    else String c (SAPTransformerCy.amount_digits s).
Proof.
  unfold SAPTransformerCy.amount_digits. simpl.
  destruct (Ascii.eqb c ".") eqn:E1; simpl; [reflexivity|].
  destruct (Ascii.eqb c ",") eqn:E2; simpl; [reflexivity|].
  destruct (Ascii.eqb c "-") eqn:E3; simpl; reflexivity.
Qed.

Lemma amount_digits_replace_comma s :
  SAPTransformerCy.amount_digits (replace "," "." s)
  = SAPTransformerCy.amount_digits s.
Proof.
  induction s as [|c s IH]; [reflexivity|].
  rewrite amount_digits_step. simpl replace.
  destruct (Ascii.eqb c ",") eqn:E.
  - simpl append. rewrite amount_digits_step. simpl.
    rewrite orb_true_r. exact IH.
  - rewrite amount_digits_step, E, IH. reflexivity.
Qed.

Lemma amount_digits_of_digits s :
  all_chars is_digit s = true -> SAPTransformerCy.amount_digits s = s.
Proof.
  induction s as [|c s IH]; [reflexivity|]. simpl.
  intros H. apply andb_prop in H. destruct H as [Hc Hs].
  rewrite amount_digits_step.
  destruct (digit_char_facts c Hc) as (_ & -> & -> & ->). simpl.
  now rewrite IH.
Qed.

End StrFacts.

(** ** The generic SAP field normalizer *)
Module NormalizerProps.
Import PyStr Py SAPTransformerCy StrFacts.

Ltac chars_of s H :=
  repeat (destruct s as [|? s]; simpl in H; try discriminate H).

Lemma stripped_date_out c1 c2 c3 c4 c5 c6 c7 c8 :
  all_chars is_digit
    (String c1 (String c2 (String c3 (String c4
      (String c5 (String c6 (String c7 (String c8 "")))))))) = true ->
  let out := String c1 (String c2 (String c3 (String c4 (String "-"
      (String c5 (String c6 (String "-" (String c7 (String c8 ""))))))))) in
  transform_str out = out.
Proof.
  intros Hall out; subst out. pose proof Hall as H. simpl in H.
  repeat (apply andb_prop in H; destruct H as [?H H]).
  repeat match goal with
         | D : is_digit ?c = true |- _ =>
             destruct (digit_char_facts c D) as (? & ? & ? & ?); clear D
         end.
  unfold transform_str, strip, transform_stripped, amount_digits.
  repeat (progress (simpl;
                    repeat match goal with
                           | E : _ = false |- _ => rewrite E
                           end)).
  unfold isdigit. now rewrite Hall.
Qed.

Lemma stripped_time_out c1 c2 c3 c4 c5 c6 :
  all_chars is_digit
    (String c1 (String c2 (String c3 (String c4
      (String c5 (String c6 "")))))) = true ->
  let out := String c1 (String c2 (String ":" (String c3 (String c4
      (String ":" (String c5 (String c6 ""))))))) in
  transform_str out = out.
Proof.
  intros H out; subst out. simpl in H.
  repeat (apply andb_prop in H; destruct H as [?H H]). clear H.
  repeat match goal with
         | D : is_digit ?c = true |- _ =>
             destruct (digit_char_facts c D) as (? & ? & ? & ?); revert D
         end.
  intros.
  unfold transform_str, strip, transform_stripped, amount_digits, isdigit.
  repeat (progress (simpl;
                    repeat match goal with
                           | E : _ = false |- _ => rewrite E
                           | E : is_digit _ = true |- _ => rewrite E
                           end)).
  reflexivity.
Qed.

Lemma is_empty_replace_comma s :
  is_empty (replace "," "." s) = is_empty s.
Proof. destruct s as [|c s]; simpl; [reflexivity|]. now destruct (Ascii.eqb c ","). Qed.

Lemma isdigit_all s : isdigit s = true -> all_chars is_digit s = true.
Proof. unfold isdigit. intros H. now apply andb_prop in H. Qed.

(** The material-number rule is never reached: a value made of digits
    only has already been taken by the amount rule. *)
Lemma material_rule_unreachable s :
  isdigit (amount_digits s) = false -> isdigit s = false.
Proof.
  intros H. destruct (isdigit s) eqn:D; [|reflexivity].
  now rewrite (amount_digits_of_digits s (isdigit_all s D)), D in H.
Qed.

Lemma transform_stripped_fixed s :
  strip s = s -> transform_str (transform_stripped s) = transform_stripped s.
Proof.
  intros Hs.
  assert (Hsame : transform_str s = transform_stripped s)
    by (unfold transform_str; now rewrite Hs).
  unfold transform_stripped.
  destruct (is_empty s) eqn:E0; [reflexivity|].
  destruct ((String.length s =? 8) && isdigit s) eqn:E1.
  { apply andb_prop in E1. destruct E1 as [L D].
    apply Nat.eqb_eq in L. apply isdigit_all in D.
    destruct (negb (String.eqb s "00000000")); [|reflexivity].
    clear Hs Hsame E0. chars_of s L. exact (stripped_date_out _ _ _ _ _ _ _ _ D). }
  destruct ((String.length s =? 6) && isdigit s) eqn:E2.
  { apply andb_prop in E2. destruct E2 as [L D].
    apply Nat.eqb_eq in L. apply isdigit_all in D.
    clear Hs Hsame E0 E1. chars_of s L. exact (stripped_time_out _ _ _ _ _ _ D). }
  destruct (isdigit (amount_digits s)) eqn:E3.
  { destruct (contains "," s && negb (contains "." s)) eqn:E4.
    - apply andb_prop in E4. destruct E4 as [Hc _].
      unfold transform_str. rewrite strip_replace_comma, Hs.
      unfold transform_stripped.
      rewrite is_empty_replace_comma, E0, amount_digits_replace_comma, E3.
      unfold isdigit at 1 2.
      rewrite (all_digits_replace_comma s Hc), !andb_false_r.
      now rewrite contains_replace_comma.
    - rewrite Hsame. unfold transform_stripped.
      now rewrite E0, E1, E2, E3, E4. }
  rewrite (material_rule_unreachable s E3). simpl.
  rewrite Hsame. unfold transform_stripped.
  now rewrite E0, E1, E2, E3, (material_rule_unreachable s E3).
Qed.

Lemma transform_str_idem (x : string) :
  transform_str (transform_str x) = transform_str x.
Proof.
  unfold transform_str at 2 3.
  apply transform_stripped_fixed, strip_idem.
Qed.

(** C7. The generic SAP field normalizer is idempotent: for every string
    [x], normalizing the normalized value returns the normalized value. *)
Theorem normalize_idempotent (x : string) :
  _transform_sap_field (_transform_sap_field (PStr x))
  = _transform_sap_field (PStr x).
Proof. simpl. now rewrite transform_str_idem. Qed.

(** C1 as stated fails: the normalizer does not return ["12345"] for
    ["00012345"]. *)
Lemma normalize_00012345_not_stripped :
  _transform_sap_field (PStr "00012345") <> PStr "12345".
Proof. vm_compute. discriminate. Qed.

(** C1, amended. The input ["00012345"] has exactly eight characters, all
    digits, and is not ["00000000"]: the date rule, which comes first,
    takes it and the normalizer returns ["0001-23-45"]. *)
Theorem normalize_00012345_is_date :
  _transform_sap_field (PStr "00012345") = PStr "0001-23-45".
Proof. reflexivity. Qed.

(** The examples of the specification that the date rule decides. *)
Example normalize_date :
  _transform_sap_field (PStr "20230615") = PStr "2023-06-15".
Proof. reflexivity. Qed.

Example normalize_null_date :
  _transform_sap_field (PStr "00000000") = PStr "".
Proof. reflexivity. Qed.

Example normalize_iso_date_unchanged :
  _transform_sap_field (PStr "2023-06-15") = PStr "2023-06-15".
Proof. reflexivity. Qed.

(** A longer run of digits is taken by the amount rule and keeps its
    leading zeros. *)
Example normalize_nine_digits :
  _transform_sap_field (PStr "000123456") = PStr "000123456".
Proof. reflexivity. Qed.

End NormalizerProps.

(** ** Dictionaries *)
Module DictFacts.
Import Py.

Section DictFacts.
Context {K : Type} {HK : Hashable K} {V : Type}.

Lemma in_dict_set (d : keyed K V) k v k' v' :
  In (k', v') (dict_set d k v) -> In (k', v') d \/ (k' = k /\ v' = v).
Proof.
  induction d as [|[k0 v0] d IH]; simpl.
  - intros [H|[]]. inversion H. now right.
  - destruct (key_eqb_spec k0 k) as [->|N]; simpl.
    + intros [H|H]; [inversion H; now right | left; now right].
    + intros [H|H]; [left; now left|].
      destruct (IH H) as [H'|H']; [left; now right | now right].
Qed.

Lemma dict_get_set (d : keyed K V) k v k' :
  dict_get (dict_set d k v) k'
  = if key_eqb k k' then Some v else dict_get d k'.
Proof.
  induction d as [|[k0 v0] d IH]; simpl; [reflexivity|].
  destruct (key_eqb_spec k0 k) as [->|N]; simpl.
  - now destruct (key_eqb k k').
  - rewrite IH. destruct (key_eqb_spec k0 k') as [->|N'];
      [|reflexivity].
    destruct (key_eqb_spec k k'); [congruence | reflexivity].
Qed.

Lemma dict_get_app (a b : keyed K V) k :
  dict_get (a ++ b)%list k
  = match dict_get a k with
    | Some v => Some v
    | None => dict_get b k
    end.
Proof.
  induction a as [|[k0 v0] a IH]; simpl; [reflexivity|].
  now destruct (key_eqb k0 k).
Qed.

Lemma dict_get_none (d : keyed K V) k :
  ~ In k (dict_keys d) -> dict_get d k = None.
Proof.
  induction d as [|[k0 v0] d IH]; simpl; [reflexivity|]. intros N.
  destruct (key_eqb_spec k0 k) as [->|_]; [tauto|]. apply IH. tauto.
Qed.

Lemma in_keys_dict_set (d : keyed K V) k v k' :
  In k' (dict_keys (dict_set d k v)) <-> In k' (dict_keys d) \/ k' = k.
Proof.
  induction d as [|[k0 v0] d IH]; simpl.
  - intuition congruence.
  - destruct (key_eqb_spec k0 k) as [->|N]; simpl.
    + intuition congruence.
    + rewrite IH. tauto.
Qed.

Lemma nodup_dict_set (d : keyed K V) k v :
  NoDup (dict_keys d) -> NoDup (dict_keys (dict_set d k v)).
Proof.
  induction d as [|[k0 v0] d IH]; simpl; intros H.
  - constructor; [intros [] | constructor].
  - inversion H as [|? ? Hn Hd]; subst.
    destruct (key_eqb_spec k0 k) as [->|N]; simpl.
    + now constructor.
    + constructor; [|now apply IH].
      rewrite in_keys_dict_set. intros [?|?]; [tauto | congruence].
Qed.

Lemma nodup_dict_update (e : keyed K V) :
  forall d, NoDup (dict_keys d) -> NoDup (dict_keys (dict_update d e)).
Proof.
  unfold dict_update.
  induction e as [|[k v] e IH]; simpl; intros d H; [exact H|].
  apply IH. now apply nodup_dict_set.
Qed.

(** The value a key has after [d] has taken, in order, the pairs of [e]. *)
Lemma dict_get_update (e : list (K * V)) :
  forall (d : keyed K V) k,
    dict_get (dict_update d e) k
    = match last_binding e k with
      | Some v => Some v
      | None => dict_get d k
      end.
Proof.
  unfold dict_update, last_binding.
  induction e as [|[k0 v0] e IH]; simpl; intros d k; [reflexivity|].
  rewrite IH, dict_get_app, dict_get_set. simpl.
  destruct (dict_get (rev e) k); [reflexivity|].
  now destruct (key_eqb k0 k).
Qed.

Lemma last_binding_app (a b : list (K * V)) k :
  last_binding (a ++ b)%list k
  = match last_binding b k with
    | Some v => Some v
    | None => last_binding a k
    end.
Proof. unfold last_binding. now rewrite rev_app_distr, dict_get_app. Qed.

(** In a dictionary a key has one entry: its last binding is its value. *)
Lemma last_binding_dict (d : keyed K V) k :
  NoDup (dict_keys d) -> last_binding d k = dict_get d k.
Proof.
  unfold last_binding.
  induction d as [|[k0 v0] d IH]; simpl; intros H; [reflexivity|].
  inversion H as [|? ? Hn Hd]; subst.
  rewrite dict_get_app, (IH Hd). simpl.
  destruct (key_eqb_spec k0 k) as [->|N].
  - now rewrite (dict_get_none d k Hn).
  - now destruct (dict_get d k).
Qed.

Lemma last_binding_cons (k0 : K) (v0 : V) (l : list (K * V)) k :
  last_binding ((k0, v0) :: l) k
  = match last_binding l k with
    | Some v => Some v
    | None => if key_eqb k0 k then Some v0 else None
    end.
Proof.
  change ((k0, v0) :: l) with ([(k0, v0)] ++ l)%list.
  rewrite last_binding_app. unfold last_binding at 2. simpl.
  now destruct (key_eqb k0 k).
Qed.

Lemma dict_get_in (d : keyed K V) k v :
  NoDup (dict_keys d) -> In (k, v) d -> dict_get d k = Some v.
Proof.
  induction d as [|[k0 v0] d IH]; simpl; intros Hnd Hin; [contradiction|].
  inversion Hnd as [|? ? Hn Hd]; subst.
  destruct Hin as [E|Hin].
  - inversion E; subst. now destruct (key_eqb_spec k k).
  - destruct (key_eqb_spec k0 k) as [->|N]; [|now apply IH].
    exfalso. apply Hn. change k with (fst (k, v)). now apply in_map.
Qed.

Lemma last_binding_in (l : list (K * V)) k v :
  NoDup (map fst l) -> In (k, v) l -> last_binding l k = Some v.
Proof.
  intros Hnd Hin. unfold last_binding. apply dict_get_in.
  - unfold dict_keys. rewrite map_rev. now apply NoDup_rev.
  - now apply in_rev in Hin.
Qed.

End DictFacts.

End DictFacts.

(** ** The BAPI response parser *)
Module BAPIProps.
Import PyStr Py SAPTransformerCy DictFacts.

Lemma severity_error_iff (msg_type : option string) :
  (_get_message_severity msg_type = "error"
   \/ _get_message_severity msg_type = "abort")
  <-> is_error_type msg_type = true.
Proof.
  destruct msg_type as [t|]; simpl.
  2: { split; [intros [H|H]; discriminate H | discriminate]. }
  destruct (String.eqb_spec t "S") as [->|NS];
    [split; [intros [H|H]; discriminate H | discriminate]|].
  destruct (String.eqb_spec t "I") as [->|NI];
    [split; [intros [H|H]; discriminate H | discriminate]|].
  destruct (String.eqb_spec t "W") as [->|NW];
    [split; [intros [H|H]; discriminate H | discriminate]|].
  destruct (String.eqb_spec t "E") as [->|NE]; [split; auto|].
  destruct (String.eqb_spec t "A") as [->|NA]; [split; auto|].
  split; [intros [H|H]; discriminate H | discriminate].
Qed.

(** The message loop appends one message per item, each with the severity
    of its type, and clears the success flag exactly when one of the
    appended messages is severe. *)
Lemma process_return_spec (l : list pyval) :
  forall s ms s' ms',
    process_return l s ms = Ok (s', ms') ->
    exists new, ms' = (ms ++ new)%list
      /\ Forall (fun m => m_severity m = _get_message_severity (m_type m)) new
      /\ (s' = false <-> s = false \/ Exists severe new).
Proof.
  induction l as [|item l IH]; intros s ms s' ms' H; simpl in H.
  - inversion H; subst. exists []. rewrite app_nil_r.
    split; [reflexivity|]. split; [constructor|].
    split; [now left | intros [E|E]; [exact E | inversion E]].
  - destruct (as_cdef_dict item) as [[d|]|e]; simpl in H; try discriminate H.
    destruct (as_cdef_str (dict_get_default d "TYPE" (PStr ""))) as [ty|e];
      simpl in H; try discriminate H.
    apply IH in H. destruct H as (new & -> & Hsev & Hs).
    match goal with
    | |- context [(ms ++ [?m0])%list] => set (m := m0) in *
    end.
    assert (Hm : severe m <-> is_error_type ty = true)
      by (unfold severe; apply severity_error_iff).
    exists (m :: new). rewrite <- app_assoc. split; [reflexivity|].
    split; [constructor; [reflexivity | exact Hsev]|].
    rewrite Hs, Exists_cons.
    destruct (is_error_type ty); intuition congruence.
Qed.

Lemma process_return_defined (l : list pyval) :
  forallb message_ok l = true ->
  forall s ms, exists r, process_return l s ms = Ok r.
Proof.
  induction l as [|item l IH]; intros Hok s ms; [now eexists|].
  simpl in Hok. apply andb_prop in Hok. destruct Hok as [Hitem Hl].
  destruct item as [| | | | | |msg]; try discriminate Hitem.
  cbn [process_return as_cdef_dict bind].
  unfold message_ok in Hitem.
  destruct (dict_get_default msg "TYPE" (PStr "")); try discriminate Hitem;
    cbn [as_cdef_str bind]; apply (IH Hl).
Qed.

Lemma row_loop_defined (d : dict pyval) (hs : list string) :
  forall acc, exists r, row_loop (Some d) hs acc = Ok r.
Proof.
  induction hs as [|h hs IH]; intros acc; [now eexists|]. apply IH.
Qed.

Lemma table_loop_defined (hs : list string) (l : list pyval) :
  forallb row_ok l = true ->
  forall acc, exists r, table_loop hs l acc = Ok r.
Proof.
  induction l as [|item l IH]; intros Hok acc; [now eexists|].
  simpl in Hok. apply andb_prop in Hok. destruct Hok as [Hitem Hl].
  destruct item as [| | | | | |d]; try discriminate Hitem.
  cbn [table_loop as_cdef_dict bind].
  destruct (row_loop_defined d hs []) as (vals & ->). cbn [bind].
  apply (IH Hl).
Qed.

Lemma transform_sap_table_defined (l : list pyval) :
  forallb row_ok l = true -> exists t, _transform_sap_table l = Ok t.
Proof.
  intros Hok. destruct l as [|first rest]; [now eexists|].
  pose proof Hok as Hall. simpl in Hok. apply andb_prop in Hok.
  destruct Hok as [Hfirst _].
  destruct first as [| | | | | |d]; try discriminate Hfirst.
  cbn [_transform_sap_table as_cdef_dict bind].
  destruct (table_loop_defined (dict_keys d) _ Hall []) as (rs & ->).
  now eexists.
Qed.

Lemma process_fields_defined (items : list (string * pyval)) :
  forallb field_ok items = true ->
  forall data tables, exists r, process_fields items data tables = Ok r.
Proof.
  induction items as [|[key value] items IH]; intros Hok data tables;
    [now eexists|].
  simpl in Hok. apply andb_prop in Hok. destruct Hok as [Hkv Hitems].
  cbn [process_fields]. unfold field_ok in Hkv. simpl in Hkv.
  destruct (String.eqb key "RETURN"); [apply (IH Hitems)|].
  simpl in Hkv.
  destruct value as [| b | z | f | str | [|first rest] | d];
    try apply (IH Hitems).
  destruct (transform_sap_table_defined _ Hkv) as (t & ->). cbn [bind].
  apply (IH Hitems).
Qed.

(** On a response it accepts the parser returns a result. *)
Lemma bapi_result_defined (bapi_response : dict pyval) :
  response_ok bapi_response = true ->
  exists r, _transform_bapi_result bapi_response = Ok r.
Proof.
  unfold response_ok, _transform_bapi_result. intros Hok.
  apply andb_prop in Hok. destruct Hok as [Hret Hfields].
  destruct (process_fields_defined _ Hfields [] []) as (dt & ->).
  destruct (dict_get bapi_response "RETURN") as [v|];
    [|cbn [bind]; now eexists].
  destruct v as [| | | | |l|d]; try discriminate Hret.
  - cbn [py_iter bind].
    destruct (process_return_defined l Hret true []) as (sm & ->).
    cbn [bind]. now eexists.
  - cbn [py_iter bind].
    assert (Hone : forallb message_ok [PDict d] = true)
      by (simpl in *; now rewrite Hret).
    destruct (process_return_defined [PDict d] Hone true []) as (sm & ->).
    cbn [bind]. now eexists.
Qed.

(** C2. Whenever the parser returns a result, its success flag is false if
    and only if one of its messages has severity error or abort, the
    severity being the one [_get_message_severity] derives from TYPE. *)
Theorem success_false_iff_severe (bapi_response : dict pyval) (r : BAPIResult) :
  _transform_bapi_result bapi_response = Ok r ->
  (success r = false <-> Exists severe (messages r))
  /\ Forall (fun m => m_severity m = _get_message_severity (m_type m))
       (messages r).
Proof.
  unfold _transform_bapi_result. intros H.
  destruct (dict_get bapi_response "RETURN") as [return_data|].
  - destruct (py_iter _) as [msgs|e]; simpl in H; [|discriminate H].
    destruct (process_return msgs true []) as [[s ms]|e] eqn:P;
      simpl in H; [|discriminate H].
    destruct (process_fields bapi_response [] []) as [dt|e];
      simpl in H; [|discriminate H].
    inversion H; subst r; clear H. simpl.
    apply process_return_spec in P. destruct P as (new & -> & Hsev & Hs).
    simpl. split; [|exact Hsev].
    rewrite Hs. intuition discriminate.
  - simpl in H.
    destruct (process_fields bapi_response [] []) as [dt|e];
      simpl in H; [|discriminate H].
    inversion H; subst r; clear H. simpl. split; [|constructor].
    split; [discriminate | intros E; inversion E].
Qed.

Lemma success_false_iff_severe_witness :
  _transform_bapi_result bapi_example = Ok bapi_example_result
  /\ ((success bapi_example_result = false
       <-> Exists severe (messages bapi_example_result))
      /\ Forall (fun m => m_severity m = _get_message_severity (m_type m))
           (messages bapi_example_result)).
Proof.
  split; [reflexivity|].
  apply (success_false_iff_severe bapi_example). reflexivity.
Defined.

(** The fixed severity table. *)
Lemma severity_table :
  _get_message_severity (Some "S") = "success"
  /\ _get_message_severity (Some "I") = "info"
  /\ _get_message_severity (Some "W") = "warning"
  /\ _get_message_severity (Some "E") = "error"
  /\ _get_message_severity (Some "A") = "abort"
  /\ (forall t, ~ In t ["S"; "I"; "W"; "E"; "A"] ->
        _get_message_severity (Some t) = "unknown")
  /\ _get_message_severity None = "unknown".
Proof.
  repeat (split; [reflexivity|]). split; [|reflexivity].
  intros t N. simpl in N. unfold _get_message_severity.
  repeat match goal with
         | |- context [String.eqb t ?x] =>
             destruct (String.eqb_spec t x); [subst; exfalso; tauto|]
         end.
  reflexivity.
Qed.

Lemma row_loop_spec (hs : list string) :
  forall row acc out,
    row_loop row hs acc = Ok out ->
    match row with
    | Some d =>
        out = (acc ++ map (fun h => _transform_sap_field
                                      (dict_get_default d h (PStr ""))) hs)%list
    | None => hs = [] /\ out = acc
    end.
Proof.
  induction hs as [|h hs IH]; intros row acc out H; simpl in H.
  - inversion H; subst. destruct row; [now rewrite app_nil_r | now split].
  - destruct row as [d|]; [|discriminate H].
    apply IH in H. rewrite H, <- app_assoc. reflexivity.
Qed.

Lemma row_loop_projects (hs : list string) (item : pyval) row out :
  as_cdef_dict item = Ok row ->
  row_loop row hs [] = Ok out ->
  projects_row hs item out.
Proof.
  intros Hd H. apply row_loop_spec in H.
  destruct item as [| | | | | |d]; try discriminate Hd;
    inversion Hd; subst row; clear Hd.
  - destruct H as [-> ->]. split; [reflexivity|].
    intros [|j] h Hj; discriminate Hj.
  - simpl in H. subst out. split; [apply length_map|].
    intros j h Hj. exists d. split; [reflexivity|].
    rewrite nth_error_map, Hj. split; [reflexivity|].
    intros Hnone. cbn [option_map]. unfold dict_get_default.
    now rewrite Hnone.
Qed.

Lemma table_loop_spec (hs : list string) (table_data : list pyval) :
  forall acc out,
    table_loop hs table_data acc = Ok out ->
    exists new, out = (acc ++ new)%list
      /\ Forall2 (projects_row hs) table_data new.
Proof.
  induction table_data as [|item td IH]; intros acc out H; simpl in H.
  - inversion H; subst. exists []. now rewrite app_nil_r.
  - destruct (as_cdef_dict item) as [row|e] eqn:Hd; simpl in H;
      [|discriminate H].
    destruct (row_loop row hs []) as [vals|e] eqn:Hr; simpl in H;
      [|discriminate H].
    apply IH in H. destruct H as (new & -> & HF).
    exists (vals :: new). rewrite <- app_assoc. split; [reflexivity|].
    constructor; [|exact HF]. eapply row_loop_projects; eassumption.
Qed.

(** What [_transform_sap_table] builds from a non-empty table: the headers
    are the keys of the first row and every row is the projection of its
    source row on them. *)
Lemma transform_sap_table_spec (first : pyval) (rest : list pyval)
    (t : ParsedTable) :
  _transform_sap_table (first :: rest) = Ok t ->
  (exists first_row, first = PDict first_row /\ headers t = dict_keys first_row)
  /\ Forall2 (projects_row (headers t)) (first :: rest) (rows t)
  /\ row_count t = List.length (first :: rest).
Proof.
  unfold _transform_sap_table. intros H.
  destruct (as_cdef_dict first) as [[fr|]|e] eqn:Hd; cbn [bind] in H;
    try discriminate H.
  destruct (table_loop (dict_keys fr) (first :: rest) []) as [rs|e] eqn:Ht;
    cbn [bind] in H; [|discriminate H].
  inversion H; subst t; clear H. simpl headers; simpl rows; simpl row_count.
  apply table_loop_spec in Ht. destruct Ht as (new & -> & HF). simpl app.
  split; [|split; [exact HF | symmetry; exact (Forall2_length HF)]].
  exists fr. split; [|reflexivity].
  destruct first; try discriminate Hd. now inversion Hd.
Qed.

(** The field loop only adds tables built by [_transform_sap_table] from a
    non-empty list value of the response. *)
Lemma process_fields_tables (items : list (string * pyval)) :
  forall data tables data' tables',
    process_fields items data tables = Ok (data', tables') ->
    forall name t, In (name, t) tables' ->
      In (name, t) tables
      \/ exists first rest,
           In (name, PList (first :: rest)) items
           /\ _transform_sap_table (first :: rest) = Ok t.
Proof.
  induction items as [|[key value] items IH];
    intros data tables data' tables' H name t Hin; cbn [process_fields] in H.
  - inversion H; subst. now left.
  - destruct (String.eqb key "RETURN").
    { destruct (IH _ _ _ _ H name t Hin) as [?|(f & r0 & ? & ?)];
        [now left | right; exists f, r0; split; [now right | assumption]]. }
    assert (Hdata : forall d,
               process_fields items d tables = Ok (data', tables') ->
               In (name, t) tables
               \/ exists first rest,
                    In (name, PList (first :: rest)) ((key, value) :: items)
                    /\ _transform_sap_table (first :: rest) = Ok t).
    { intros d Hd.
      destruct (IH _ _ _ _ Hd name t Hin) as [?|(f & r0 & ? & ?)];
        [now left | right; exists f, r0; split; [now right | assumption]]. }
    destruct value as [| b | z | f | str | [|first rest] | d]; eauto.
    destruct (_transform_sap_table (first :: rest)) as [t0|e] eqn:Ht;
      cbn [bind] in H; [|discriminate H].
    destruct (IH _ _ _ _ H name t Hin) as [Hold|(f & r0 & ? & ?)].
    + apply in_dict_set in Hold. destruct Hold as [?|[-> ->]]; [now left|].
      right. exists first, rest. split; [now left | exact Ht].
    + right; exists f, r0; split; [now right | assumption].
Qed.

(** C10. Every table of a result of the parser comes from a non-empty list
    value of the response; its headers are the keys of the first source row,
    and each of its rows has one value per header, in header order: the
    normalized value of the header in the source row, the empty string for
    a header the source row lacks; keys of the source row that are not
    headers have no place in it. *)
Theorem parsed_table_rows_follow_headers (bapi_response : dict pyval)
    (r : BAPIResult) (name : string) (t : ParsedTable) :
  _transform_bapi_result bapi_response = Ok r ->
  In (name, t) (tables r) ->
  exists first_row rest,
    In (name, PList (PDict first_row :: rest)) bapi_response
    /\ headers t = dict_keys first_row
    /\ Forall2 (projects_row (headers t)) (PDict first_row :: rest) (rows t)
    /\ Forall (fun row => List.length row = List.length (headers t)) (rows t).
Proof.
  unfold _transform_bapi_result. intros H Hin.
  destruct (match dict_get bapi_response "RETURN" with
            | Some _ => _ | None => _ end) as [sm|e];
    simpl in H; [|discriminate H].
  destruct (process_fields bapi_response [] []) as [[d ts]|e] eqn:P;
    simpl in H; [|discriminate H].
  inversion H; subst r; clear H. simpl in Hin.
  destruct (process_fields_tables _ _ _ _ _ P name t Hin)
    as [[]|(first & rest & Hsrc & Ht)].
  apply transform_sap_table_spec in Ht.
  destruct Ht as ((fr & -> & Hh) & HF & _).
  exists fr, rest. repeat split; try assumption.
  clear - HF. induction HF as [|src row srcs rws [Hlen _] _ IH];
    constructor; assumption.
Qed.

Lemma parsed_table_rows_follow_headers_witness :
  exists r,
    _transform_bapi_result [("T", PList table_example)] = Ok r
    /\ tables r = [("T", table_example_result)]
    /\ exists first_row rest,
         In ("T", PList (PDict first_row :: rest)) [("T", PList table_example)]
         /\ headers table_example_result = dict_keys first_row
         /\ Forall2 (projects_row (headers table_example_result))
              (PDict first_row :: rest) (rows table_example_result)
         /\ Forall (fun row => List.length row
                               = List.length (headers table_example_result))
              (rows table_example_result).
Proof.
  eexists. split; [reflexivity|]. split; [reflexivity|].
  eapply (parsed_table_rows_follow_headers [("T", PList table_example)]);
    [reflexivity | left; reflexivity].
Defined.

End BAPIProps.

(** ** The CSV tokenizer, the record assembler and the validator *)
Module CSVProps.
Import PyStr Py CSVProcessorCy.

(** C3. With the comma as delimiter, the double quote as quote character
    and a header line, the three-line text of the example gives exactly two
    records, in order:
    [{id: 1, name: Acme, Inc., amount: 100.50}] and
    [{id: 2, name: Beta Corp, amount: 200.00}]. *)
Theorem process_fast_example :
  process_fast default csv_example true
  = [ [("id", "1"); ("name", "Acme, Inc."); ("amount", "100.50")];
      [("id", "2"); ("name", "Beta Corp"); ("amount", "200.00")] ].
Proof. reflexivity. Qed.

(** The settings of the example are those [__init__] stores by default. *)
Lemma init_default : init "," (String dquote "") 8192 = Ok default.
Proof. reflexivity. Qed.

(** Without a header line the columns are named by position. *)
Example process_fast_no_header :
  process_fast default ("a,b" ++ String newline "c") false
  = [ [("col_0", "a"); ("col_1", "b")]; [("col_0", "c")] ].
Proof. reflexivity. Qed.

(** C4 at a failing input. With the apostrophe as the configured quote
    character the tokenizer keeps [a,b] together but returns the field
    with its apostrophes: the layer of quoting is not taken off. *)
Theorem apostrophe_quotes_are_kept :
  _parse_csv_line_fast apostrophe_quoted "'a,b',c" 7 = ["'a,b'"; "c"].
Proof. reflexivity. Qed.

(** With the same settings a field in double quotes, which are not the
    configured quote character, is split at its delimiter and each half
    keeps its double quote. *)
Example apostrophe_setting_double_quoted_field :
  _parse_csv_line_fast apostrophe_quoted
    (String dquote ("a,b" ++ String dquote ",c")) 7
  = [String dquote "a"; "b" ++ String dquote ""; "c"].
Proof. reflexivity. Qed.

(** With the default quote character the layer is taken off. *)
Example double_quotes_are_stripped :
  _parse_csv_line_fast default
    (String dquote ("a,b" ++ String dquote ",c")) 7
  = ["a,b"; "c"].
Proof. reflexivity. Qed.

(** The streaming entry point does not depend on the handler it is
    given. *)
Lemma stream_process_ignores_callback (self : t) (f : file) (chunk_size : Z)
    (callback callback' : option chunk_handler) :
  stream_process self f chunk_size callback
  = stream_process self f chunk_size callback'.
Proof. reflexivity. Qed.

(** C5 at a failing input. A file with a header and one data row, chunks
    of one row, and a handler that raises on every chunk: the call returns
    the line count 1 and no exception reaches the caller. *)
Theorem stream_process_failing_handler :
  stream_process default two_line_file 1 (Some failing_handler) = Ok 1%Z.
Proof. reflexivity. Qed.

(** An unreadable file is reported to the caller. *)
Example stream_process_unreadable :
  stream_process default (Unreadable "No such file") 1 None
  = Raise (Exception "Error processing large CSV file: No such file").
Proof. reflexivity. Qed.

(** C6 at a failing input. The record has the field [name] with two
    characters, the rule asks for at least five and for a pattern: the
    record validator reports nothing, whatever [int] and [float] accept,
    while the field validator reports the short value. *)
Theorem validator_ignores_min_length :
  (forall int_parses float_parses,
     erp_data_validator int_parses float_parses
       [ [("name", "ab")] ]
       [ ("name", PDict [("min_length", PInt 5); ("pattern", PStr "[0-9]+")]) ]
     = Ok [])
  /\ (forall re_match,
        StringUtilsCy.erp_field_validator re_match (Some "ab") (Some "string")
          (Some [("min_length", PInt 5)])
        = Ok ["Value too short: 2 < 5"]).
Proof. split; reflexivity. Qed.

(** The record validator never reads [min_length] or [pattern]: taking
    them out of every rule object changes nothing. *)
Lemma dict_get_other_rule (rules : dict pyval) (k : string) :
  other_rule (k, PNone) = true ->
  dict_get (filter other_rule rules) k = dict_get rules k.
Proof.
  intros Hk. induction rules as [|[k0 v0] rules IH]; [reflexivity|].
  simpl. destruct (other_rule (k0, v0)) eqn:E0; simpl; rewrite IH.
  - reflexivity.
  - destruct (String.eqb_spec k0 k) as [->|_]; [|reflexivity].
    unfold other_rule in *. simpl in *. congruence.
Qed.

Lemma validate_field_other_rules ip fp idx record name rules errors :
  validate_field ip fp idx record name (without_floor_and_pattern rules) errors
  = validate_field ip fp idx record name rules errors.
Proof.
  destruct rules as [| | | | | |r]; try reflexivity.
  unfold without_floor_and_pattern, validate_field, dict_get_default.
  now rewrite !dict_get_other_rule.
Qed.

Lemma validate_record_other_rules ip fp idx record (schema : dict pyval) :
  forall errors,
    validate_record ip fp idx record
      (map (fun kv => (fst kv, without_floor_and_pattern (snd kv))) schema)
      errors
    = validate_record ip fp idx record schema errors.
Proof.
  induction schema as [|[name rules] schema IH]; intros errors;
    [reflexivity|].
  cbn [validate_record map fst snd].
  rewrite validate_field_other_rules.
  destruct (validate_field ip fp idx record name rules errors);
    [apply IH | reflexivity].
Qed.

Lemma validator_reads_no_floor_or_pattern ip fp data (schema : dict pyval) :
  erp_data_validator ip fp data
    (map (fun kv => (fst kv, without_floor_and_pattern (snd kv))) schema)
  = erp_data_validator ip fp data schema.
Proof.
  unfold erp_data_validator. generalize 0 (@nil ValidationError).
  induction data as [|record data IH]; intros idx errors; [reflexivity|].
  cbn [validate_records]. rewrite validate_record_other_rules.
  destruct (validate_record ip fp idx record schema errors);
    [apply IH | reflexivity].
Qed.

(** The length constraint the record validator does check. *)
Example validator_checks_max_length :
  forall int_parses float_parses,
    erp_data_validator int_parses float_parses
      [ [("name", "abcdef")] ] [ ("name", PDict [("max_length", PInt 5)]) ]
    = Ok [ {| ve_record := 0; ve_field := "name";
              ve_error := "Value too long: 6 > 5" |} ].
Proof. reflexivity. Qed.

(** The example of the specification: a required field that is missing. *)
Example validator_required_missing :
  forall int_parses float_parses,
    erp_data_validator int_parses float_parses
      [ [] ] [ ("qty", PDict [("type", PStr "integer");
                              ("required", PBool true)]) ]
    = Ok [ {| ve_record := 0; ve_field := "qty";
              ve_error := "Required field missing" |} ].
Proof. reflexivity. Qed.

End CSVProps.

(** ** Flattening *)
Module FlattenProps.
Import PyStr Py JSONProcessorCy DictFacts.

Lemma flatten_list_loop sep new_key (l : list pyval) :
  forall i items,
    (fix list_loop (l : list pyval) (i : nat) (items : dict pyval)
         {struct l} : dict pyval :=
       match l with
       | [] => items
       | item :: l =>
           let items :=
             match item with
             | PDict _ =>
                 dict_update items
                   (flatten_value sep item (new_key ++ sep ++ str_of_nat i))
             | _ => dict_set items (new_key ++ sep ++ str_of_nat i) item
             end in
           list_loop l (S i) items
       end) l i items
    = flatten_list sep new_key l i items.
Proof.
  induction l as [|item l IH]; intros i items; [reflexivity|].
  exact (IH (S i) _).
Qed.

Lemma flatten_value_dict sep (obj : dict pyval) parent_key :
  flatten_value sep (PDict obj) parent_key
  = flatten_items sep parent_key obj [].
Proof.
  cbn [flatten_value]. generalize (@nil (string * pyval)).
  induction obj as [|[k v] obj IH]; intros items; [reflexivity|].
  cbn [flatten_items]. rewrite <- IH.
  destruct v; try reflexivity.
  now rewrite <- flatten_list_loop.
Qed.

Lemma scalar_leaves_list (l : list pyval) :
  scalar_leaves (PList l) = leaves_of_list l 0.
Proof.
  cbn [scalar_leaves]. generalize 0.
  induction l as [|item l IH]; intros i; [reflexivity|].
  exact (f_equal (app (map (under (Idx i)) (scalar_leaves item))) (IH (S i))).
Qed.

Lemma scalar_leaves_dict (obj : dict pyval) :
  scalar_leaves (PDict obj) = leaves_of_items obj.
Proof.
  cbn [scalar_leaves].
  induction obj as [|[k v] obj IH]; [reflexivity|].
  exact (f_equal (app (map (under (Key k)) (scalar_leaves v))) IH).
Qed.

Lemma no_list_in_list_cons_dict k v (obj : dict pyval) :
  no_list_in_list (PDict ((k, v) :: obj))
  = no_list_in_list v && no_list_in_list (PDict obj).
Proof. reflexivity. Qed.

Lemma no_list_in_list_cons_list item (l : list pyval) :
  no_list_in_list (PList (item :: l))
  = match item with
    | PList _ => false
    | _ => no_list_in_list item
    end && no_list_in_list (PList l).
Proof. reflexivity. Qed.

Lemma keyed_leaves_app sep parent_key a b :
  keyed_leaves sep parent_key (a ++ b)%list
  = (keyed_leaves sep parent_key a ++ keyed_leaves sep parent_key b)%list.
Proof. apply map_app. Qed.

Lemma keyed_leaves_under sep parent_key s leaves :
  keyed_leaves sep parent_key (map (under s) leaves)
  = keyed_leaves sep (join_seg sep parent_key s) leaves.
Proof. unfold keyed_leaves. rewrite map_map. reflexivity. Qed.

Lemma flatten_items_nodup sep parent_key (kvs : list (string * pyval)) :
  forall items,
    NoDup (dict_keys items) ->
    NoDup (dict_keys (flatten_items sep parent_key kvs items)).
Proof.
  assert (Hlist : forall new_key l i items,
             NoDup (dict_keys items) ->
             NoDup (dict_keys (flatten_list sep new_key l i items))).
  { induction l as [|item l IH]; intros i items H; [exact H|].
    cbn [flatten_list]. apply IH.
    destruct item; try (now apply nodup_dict_set).
    now apply nodup_dict_update. }
  induction kvs as [|[k v] kvs IH]; intros items H; [exact H|].
  cbn [flatten_items]. apply IH.
  destruct v; try (now apply nodup_dict_set).
  - now apply Hlist.
  - now apply nodup_dict_update.
Qed.

Lemma flatten_value_nodup sep v parent_key :
  NoDup (dict_keys (flatten_value sep v parent_key)).
Proof.
  destruct v; try constructor.
  rewrite flatten_value_dict. apply flatten_items_nodup. constructor.
Qed.

Lemma get_after_app {V} (items : dict V) a b key :
  get_after items (a ++ b)%list key
  = match last_binding b key with
    | Some x => Some x
    | None => get_after items a key
    end.
Proof.
  unfold get_after. rewrite last_binding_app.
  now destruct (last_binding b key).
Qed.

(** Storing a scalar under the key of its one-step path. *)
Lemma get_after_scalar sep parent_key (s : seg) (v : pyval)
    (items : dict pyval) key :
  dict_get (dict_set items (join_seg sep parent_key s) v) key
  = get_after items (keyed_leaves sep parent_key [([s], v)]) key.
Proof.
  rewrite dict_get_set. unfold get_after, last_binding, keyed_leaves.
  cbn [map rev app dict_get fst snd join_path fold_left].
  now destruct (key_eqb (join_seg sep parent_key s) key).
Qed.

(** Merging the flattening of a nested dictionary. *)
Lemma get_after_nested sep parent_key (s : seg) (v : pyval)
    (items : dict pyval) key :
  (forall p k, dict_get (flatten_value sep v p) k
               = last_binding (keyed_leaves sep p (scalar_leaves v)) k) ->
  dict_get (dict_update items
              (flatten_value sep v (join_seg sep parent_key s))) key
  = get_after items
      (keyed_leaves sep parent_key (map (under s) (scalar_leaves v))) key.
Proof.
  intros Hv. rewrite dict_get_update, keyed_leaves_under.
  rewrite (last_binding_dict _ _ (flatten_value_nodup sep v _)), Hv.
  reflexivity.
Qed.

Lemma flattens_list sep (l : list pyval) :
  Forall (flattens_to_leaves sep) l -> flattens_to_leaves sep (PList l).
Proof.
  intros HF Hnl new_key. revert Hnl.
  induction HF as [|item l Hitem _ IH]; intros Hnl i items key;
    [reflexivity|].
  rewrite no_list_in_list_cons_list in Hnl.
  apply andb_prop in Hnl. destruct Hnl as [Hi Hl].
  cbn [flatten_list leaves_of_list].
  rewrite (IH Hl), keyed_leaves_app, get_after_app.
  unfold get_after at 1.
  destruct (last_binding (keyed_leaves sep new_key (leaves_of_list l (S i)))
              key); [reflexivity|].
  change (new_key ++ sep ++ str_of_nat i)
    with (join_seg sep new_key (Idx i)).
  destruct item; try discriminate Hi;
    try (now rewrite get_after_scalar).
  apply get_after_nested. exact (Hitem Hi).
Qed.

Lemma flattens_dict sep (obj : dict pyval) :
  Forall (fun kv => flattens_to_leaves sep (snd kv)) obj ->
  flattens_to_leaves sep (PDict obj).
Proof.
  intros HF Hnl parent_key key.
  rewrite flatten_value_dict, scalar_leaves_dict.
  enough (Hloop : forall items,
             dict_get (flatten_items sep parent_key obj items) key
             = get_after items
                 (keyed_leaves sep parent_key (leaves_of_items obj)) key).
  { rewrite Hloop. unfold get_after. now destruct (last_binding _ key). }
  revert Hnl.
  induction HF as [|[k v] obj Hv _ IH]; intros Hnl items; [reflexivity|].
  rewrite no_list_in_list_cons_dict in Hnl.
  apply andb_prop in Hnl. destruct Hnl as [Hnv Hno].
  cbn [flatten_items leaves_of_items]. cbv zeta.
  rewrite (IH Hno), keyed_leaves_app, get_after_app.
  unfold get_after at 1.
  destruct (last_binding (keyed_leaves sep parent_key (leaves_of_items obj))
              key); [reflexivity|].
  change (if is_empty parent_key then k else parent_key ++ sep ++ k)
    with (join_seg sep parent_key (Key k)).
  simpl snd in Hv.
  destruct v; try (now rewrite get_after_scalar).
  - rewrite (Hv Hnv), keyed_leaves_under, scalar_leaves_list. reflexivity.
  - apply get_after_nested. exact (Hv Hnv).
Qed.

Lemma flattens_every_value sep (v : pyval) : flattens_to_leaves sep v.
Proof.
  induction v using pyval_nested_ind;
    try (intros _; exact I).
  - now apply flattens_list.
  - now apply flattens_dict.
Qed.

(** C8 as stated fails. On a list directly inside a list the inner list
    is stored whole under the key of the outer element and its scalar has
    no entry; and of two leaves whose paths join to the same key the
    second replaces the first. *)
Lemma flatten_leaves_counterexample :
  ~ stores_every_leaf "_" list_in_list_example
  /\ ~ stores_every_leaf "_" collision_example.
Proof.
  split; intros H.
  - specialize (H [Key "a"; Idx 0; Idx 0] (PInt 1)).
    vm_compute in H. specialize (H (or_introl eq_refl)). discriminate H.
  - specialize (H [Key "a_b"] (PInt 1)).
    vm_compute in H. specialize (H (or_introl eq_refl)). discriminate H.
Qed.

(** What [flatten] returns on those inputs. *)
Example flatten_list_in_list :
  flatten list_in_list_example "_" = [("a_0", PList [PInt 1])].
Proof. reflexivity. Qed.

Example flatten_collision :
  flatten collision_example "_" = [("a_b", PInt 2)].
Proof. reflexivity. Qed.

(** C8, amended. For a dictionary in which no list is directly an element
    of a list, [flatten] with separator [sep] maps a key to the value of
    the last scalar leaf, in traversal order, whose path joins to that key,
    and has no other keys. The path is joined from the empty parent key:
    a dictionary key is appended as [parent_key + sep + key], or taken as
    it is when the parent key is empty, and a list index as
    [parent_key + sep + index]. *)
Theorem flatten_maps_joined_paths (sep : string) (data : dict pyval)
    (key : string) :
  no_list_in_list (PDict data) = true ->
  dict_get (flatten data sep) key
  = last_binding (keyed_leaves sep "" (scalar_leaves (PDict data))) key.
Proof.
  intros Hnl. exact (flattens_every_value sep (PDict data) Hnl "" key).
Qed.

(** When no two leaves join to the same key every leaf is stored under
    its joined path. *)
Corollary flatten_stores_distinct_leaves (sep : string) (data : dict pyval) :
  no_list_in_list (PDict data) = true ->
  NoDup (map fst (keyed_leaves sep "" (scalar_leaves (PDict data)))) ->
  stores_every_leaf sep data.
Proof.
  intros Hnl Hnd path x Hin.
  rewrite (flattens_every_value sep (PDict data) Hnl "" _).
  apply last_binding_in; [exact Hnd|].
  unfold keyed_leaves.
  exact (in_map (fun leaf => (join_path sep "" (fst leaf), snd leaf)) _ _ Hin).
Qed.

Lemma flatten_maps_joined_paths_witness :
  no_list_in_list (PDict nested_example) = true
  /\ dict_get (flatten nested_example "_") "items_0_sku"
     = last_binding
         (keyed_leaves "_" "" (scalar_leaves (PDict nested_example)))
         "items_0_sku"
  /\ flatten nested_example "_"
     = [ ("id", PInt 7); ("address_city", PStr "Ankara");
         ("address_zip", PStr "06000"); ("items_0_sku", PStr "A1");
         ("items_1", PStr "note") ].
Proof.
  split; [reflexivity|]. split; [|reflexivity].
  apply (flatten_maps_joined_paths "_" nested_example "items_0_sku").
  reflexivity.
Defined.

End FlattenProps.

(** ** Grouped aggregation *)
Module AggregationProps.
Import Py MathUtilsCy DictFacts.

Lemma values_of_cons g group_id group_ids value values :
  values_of g (group_id :: group_ids) (value :: values)
  = if Z.eqb group_id g then value :: values_of g group_ids values
    else values_of g group_ids values.
Proof. reflexivity. Qed.

(** The grouping loop gives every group the values paired with its id,
    in input order, after those it already had. *)
Lemma group_loop_spec (values : list float) :
  forall group_ids groups,
    List.length values <= List.length group_ids ->
    NoDup (dict_keys groups) ->
    exists groups',
      group_loop group_ids values groups = Some groups'
      /\ NoDup (dict_keys groups')
      /\ forall g,
           dict_get groups' g
           = match values_of g group_ids values with
             | [] => dict_get groups g
             | vs => Some (dict_get_default groups g [] ++ vs)%list
             end.
Proof.
  induction values as [|value values IH]; intros group_ids groups Hlen Hnd.
  - exists groups. split; [reflexivity|]. split; [exact Hnd|].
    intros g. now destruct group_ids.
  - destruct group_ids as [|group_id group_ids]; [simpl in Hlen; lia|].
    simpl in Hlen. cbn [group_loop]. cbv zeta.
    set (groups1 := if negb (dict_mem groups group_id)
                    then dict_set groups group_id [] else groups).
    set (groups2 := dict_set groups1 group_id _).
    assert (Hnd2 : NoDup (dict_keys groups2)).
    { apply nodup_dict_set. unfold groups1.
      destruct (negb (dict_mem groups group_id));
        [now apply nodup_dict_set | exact Hnd]. }
    assert (H1 : dict_get_default groups1 group_id []
                 = dict_get_default groups group_id []).
    { unfold groups1, dict_get_default, dict_mem.
      destruct (dict_get groups group_id) eqn:E; simpl; [now rewrite E|].
      rewrite dict_get_set.
      now destruct (key_eqb_spec group_id group_id). }
    assert (H2 : forall g,
               dict_get groups2 g
               = if Z.eqb group_id g
                 then Some (dict_get_default groups group_id [] ++ [value])%list
                 else dict_get groups g).
    { intros g. unfold groups2. rewrite dict_get_set, H1.
      change (key_eqb group_id g) with (Z.eqb group_id g).
      destruct (Z.eqb_spec group_id g) as [->|N]; [reflexivity|].
      unfold groups1. destruct (negb (dict_mem groups group_id));
        [|reflexivity].
      rewrite dict_get_set. change (key_eqb group_id g) with (Z.eqb group_id g).
      now destruct (Z.eqb_spec group_id g). }
    destruct (IH group_ids groups2 ltac:(lia) Hnd2) as (groups' & E & Hnd' & Hget).
    exists groups'. split; [exact E|]. split; [exact Hnd'|].
    intros g. rewrite Hget, values_of_cons.
    unfold dict_get_default at 1. rewrite (H2 g).
    destruct (Z.eqb_spec group_id g) as [->|N].
    + destruct (values_of g group_ids values); [reflexivity|].
      now rewrite <- app_assoc.
    + reflexivity.
Qed.

(** For the mean the aggregation loop gives a group the mean of its last
    list of values. *)
Lemma aggregate_loop_mean np_sort (groups : list (Z * list float)) :
  forall results g,
    dict_get (aggregate_loop np_sort "mean" groups results) g
    = match last_binding groups g with
      | Some vs => Some (AFloat (fast_mean vs))
      | None => dict_get results g
      end.
Proof.
  induction groups as [|[group_id group_values] groups IH];
    intros results g; [reflexivity|].
  cbn [aggregate_loop]. cbv zeta.
  change (String.eqb "mean" "sum") with false.
  change (String.eqb "mean" "mean") with true. cbv iota.
  rewrite IH, last_binding_cons, dict_get_set.
  destruct (last_binding groups g); [reflexivity|].
  now destruct (key_eqb group_id g).
Qed.

(** The mean of every group, for inputs whose group ids cover the
    values. *)
Lemma group_mean_spec np_sort (group_ids : list Z) (values : list float) :
  List.length values <= List.length group_ids ->
  exists results,
    erp_group_aggregation np_sort group_ids values "mean" = Some results
    /\ forall g,
         dict_get results g
         = match values_of g group_ids values with
           | [] => None
           | vs => Some (AFloat (fast_mean vs))
           end.
Proof.
  intros Hlen.
  destruct (group_loop_spec values group_ids [] Hlen (NoDup_nil _))
    as (groups & E & Hnd & Hget).
  unfold erp_group_aggregation. rewrite E. eexists. split; [reflexivity|].
  intros g. rewrite aggregate_loop_mean, (last_binding_dict _ _ Hnd), Hget.
  simpl. now destruct (values_of g group_ids values).
Qed.

(** The example of the specification. *)
Lemma group_mean_example np_sort :
  erp_group_aggregation np_sort [1; 1; 2]%Z [10; 20; 5]%float "mean"
  = Some [(1%Z, AFloat 15%float); (2%Z, AFloat 5%float)].
Proof. reflexivity. Qed.

(** The same pairs with the groups met in the other order: the same
    mapping, listed in the other order. *)
Example group_mean_example_reordered np_sort :
  erp_group_aggregation np_sort [2; 1; 1]%Z [5; 10; 20]%float "mean"
  = Some [(2%Z, AFloat 5%float); (1%Z, AFloat 15%float)].
Proof. reflexivity. Qed.

(** The values 2^53, -2^53 and 3 of one group have the mean 1; summed
    from left to right in that order they give it. *)
Example group_mean_exact_order np_sort :
  erp_group_aggregation np_sort [1; 1; 1]%Z
    [two_53; PrimFloat.opp two_53; 3%float] "mean"
  = Some [(1%Z, AFloat 1%float)].
Proof. reflexivity. Qed.

(** With 3 before -2^53 the sum 2^53 + 3 is rounded to 2^53 + 4 and the
    result is 4/3 in double precision. *)
Example group_mean_rounded_order np_sort :
  erp_group_aggregation np_sort [1; 1; 1]%Z
    [two_53; 3%float; PrimFloat.opp two_53] "mean"
  = Some [(1%Z, AFloat (PrimFloat.div 4 3))].
Proof. reflexivity. Qed.

(** C9 as stated fails: the mean of a group depends on the order of its
    values. *)
Lemma group_mean_order_counterexample : ~ mean_order_independent.
Proof.
  intros H.
  specialize (H (fun l => l) [1; 1; 1]%Z
                [two_53; PrimFloat.opp two_53; 3%float]
                [1; 1; 1]%Z
                [two_53; 3%float; PrimFloat.opp two_53]
                eq_refl eq_refl).
  specialize (H (perm_skip _ (perm_swap _ _ _)) 1%Z).
  rewrite group_mean_exact_order, group_mean_rounded_order in H.
  simpl in H.
  pose (is_one := fun r : option aggval =>
                   match r with
                   | Some (AFloat x) => PrimFloat.eqb 1 x
                   | _ => false
                   end).
  assert (E : is_one (Some (AFloat 1%float)) = true) by reflexivity.
  rewrite H in E. vm_compute in E. discriminate E.
Qed.

(** C9, amended. With [op = mean] and group ids that cover the values,
    every group id is mapped to the quotient, in double precision, of the
    left-to-right sum of the values assigned to it, taken in input order,
    by their number, and an id without values is not a key. Hence two
    inputs that give every group the same sequence of values, however the
    groups are interleaved, give every group the same mean. For group ids
    [1, 1, 2] and values [10, 20, 5] the result is [{1: 15.0, 2: 5.0}]. *)
Theorem group_mean_by_group np_sort (group_ids : list Z)
    (values : list float) :
  List.length values <= List.length group_ids ->
  (exists results,
     erp_group_aggregation np_sort group_ids values "mean" = Some results
     /\ forall g,
          dict_get results g
          = match values_of g group_ids values with
            | [] => None
            | vs => Some (AFloat (fast_mean vs))
            end)
  /\ (forall group_ids' values',
        List.length values' <= List.length group_ids' ->
        (forall g, values_of g group_ids' values'
                   = values_of g group_ids values) ->
        forall g,
          result_of (erp_group_aggregation np_sort group_ids' values' "mean") g
          = result_of (erp_group_aggregation np_sort group_ids values "mean") g)
  /\ erp_group_aggregation np_sort [1; 1; 2]%Z [10; 20; 5]%float "mean"
     = Some [(1%Z, AFloat 15%float); (2%Z, AFloat 5%float)].
Proof.
  intros Hlen. split; [now apply group_mean_spec|].
  split; [|apply group_mean_example].
  intros group_ids' values' Hlen' Hsame g.
  destruct (group_mean_spec np_sort group_ids values Hlen) as (r & -> & Hr).
  destruct (group_mean_spec np_sort group_ids' values' Hlen')
    as (r' & -> & Hr').
  simpl. now rewrite Hr, Hr', Hsame.
Qed.

Lemma group_mean_by_group_witness :
  List.length [10; 20; 5]%float <= List.length [1; 1; 2]%Z
  /\ exists results,
       erp_group_aggregation (fun l => l) [1; 1; 2]%Z [10; 20; 5]%float "mean"
       = Some results
       /\ forall g,
            dict_get results g
            = match values_of g [1; 1; 2]%Z [10; 20; 5]%float with
              | [] => None
              | vs => Some (AFloat (fast_mean vs))
              end.
Proof.
  split; [simpl; lia|].
  apply (group_mean_by_group (fun l => l) [1; 1; 2]%Z [10; 20; 5]%float).
  simpl; lia.
Defined.

End AggregationProps.

(** ** The RFC table decoder, the record transformers and the table
    utilities *)
Module SAPRecordsProps.
Import PyStr Py SAPTransformerCy SAPRecordsCy StrFacts DictFacts.

(** A value the normalizer leaves as it is. *)
Lemma transform_sap_field_idem (v : pyval) :
  _transform_sap_field (_transform_sap_field v) = _transform_sap_field v.
Proof.
  destruct v; try reflexivity.
  simpl. now rewrite NormalizerProps.transform_str_idem.
Qed.

Lemma Forall_dict_set {V} (P : string * V -> Prop) (d : dict V) k v :
  Forall P d -> P (k, v) -> Forall P (dict_set d k v).
Proof.
  intros Hd Hkv. apply Forall_forall. intros [k' v'] Hin.
  apply in_dict_set in Hin. destruct Hin as [Hin|[-> ->]]; [|exact Hkv].
  exact (proj1 (Forall_forall P d) Hd _ Hin).
Qed.









Lemma polars_row_loop_normalized (record : option (dict pyval))
    (cols : list string) :
  forall acc out,
    polars_row_loop record cols acc = Ok out ->
    row_loop record cols (map _transform_sap_field acc)
    = Ok (map _transform_sap_field out).
Proof.
  induction cols as [|col cols IH]; intros acc out H;
    cbn [polars_row_loop] in H; cbn [row_loop].
  - now inversion H.
  - destruct record as [d|]; [|discriminate H].
    apply IH in H. rewrite map_app in H. exact H.
Qed.

Lemma polars_loop_normalized (cols : list string) (table : list pyval) :
  forall acc out,
    polars_loop cols table acc = Ok out ->
    table_loop cols table (map (map _transform_sap_field) acc)
    = Ok (map (map _transform_sap_field) out).
Proof.
  induction table as [|item table IH]; intros acc out H;
    cbn [polars_loop] in H; cbn [table_loop].
  - now inversion H.
  - destruct (as_cdef_dict item) as [record|e]; cbn [bind] in *;
      [|discriminate H].
    destruct (polars_row_loop record cols []) as [vals|e] eqn:Hr;
      cbn [bind] in H; [|discriminate H].
    apply polars_row_loop_normalized in Hr. simpl in Hr. rewrite Hr.
    cbn [bind]. apply IH in H. rewrite map_app in H. exact H.
Qed.

(** X3. Whenever [sap_table_to_polars_format] returns the columns and the
    raw rows of a table, [_transform_sap_table] returns the same names as
    headers and the same rows with every cell normalized: the parsed table
    is the Polars form seen through the field normalizer. *)
Theorem parsed_table_is_normalized_polars (sap_table_data : list pyval)
    (p : PolarsTable) :
  sap_table_to_polars_format sap_table_data = Ok p ->
  _transform_sap_table sap_table_data
  = Ok {| headers := columns p;
          rows := map (map _transform_sap_field) (data p);
          row_count := List.length (data p) |}.
Proof.
  unfold sap_table_to_polars_format, _transform_sap_table. intros H.
  destruct sap_table_data as [|first rest]; [now inversion H|].
  destruct first as [| | | | | |d]; try discriminate H.
  cbn [as_cdef_dict bind].
  destruct (polars_loop (dict_keys d) (PDict d :: rest) []) as [rs|e] eqn:Hp;
    cbn [bind] in H; [|discriminate H].
  inversion H; subst p; clear H. cbn [columns data].
  apply polars_loop_normalized in Hp. simpl map in Hp. rewrite Hp.
  cbn [bind]. now rewrite length_map.
Qed.

Lemma parsed_table_is_normalized_polars_witness :
  sap_table_to_polars_format table_example
  = Ok {| columns := ["MATNR"; "ERSDA"];
          data := [ [PStr "000000000000001234"; PStr "20230615"];
                    [PStr ""; PStr "00000000"] ] |}
  /\ _transform_sap_table table_example = Ok table_example_result.
Proof.
  split; [reflexivity|].
  exact (parsed_table_is_normalized_polars table_example _ eq_refl).
Defined.

Lemma dict_set_fresh {V} (d : dict V) k v :
  ~ In k (dict_keys d) -> dict_set d k v = (d ++ [(k, v)])%list.
Proof.
  induction d as [|[k0 v0] d IH]; simpl; intros N; [reflexivity|].
  destruct (String.eqb_spec k0 k) as [->|_]; [tauto|].
  rewrite IH; [reflexivity | tauto].
Qed.

Section RecordLoops.
Variable field : string -> option string -> exc pyval.

(** Every entry the loop adds comes from the branch function. *)
Lemma typed_items_loop_values (items : list (string * pyval)) :
  forall result r,
    typed_items_loop field items result = Ok r ->
    forall k v, dict_get r k = Some v ->
      dict_get result k = Some v \/ exists value, field k value = Ok v.
Proof.
  induction items as [|[key value] items IH]; intros result r H k v Hget;
    cbn [typed_items_loop] in H.
  - inversion H; subst. now left.
  - destruct (as_cdef_str value) as [value'|e]; cbn [bind] in H;
      [|discriminate H].
    destruct (field key value') as [v'|e] eqn:Hf; cbn [bind] in H;
      [|discriminate H].
    destruct (IH _ _ H k v Hget) as [Hold|Hnew]; [|now right].
    rewrite dict_get_set in Hold.
    change (key_eqb key k) with (String.eqb key k) in Hold.
    destruct (String.eqb_spec key k) as [->|N]; [|now left].
    inversion Hold; subst. right. now exists value'.
Qed.

(** On items with distinct keys the loop appends one entry per item, in
    order, under the key of the item. *)
Lemma typed_items_loop_fresh (items : list (string * pyval)) :
  forall result r,
    NoDup (dict_keys result ++ map fst items) ->
    typed_items_loop field items result = Ok r ->
    exists new,
      r = (result ++ new)%list
      /\ Forall2 (fun kv out =>
                    fst out = fst kv
                    /\ exists value, as_cdef_str (snd kv) = Ok value
                         /\ field (fst kv) value = Ok (snd out))
           items new.
Proof.
  induction items as [|[key value] items IH]; intros result r Hnd H;
    cbn [typed_items_loop] in H.
  - inversion H; subst. exists []. rewrite app_nil_r. now split.
  - destruct (as_cdef_str value) as [value'|e] eqn:Hv; cbn [bind] in H;
      [|discriminate H].
    destruct (field key value') as [v'|e] eqn:Hf; cbn [bind] in H;
      [|discriminate H].
    assert (Hfresh : ~ In key (dict_keys result)).
    { simpl in Hnd. apply NoDup_remove_2 in Hnd.
      intros Hin. apply Hnd. apply in_or_app. now left. }
    rewrite (dict_set_fresh _ _ _ Hfresh) in H.
    apply IH in H.
    + destruct H as (new & -> & HF). exists ((key, v') :: new).
      rewrite <- app_assoc. split; [reflexivity|].
      constructor; [|exact HF]. simpl. split; [reflexivity|].
      exists value'. now split.
    + unfold dict_keys in *. rewrite map_app, <- app_assoc. simpl.
      simpl in Hnd. apply NoDup_Add with (a := key)
                                         (l := (map fst result ++ map fst items)%list).
      * apply Add_app.
      * apply NoDup_remove in Hnd. exact (conj (proj1 Hnd) (proj2 Hnd)).
Qed.

End RecordLoops.

Lemma generic_items_loop_fresh (items : list (string * pyval)) :
  forall result,
    NoDup (dict_keys result ++ map fst items) ->
    generic_items_loop items result
    = (result ++ map (fun kv => (fst kv, _transform_sap_field (snd kv)))
                   items)%list.
Proof.
  induction items as [|[key value] items IH]; intros result Hnd;
    cbn [generic_items_loop map].
  - now rewrite app_nil_r.
  - assert (Hfresh : ~ In key (dict_keys result)).
    { simpl in Hnd. apply NoDup_remove_2 in Hnd.
      intros Hin. apply Hnd. apply in_or_app. now left. }
    rewrite (dict_set_fresh _ _ _ Hfresh), IH.
    + now rewrite <- app_assoc.
    + unfold dict_keys in *. rewrite map_app, <- app_assoc. simpl.
      simpl in Hnd. apply NoDup_Add with (a := key)
                                         (l := (map fst result ++ map fst items)%list).
      * apply Add_app.
      * apply NoDup_remove in Hnd. exact (conj (proj1 Hnd) (proj2 Hnd)).
Qed.

(** The generic loop keeps a dictionary a dictionary, and all it stores is
    in normal form. *)
Lemma generic_items_loop_normal (items : list (string * pyval)) :
  forall result,
    NoDup (dict_keys result) ->
    Forall (fun kv => _transform_sap_field (snd kv) = snd kv) result ->
    NoDup (dict_keys (generic_items_loop items result))
    /\ Forall (fun kv => _transform_sap_field (snd kv) = snd kv)
         (generic_items_loop items result).
Proof.
  induction items as [|[key value] items IH]; intros result Hnd Hall;
    cbn [generic_items_loop]; [now split|].
  apply IH; [now apply nodup_dict_set|].
  apply Forall_dict_set; [exact Hall|]. apply transform_sap_field_idem.
Qed.

Lemma generic_record_fixed (record : dict pyval) :
  NoDup (dict_keys record) ->
  Forall (fun kv => _transform_sap_field (snd kv) = snd kv) record ->
  generic_items_loop record [] = record.
Proof.
  intros Hnd Hall. rewrite generic_items_loop_fresh by exact Hnd. simpl.
  induction Hall as [|[k v] record Hv _ IH]; [reflexivity|].
  simpl in *. rewrite Hv. f_equal. apply IH. now inversion Hnd.
Qed.

(** X4. For a record type without a transformer of its own,
    [batch_transform_records] is idempotent: transforming its own output
    again returns that output. *)
Theorem generic_batch_idempotent str_upper str_title float_parses
    (records : list pyval) (record_type : string)
    (out : list (dict pyval)) :
  known_type record_type = false ->
  batch_transform_records str_upper str_title float_parses records record_type
  = Ok out ->
  batch_transform_records str_upper str_title float_parses (map PDict out)
    record_type
  = Ok out.
Proof.
  intros Hty H.
  assert (Hgen : forall record,
             transform_record str_upper str_title float_parses record_type
               record
             = Ok (generic_items_loop record [])).
  { intros record. unfold transform_record.
    unfold known_type, key_field in Hty.
    destruct (String.eqb record_type "material_master"); [discriminate|].
    destruct (String.eqb record_type "vendor_master"); [discriminate|].
    destruct (String.eqb record_type "customer_master"); [discriminate|].
    destruct (String.eqb record_type "financial_document");
      [discriminate | reflexivity]. }
  unfold batch_transform_records in *.
  assert (Hout : forall recs acc res,
             batch_loop str_upper str_title float_parses record_type recs acc
             = Ok res ->
             exists new,
               res = (acc ++ new)%list
               /\ Forall (fun r => generic_items_loop r [] = r) new).
  { induction recs as [|item recs IH]; intros acc res Hr;
      cbn [batch_loop] in Hr.
    - inversion Hr; subst. exists []. now rewrite app_nil_r.
    - destruct (as_cdef_dict item) as [[record|]|e]; cbn [bind] in Hr;
        try discriminate Hr.
      rewrite Hgen in Hr. cbn [bind] in Hr.
      apply IH in Hr. destruct Hr as (new & -> & Hnew).
      exists (generic_items_loop record [] :: new).
      rewrite <- app_assoc. split; [reflexivity|].
      constructor; [|exact Hnew].
      destruct (generic_items_loop_normal record [] (NoDup_nil _)
                  (Forall_nil _)) as [Hnd Hall].
      now apply generic_record_fixed. }
  apply Hout in H. destruct H as (new & -> & Hfix). simpl.
  assert (Hagain : forall acc,
             batch_loop str_upper str_title float_parses record_type
               (map PDict new) acc
             = Ok (acc ++ new)%list).
  { induction Hfix as [|r new Hr _ IH]; intros acc; cbn [map batch_loop].
    - now rewrite app_nil_r.
    - cbn [as_cdef_dict bind]. rewrite Hgen. cbn [bind]. rewrite Hr, IH.
      now rewrite <- app_assoc. }
  apply Hagain.
Qed.

Lemma generic_batch_idempotent_witness :
  batch_transform_records (fun s => s) (fun s => s) (fun _ => true)
    [PDict material_example] "generic"
  = Ok [ [ ("MATNR", PStr "000000000000001234");
           ("ERSDA", PStr "2023-06-15"); ("BRGEW", PStr "12.5-") ] ]
  /\ batch_transform_records (fun s => s) (fun s => s) (fun _ => true)
       (map PDict
          [ [ ("MATNR", PStr "000000000000001234");
              ("ERSDA", PStr "2023-06-15"); ("BRGEW", PStr "12.5-") ] ])
       "generic"
     = Ok [ [ ("MATNR", PStr "000000000000001234");
              ("ERSDA", PStr "2023-06-15"); ("BRGEW", PStr "12.5-") ] ].
Proof.
  split; [reflexivity|].
  apply (generic_batch_idempotent (fun s => s) (fun s => s) (fun _ => true)
           [PDict material_example] "generic");
    reflexivity.
Defined.

Section Transformers.
Variable str_upper : string -> string.
Variable str_title : string -> string.
Variable float_parses : string -> bool.

Notation transform_record' :=
  (transform_record str_upper str_title float_parses).

(** The transformer of a record type is the typed loop over one of the
    four branch functions, or the generic loop. *)
Lemma transform_record_cases (record_type : string) (record : dict pyval) :
  (exists field,
     transform_record' record_type record = typed_items_loop field record []
     /\ forall key, key_field record_type = Some key ->
          forall value, field key value = key_number value)
  \/ (key_field record_type = None
      /\ transform_record' record_type record
         = Ok (generic_items_loop record [])).
Proof.
  unfold transform_record, key_field.
  destruct (String.eqb record_type "material_master").
  { left. exists (material_field str_upper float_parses).
    split; [reflexivity|]. intros key E. now inversion E. }
  destruct (String.eqb record_type "vendor_master").
  { left. exists (vendor_field str_upper str_title).
    split; [reflexivity|]. intros key E. now inversion E. }
  destruct (String.eqb record_type "customer_master").
  { left. exists (customer_field str_upper str_title).
    split; [reflexivity|]. intros key E. now inversion E. }
  destruct (String.eqb record_type "financial_document").
  { left. exists (financial_field str_upper float_parses).
    split; [reflexivity|]. intros key E. now inversion E. }
  right. now split.
Qed.

(** X5. Whatever the record type, a transformed record has the keys of the
    record it comes from, in the same order. *)
Theorem transform_record_keeps_keys (record_type : string)
    (record result : dict pyval) :
  NoDup (dict_keys record) ->
  transform_record' record_type record = Ok result ->
  dict_keys result = dict_keys record.
Proof.
  intros Hnd H.
  destruct (transform_record_cases record_type record)
    as [(field & E & _)|[_ E]]; rewrite E in H.
  - apply typed_items_loop_fresh in H; [|exact Hnd].
    destruct H as (new & -> & HF). simpl. unfold dict_keys.
    clear - HF. induction HF as [|kv o items new [Hk _] _ IH];
      [reflexivity|]. simpl. now rewrite Hk, IH.
  - inversion H; subst result.
    rewrite generic_items_loop_fresh by exact Hnd. simpl.
    unfold dict_keys. rewrite map_map. reflexivity.
Qed.

Lemma strip_zeros_no_leading_zero (s : string) :
  no_leading_zero (strip_zeros s).
Proof.
  unfold strip_zeros, no_leading_zero.
  pose proof (lstrip_by_head (Ascii.eqb "0") s) as Hh.
  destruct (lstrip_by (Ascii.eqb "0") s) as [|c r]; [now left|].
  right. split; [discriminate|]. simpl in *.
  now rewrite Ascii.eqb_sym.
Qed.

(** X6. In a transformed record of a known type the key number (MATNR,
    LIFNR, KUNNR or BELNR) is a string that is ["0"] or does not start
    with a zero. *)
Theorem key_number_has_no_leading_zero (record_type key : string)
    (record result : dict pyval) (v : pyval) :
  transform_record' record_type record = Ok result ->
  key_field record_type = Some key ->
  dict_get result key = Some v ->
  exists s, v = PStr s /\ no_leading_zero s.
Proof.
  intros H Hkey Hget.
  destruct (transform_record_cases record_type record)
    as [(field & E & Hfield)|[Hnone _]]; [|congruence].
  rewrite E in H.
  destruct (typed_items_loop_values field record [] result H key v Hget)
    as [Hold|(value & Hv)]; [discriminate Hold|].
  rewrite (Hfield key Hkey) in Hv.
  destruct value as [s0|]; [|discriminate Hv].
  inversion Hv; subst v. eexists. split; [reflexivity|].
  apply strip_zeros_no_leading_zero.
Qed.

End Transformers.

(** A string of digits is not white space at either end. *)
Lemma digits_stripped (s : string) :
  all_chars is_digit s = true -> strip s = s.
Proof.
  intros H. unfold strip.
  assert (Hl : lstrip_by is_space s = s).
  { apply lstrip_by_fixed. destruct s as [|c r]; [exact I|]. simpl in *.
    apply andb_prop in H. now apply digit_char_facts. }
  rewrite Hl. clear Hl.
  induction s as [|c r IH]; [reflexivity|]. simpl in *.
  apply andb_prop in H. destruct H as [Hc Hr]. rewrite (IH Hr).
  destruct r; [|reflexivity].
  now destruct (digit_char_facts c Hc) as (-> & _).
Qed.

Lemma digits_have_no_comma (s : string) :
  all_chars is_digit s = true -> contains "," s = false.
Proof.
  induction s as [|c r IH]; [reflexivity|]. simpl. intros H.
  apply andb_prop in H. destruct H as [Hc Hr].
  destruct (digit_char_facts c Hc) as (_ & _ & -> & _). now apply IH.
Qed.

(** A run of digits that is neither a date nor a time is an amount, and
    the normalizer returns it as it is. *)
Lemma digits_normalized (s : string) :
  isdigit s = true ->
  String.length s <> 6 -> String.length s <> 8 ->
  transform_str s = s.
Proof.
  intros Hd H6 H8. pose proof (NormalizerProps.isdigit_all s Hd) as Hall.
  unfold transform_str. rewrite (digits_stripped s Hall).
  unfold transform_stripped.
  assert (He : is_empty s = false) by (destruct s; [discriminate Hd | reflexivity]).
  rewrite He.
  apply Nat.eqb_neq in H6. apply Nat.eqb_neq in H8. rewrite H6, H8. simpl.
  rewrite (amount_digits_of_digits s Hall), Hd.
  now rewrite (digits_have_no_comma s Hall).
Qed.

(** X7. A key number made of digits only, and not six or eight of them,
    comes out of the transformer of its record type without its leading
    zeros, ["0"] standing for a run of zeros. *)
Theorem key_number_of_digits str_upper str_title float_parses
    (record_type key : string) (record result : dict pyval) (s : string) :
  NoDup (dict_keys record) ->
  transform_record str_upper str_title float_parses record_type record
  = Ok result ->
  key_field record_type = Some key ->
  In (key, PStr s) record ->
  isdigit s = true ->
  String.length s <> 6 -> String.length s <> 8 ->
  dict_get result key = Some (PStr (strip_zeros s)).
Proof.
  intros Hnd H Hkey Hin Hd H6 H8.
  pose proof (transform_record_keeps_keys _ _ _ _ _ _ Hnd H) as Hkeys.
  destruct (transform_record_cases str_upper str_title float_parses
              record_type record)
    as [(field & E & Hfield)|[Hnone _]]; [|congruence].
  rewrite E in H. apply typed_items_loop_fresh in H; [|exact Hnd].
  destruct H as (new & -> & HF). simpl in *.
  apply dict_get_in; [now rewrite Hkeys|].
  clear Hkeys Hnd E. induction HF as [|kv o items new [Hk Hv] _ IH];
    [contradiction|].
  destruct Hin as [->|Hin]; [|right; now apply IH].
  left. destruct o as [k v]. simpl in *. subst k.
  destruct Hv as (value & Hs & Hf). inversion Hs; subst value.
  rewrite (Hfield key Hkey) in Hf. simpl in Hf.
  rewrite (digits_normalized s Hd H6 H8) in Hf. now inversion Hf.
Qed.

Lemma key_number_of_digits_witness :
  dict_get [ ("MATNR", PStr "1234"); ("ERSDA", PStr "2023-06-15");
             ("BRGEW", PStr "-12.5") ] "MATNR"
  = Some (PStr (strip_zeros "000000000000001234")).
Proof.
  apply (key_number_of_digits (fun s => s) (fun s => s) (fun _ => true)
           "material_master" "MATNR" material_example);
    try reflexivity.
  - repeat constructor; simpl; intuition discriminate.
  - left. reflexivity.
  - discriminate.
  - discriminate.
Defined.


Lemma transform_record_keeps_keys_witness :
  NoDup (dict_keys material_example)
  /\ transform_record (fun s => s) (fun s => s) (fun _ => true)
       "material_master" material_example
     = Ok [ ("MATNR", PStr "1234"); ("ERSDA", PStr "2023-06-15");
            ("BRGEW", PStr "-12.5") ]
  /\ dict_keys [ ("MATNR", PStr "1234"); ("ERSDA", PStr "2023-06-15");
                 ("BRGEW", PStr "-12.5") ]
     = dict_keys material_example.
Proof.
  assert (Hnd : NoDup (dict_keys material_example)).
  { repeat constructor; simpl; intuition discriminate. }
  split; [exact Hnd|]. split; [reflexivity|].
  apply (transform_record_keeps_keys (fun s => s) (fun s => s)
           (fun _ => true) "material_master" material_example);
    [exact Hnd | reflexivity].
Defined.

Lemma key_number_has_no_leading_zero_witness :
  exists s, PStr "1234" = PStr s /\ no_leading_zero s.
Proof.
  apply (key_number_has_no_leading_zero (fun s => s) (fun s => s)
           (fun _ => true) "material_master" "MATNR" material_example
           [ ("MATNR", PStr "1234"); ("ERSDA", PStr "2023-06-15");
             ("BRGEW", PStr "-12.5") ]);
    reflexivity.
Defined.

End SAPRecordsProps.

(** ** The string utilities *)
Module StringToolsProps.
Import PyStr Py StringToolsCy StrFacts.

Lemma date_out_fixed c1 c2 c3 c4 c5 c6 c7 c8 :
  all_chars is_digit
    (String c1 (String c2 (String c3 (String c4
      (String c5 (String c6 (String c7 (String c8 "")))))))) = true ->
  let out := String c1 (String c2 (String c3 (String c4 (String "-"
      (String c5 (String c6 (String "-" (String c7 (String c8 ""))))))))) in
  sap_date_normalize (Some out) = out.
Proof.
  intros H out; subst out. simpl in H.
  repeat (apply andb_prop in H; destruct H as [?H H]). clear H.
  repeat match goal with
         | D : is_digit ?c = true |- _ =>
             destruct (digit_char_facts c D) as (? & ? & ? & ?); clear D
         end.
  unfold sap_date_normalize.
  match goal with
  | |- context [String.eqb ?o "00000000"] =>
      assert (Hne : String.eqb o "00000000" = false)
        by (apply String.eqb_neq; discriminate);
      rewrite Hne
  end.
  unfold strip, isdigit.
  repeat (progress (simpl;
                    repeat match goal with
                           | E : _ = false |- _ => rewrite E
                           end)).
  reflexivity.
Qed.

(** X9. [sap_date_normalize] is idempotent. *)
Theorem sap_date_normalize_idempotent (sap_date : option string) :
  sap_date_normalize (Some (sap_date_normalize sap_date))
  = sap_date_normalize sap_date.
Proof.
  destruct sap_date as [x|]; [|reflexivity].
  unfold sap_date_normalize at 2 3.
  destruct (is_empty x || String.eqb x "00000000"); [reflexivity|].
  pose proof (strip_idem x) as Hs. set (s := strip x) in *.
  destruct ((String.length s =? 8) && isdigit s) eqn:E.
  - apply andb_prop in E. destruct E as [L D].
    apply Nat.eqb_eq in L. apply NormalizerProps.isdigit_all in D.
    clear Hs. clearbody s.
    NormalizerProps.chars_of s L.
    exact (date_out_fixed _ _ _ _ _ _ _ _ D).
  - unfold sap_date_normalize. rewrite Hs, E.
    destruct (is_empty s || String.eqb s "00000000") eqn:E0; [|reflexivity].
    apply orb_prop in E0. destruct E0 as [E0|E0].
    + now destruct s.
    + apply String.eqb_eq in E0. rewrite E0 in E. discriminate E.
Qed.

Lemma append_assoc (a b c : string) : (a ++ b) ++ c = a ++ (b ++ c).
Proof. induction a as [|x a IH]; simpl; [reflexivity | now rewrite IH]. Qed.


Lemma length_append (a b : string) :
  String.length (a ++ b) = String.length a + String.length b.
Proof. induction a as [|x a IH]; simpl; [reflexivity | now rewrite IH]. Qed.

Lemma replace_app (old : ascii) (new a b : string) :
  replace old new (a ++ b) = replace old new a ++ replace old new b.
Proof.
  induction a as [|c a IH]; [reflexivity|]. simpl.
  destruct (Ascii.eqb c old); simpl; rewrite IH;
    [now rewrite append_assoc | reflexivity].
Qed.

Lemma contains_app (c : ascii) (a b : string) :
  contains c (a ++ b) = contains c a || contains c b.
Proof.
  induction a as [|d a IH]; [reflexivity|]. simpl.
  now rewrite IH, orb_assoc.
Qed.

(** The seven replacements, made one after the other on the whole string,
    amount to one pass that escapes every character: none of them touches
    what an earlier one has written. *)
Lemma json_string_escape_single_pass (s : string) :
  json_string_escape (Some s) = escape_all s.
Proof.
  unfold json_string_escape.
  destruct s as [|c0 s0]; [reflexivity|]. cbn [is_empty].
  generalize (String c0 s0). clear c0 s0. intros s.
  induction s as [|c s IH]; [reflexivity|].
  change (String c s) with (String c "" ++ s).
  rewrite !replace_app, IH. cbn [escape_all append]. f_equal.
  destruct c as [[] [] [] [] [] [] [] []]; reflexivity.
Qed.

(** X10. The escaped string holds no line feed, carriage return, tab,
    backspace or form feed. *)
Theorem json_escape_has_no_control_character (input_string : option string)
    (c : ascii) :
  In c [line_feed; carriage_return; tab; backspace; form_feed] ->
  contains c (json_string_escape input_string) = false.
Proof.
  intros Hc. destruct input_string as [s|]; [|reflexivity].
  rewrite json_string_escape_single_pass.
  induction s as [|d s IH]; [reflexivity|].
  cbn [escape_all]. rewrite contains_app, IH, orb_false_r.
  simpl in Hc.
  destruct Hc as [<-|[<-|[<-|[<-|[<-|[]]]]]];
    destruct d as [[] [] [] [] [] [] [] []]; reflexivity.
Qed.

Lemma json_escape_has_no_control_character_witness :
  In tab [line_feed; carriage_return; tab; backspace; form_feed]
  /\ contains tab
       (json_string_escape (Some (String "a" (String tab "b")))) = false.
Proof.
  assert (H : In tab [line_feed; carriage_return; tab; backspace; form_feed])
    by (right; right; left; reflexivity).
  split; [exact H|].
  exact (json_escape_has_no_control_character _ tab H).
Defined.

(** X11. Escaping loses nothing: reading a backslash and the character
    after it as the character they stand for gives the string back; two
    different strings never have the same escape. *)
Theorem json_escape_round_trip (s : string) :
  json_string_unescape (json_string_escape (Some s)) = s
  /\ forall s', json_string_escape (Some s') = json_string_escape (Some s) ->
                s' = s.
Proof.
  assert (Hrt : forall x, json_string_unescape (json_string_escape (Some x))
                          = x).
  { intros x. rewrite json_string_escape_single_pass.
    induction x as [|c x IH]; [reflexivity|].
    cbn [escape_all].
    destruct c as [[] [] [] [] [] [] [] []];
      cbn [escape_char Ascii.eqb Bool.eqb backslash dquote line_feed
             carriage_return tab backspace form_feed escaped append
             json_string_unescape unescape_char];
      rewrite IH; reflexivity. }
  split; [apply Hrt|].
  intros s' E. rewrite <- (Hrt s'), E. apply Hrt.
Qed.






End StringToolsProps.

(** ** The CSV tokenizer, writer and record assembler *)
Module CSVMoreProps.
Import PyStr Py CSVProcessorCy CSVWriterCy StrFacts DictFacts StringToolsProps.







(** *** The writer and the tokenizer *)



















(** *** The records of [process_fast] *)












End CSVMoreProps.

(** ** The field renaming of the JSON processor *)
Module JSONTransformProps.
Import PyStr Py JSONTransformCy DictFacts.

Lemma transform_value_dict (mapping : dict string) (obj : dict pyval) :
  transform_value mapping (PDict obj)
  = PDict (transform_items mapping obj []).
Proof.
  cbn [transform_value]. f_equal. generalize (@nil (string * pyval)).
  induction obj as [|[k v] obj IH]; intros result; [reflexivity|].
  cbn [transform_items]. apply IH.
Qed.

Lemma transform_value_list (mapping : dict string) (l : list pyval) :
  transform_value mapping (PList l)
  = PList (transform_elements mapping l []).
Proof.
  cbn [transform_value]. f_equal.
  enough (H : forall result,
             (fix list_loop (l : list pyval) (result : list pyval)
                  {struct l} : list pyval :=
                match l with
                | [] => result
                | item :: l =>
                    list_loop l
                      (result ++
                       [match item with
                        | PDict _ => transform_value mapping item
                        | PList _ => transform_value mapping item
                        | _ => item
                        end])%list
                end) l result
             = transform_elements mapping l result) by apply H.
  induction l as [|item l IH]; intros result; [reflexivity|].
  cbn [transform_elements]. apply IH.
Qed.

(** [transform] is [transform_value]. *)
Lemma transform_is_transform_value (data : pyval) (mapping : dict string) :
  transform data mapping = transform_value mapping data.
Proof.
  destruct data; try reflexivity.
  - now rewrite transform_value_list.
  - now rewrite transform_value_dict.
Qed.

Lemma branch_is_transform_value (mapping : dict string) (value : pyval) :
  match value with
  | PDict _ => transform_value mapping value
  | PList _ => transform_value mapping value
  | _ => value
  end = transform_value mapping value.
Proof. now destruct value. Qed.

Lemma transform_elements_map (mapping : dict string) (l : list pyval) :
  forall result,
    transform_elements mapping l result
    = (result ++ map (transform_value mapping) l)%list.
Proof.
  induction l as [|item l IH]; intros result.
  - simpl. now rewrite app_nil_r.
  - cbn [transform_elements map]. rewrite branch_is_transform_value, IH.
    now rewrite <- app_assoc.
Qed.

(** The loop over the items as one [dict_update]. *)
Lemma transform_items_update (mapping : dict string)
    (kvs : list (string * pyval)) :
  forall result,
    transform_items mapping kvs result
    = dict_update result
        (map (fun kv => (renamed mapping (fst kv),
                         transform_value mapping (snd kv))) kvs).
Proof.
  induction kvs as [|[k v] kvs IH]; intros result; [reflexivity|].
  cbn [transform_items map]. rewrite branch_is_transform_value, IH.
  reflexivity.
Qed.

Lemma dict_update_fresh {V} (e : dict V) :
  forall d,
    NoDup (dict_keys d ++ dict_keys e) ->
    dict_update d e = (d ++ e)%list.
Proof.
  unfold dict_update.
  induction e as [|[k v] e IH]; intros d H; simpl.
  - now rewrite app_nil_r.
  - assert (Hk : ~ In k (dict_keys d)).
    { intros Hin. apply NoDup_remove_2 in H. apply H.
      apply in_or_app. now left. }
    rewrite SAPRecordsProps.dict_set_fresh by exact Hk.
    rewrite IH.
    + now rewrite <- app_assoc.
    + unfold dict_keys in *. rewrite map_app. simpl.
      rewrite <- app_assoc. exact H.
Qed.

Lemma distinct_keys_items (obj : dict pyval) :
  distinct_keys (PDict obj)
  <-> NoDup (dict_keys obj) /\ Forall (fun kv => distinct_keys (snd kv)) obj.
Proof.
  cbn [distinct_keys].
  assert (E : forall kvs : list (string * pyval),
             (fix of_items (kvs : list (string * pyval)) : Prop :=
                match kvs with
                | [] => True
                | (_, v) :: kvs => distinct_keys v /\ of_items kvs
                end) kvs
             <-> Forall (fun kv => distinct_keys (snd kv)) kvs).
  { induction kvs as [|[k v] kvs IH].
    - split; [constructor | trivial].
    - split.
      + intros [Hv Hr]. constructor; [exact Hv | now apply IH].
      + intros H. inversion H; subst. split; [assumption | now apply IH]. }
  now rewrite E.
Qed.

Lemma distinct_keys_elements (l : list pyval) :
  distinct_keys (PList l) <-> Forall distinct_keys l.
Proof.
  cbn [distinct_keys].
  induction l as [|item l IH].
  - split; [constructor | trivial].
  - split.
    + intros [Hv Hr]. constructor; [exact Hv | now apply IH].
    + intros H. inversion H; subst. split; [assumption | now apply IH].
Qed.

(** X18. Renaming with a mapping that sends no two keys of a dictionary to
    one name keeps the items in order: each under its new name, its value
    renamed in turn. *)
Theorem transform_renames_in_order (obj : dict pyval)
    (mapping : dict string) :
  NoDup (map (renamed mapping) (dict_keys obj)) ->
  _transform_dict_fast obj mapping
  = map (fun kv => (renamed mapping (fst kv),
                    transform (snd kv) mapping)) obj.
Proof.
  intros H. unfold _transform_dict_fast.
  rewrite transform_items_update, dict_update_fresh.
  - cbn [app]. apply map_ext. intros [k v]. cbn [fst snd].
    now rewrite transform_is_transform_value.
  - cbn [dict_keys map app]. unfold dict_keys. rewrite map_map.
    unfold dict_keys in H. rewrite map_map in H. exact H.
Qed.

Lemma transform_renames_in_order_witness :
  let obj := [("a", PInt 1); ("b", PDict [("a", PStr "x")])] in
  let mapping := [("a", "id")] in
  NoDup (map (renamed mapping) (dict_keys obj))
  /\ _transform_dict_fast obj mapping
     = map (fun kv => (renamed mapping (fst kv),
                       transform (snd kv) mapping)) obj.
Proof.
  assert (H : NoDup (map (renamed [("a", "id")])
                       (dict_keys [("a", PInt 1);
                                   ("b", PDict [("a", PStr "x")])]))).
  { vm_compute. repeat constructor; simpl; intuition discriminate. }
  split; [exact H|].
  exact (transform_renames_in_order
           [("a", PInt 1); ("b", PDict [("a", PStr "x")])]
           [("a", "id")] H).
Defined.

(** X19. A mapping that renames no key changes nothing: on a value whose
    dictionaries have no key twice, [transform] returns the value. *)
Theorem transform_identity (data : pyval) (mapping : dict string) :
  (forall key, renamed mapping key = key) ->
  distinct_keys data ->
  transform data mapping = data.
Proof.
  intros Hid. rewrite transform_is_transform_value.
  induction data as [| | | | |l IH|obj IH] using pyval_nested_ind;
    intros Hd; try reflexivity.
  - rewrite transform_value_list, transform_elements_map. cbn [app].
    apply distinct_keys_elements in Hd. f_equal.
    induction IH as [|item l Hitem _ IHl]; [reflexivity|].
    inversion Hd; subst. cbn [map]. rewrite Hitem by assumption.
    now rewrite IHl.
  - rewrite transform_value_dict, transform_items_update.
    apply distinct_keys_items in Hd as [Hnd Hvs].
    assert (E : map (fun kv => (renamed mapping (fst kv),
                                transform_value mapping (snd kv))) obj
                = obj).
    { clear Hnd. induction IH as [|[k v] obj Hv _ IHobj]; [reflexivity|].
      inversion Hvs; subst. cbn [map fst snd] in *.
      rewrite Hid, Hv by assumption. now rewrite IHobj. }
    rewrite E, dict_update_fresh; [reflexivity | exact Hnd].
Qed.

Lemma transform_identity_witness :
  let data := PList [PDict [("a", PInt 1); ("b", PList [PStr "x"])]] in
  (forall key, renamed [] key = key)
  /\ distinct_keys data
  /\ transform data [] = data.
Proof.
  assert (Hid : forall key, renamed [] key = key) by reflexivity.
  assert (Hd : distinct_keys
                 (PList [PDict [("a", PInt 1); ("b", PList [PStr "x"])]])).
  { simpl. repeat split. repeat constructor; simpl; intuition discriminate. }
  split; [exact Hid|]. split; [exact Hd|].
  exact (transform_identity _ [] Hid Hd).
Defined.

(** X20. Whatever the mapping, the renamed dictionary has no key twice, and
    under a name it holds the renamed value of the last item that takes
    that name: when two keys are sent to one name the earlier item is
    lost. *)
Theorem transform_keeps_last_of_a_name (obj : dict pyval)
    (mapping : dict string) (name : string) :
  NoDup (dict_keys (_transform_dict_fast obj mapping))
  /\ dict_get (_transform_dict_fast obj mapping) name
     = last_binding
         (map (fun kv => (renamed mapping (fst kv),
                          transform (snd kv) mapping)) obj) name.
Proof.
  unfold _transform_dict_fast. rewrite transform_items_update. split.
  - apply nodup_dict_update. constructor.
  - rewrite dict_get_update.
    replace (map (fun kv => (renamed mapping (fst kv),
                             transform (snd kv) mapping)) obj)
      with (map (fun kv => (renamed mapping (fst kv),
                            transform_value mapping (snd kv))) obj).
    + now destruct (last_binding _ name).
    + apply map_ext. intros kv. now rewrite transform_is_transform_value.
Qed.

End JSONTransformProps.

(** ** The two parsers of BAPI responses *)
Module JSONBapiProps.
Import PyStr Py SAPTransformerCy JSONBapiCy DictFacts.

(** The two loops over the RETURN messages, side by side. *)
Lemma return_loops_agree (l : list pyval) :
  forall s ms s' ms' t pms,
    process_return l s ms = Ok (s', ms') ->
    exists new pnew t',
      ms' = (ms ++ new)%list
      /\ parse_return l t pms = Ok (t', (pms ++ pnew)%list)
      /\ Forall2 same_message new pnew
      /\ s' = s && negb (existsb is_error_type (map m_type new))
      /\ t' = t && negb (existsb is_error (map m_type new)).
Proof.
  induction l as [|item l IH]; intros s ms s' ms' t pms H.
  - inversion H; subst. exists [], [], t. rewrite !app_nil_r.
    repeat split; try constructor; simpl; now rewrite andb_true_r.
  - cbn [process_return parse_return] in *.
    destruct (as_cdef_dict item) as [[msg|]|e]; cbn [bind] in *;
      try discriminate H.
    destruct (as_cdef_str (dict_get_default msg "TYPE" (PStr "")))
      as [msg_type|e]; cbn [bind] in *; try discriminate H.
    match goal with
    | |- exists new pnew t', _ /\ parse_return l ?t1 ?pms1 = _ /\ _ =>
        destruct (IH _ _ _ _ t1 pms1 H)
          as (new & pnew & t' & -> & Hp & Hm & Hs & Ht)
    end.
    eexists (_ :: new), (_ :: pnew), t'.
    rewrite <- !app_assoc in *. cbn [app] in *.
    split; [reflexivity|]. split; [exact Hp|].
    split; [constructor; [repeat split | exact Hm]|].
    cbn [map existsb m_type]. unfold is_error at 1.
    split.
    + rewrite Hs. destruct (is_error_type msg_type), s; reflexivity.
    + rewrite Ht. destruct (str_is msg_type "E"), t; reflexivity.
Qed.

Lemma dict_set_map_values {A B} (f : A -> B) (d : dict A) k v :
  dict_set (map (fun kv => (fst kv, f (snd kv))) d) k (f v)
  = map (fun kv => (fst kv, f (snd kv))) (dict_set d k v).
Proof.
  induction d as [|[k0 v0] d IH]; cbn [dict_set map fst snd]; [reflexivity|].
  destruct (key_eqb k0 k); cbn [map fst snd]; [reflexivity | now rewrite IH].
Qed.

Lemma dict_keys_set_same {A B} (d : dict A) (e : dict B) k v w :
  dict_keys d = dict_keys e ->
  dict_keys (dict_set d k v) = dict_keys (dict_set e k w).
Proof.
  revert e. induction d as [|[k0 v0] d IH]; intros [|[k1 w1] e] H;
    try discriminate H; [reflexivity|].
  simpl in H. injection H as -> H. cbn [dict_set].
  destruct (key_eqb k1 k); simpl; [now rewrite H|].
  f_equal. apply (IH e H).
Qed.

(** The two loops over the parameters, side by side. *)
Lemma parameter_loops_agree (items : list (string * pyval)) :
  forall data tables data' tables' pdata ptables,
    process_fields items data tables = Ok (data', tables') ->
    data = map normalized_entry pdata ->
    dict_keys tables = dict_keys ptables ->
    data' = map normalized_entry (fst (parse_parameters items pdata ptables))
    /\ dict_keys tables'
       = dict_keys (snd (parse_parameters items pdata ptables)).
Proof.
  induction items as [|[key value] items IH];
    intros data tables data' tables' pdata ptables H Hd Ht.
  - inversion H; subst. now split.
  - cbn [process_fields parse_parameters] in *.
    destruct (String.eqb key "RETURN"); [now apply (IH _ _ _ _ _ _ H)|].
    assert (Hexport :
      forall data' tables',
        process_fields items (dict_set data key (_transform_sap_field value))
          tables = Ok (data', tables') ->
        data' = map normalized_entry
                  (fst (parse_parameters items (dict_set pdata key value)
                          ptables))
        /\ dict_keys tables'
           = dict_keys (snd (parse_parameters items
                               (dict_set pdata key value) ptables))).
    { intros d' t' H'. apply (IH _ _ _ _ _ _ H'); [|exact Ht].
      rewrite Hd. apply dict_set_map_values. }
    destruct value as [| | | | |[|first rest]|];
      try (now apply Hexport).
    destruct (_transform_sap_table (first :: rest)) as [t|e];
      cbn [bind] in H; [|discriminate H].
    apply (IH _ _ _ _ _ _ H); [exact Hd|].
    now apply dict_keys_set_same.
Qed.

(** What the transformer and the JSON processor's parser return on one
    response. *)
Lemma parsers_related (bapi_response : dict pyval) (a : BAPIResult) :
  _transform_bapi_result bapi_response = Ok a ->
  exists b,
    sap_bapi_response_parser bapi_response = Ok b
    /\ Forall2 same_message (messages a) (pr_messages b)
    /\ success a = negb (existsb is_error_type (map m_type (messages a)))
    /\ pr_success b = negb (existsb is_error (map m_type (messages a)))
    /\ data a = map normalized_entry (pr_data b)
    /\ dict_keys (tables a) = dict_keys (pr_tables b).
Proof.
  unfold _transform_bapi_result, sap_bapi_response_parser. intros H.
  assert (Hreturn :
    forall sm,
      match dict_get bapi_response "RETURN" with
      | Some return_data =>
          (msgs <- py_iter match return_data with
                           | PDict _ => PList [return_data]
                           | _ => return_data
                           end ;;
           process_return msgs true [])%py
      | None => Ok (true, [])
      end = Ok sm ->
      exists pm,
        match dict_get bapi_response "RETURN" with
        | Some return_data =>
            (msgs <- py_iter match return_data with
                             | PDict _ => PList [return_data]
                             | _ => return_data
                             end ;;
             parse_return msgs true [])%py
        | None => Ok (true, [])
        end = Ok pm
        /\ Forall2 same_message (snd sm) (snd pm)
        /\ fst sm = negb (existsb is_error_type (map m_type (snd sm)))
        /\ fst pm = negb (existsb is_error (map m_type (snd sm)))).
  { intros [s ms] Hsm.
    destruct (dict_get bapi_response "RETURN") as [return_data|].
    - destruct (py_iter _) as [msgs|e]; cbn [bind] in *; [|discriminate Hsm].
      destruct (return_loops_agree msgs _ _ _ _ true [] Hsm)
        as (new & pnew & t' & -> & Hp & Hm & Hs & Ht).
      exists (t', pnew). cbn [app fst snd] in *. now rewrite Hp.
    - inversion Hsm; subst. exists (true, []). repeat split. constructor. }
  match type of H with
  | bind ?m _ = _ => destruct m as [sm|e] eqn:Hsm
  end; cbn [bind] in H; [|discriminate H].
  destruct (Hreturn sm eq_refl) as (pm & -> & Hm & Hs & Ht). cbn [bind].
  destruct (process_fields bapi_response [] []) as [[data' tables']|e] eqn:Hf;
    cbn [bind] in H; [|discriminate H].
  destruct (parameter_loops_agree _ _ _ _ _ [] [] Hf eq_refl eq_refl)
    as [Hd Hk].
  inversion H; subst a; clear H. eexists. split; [reflexivity|].
  cbn [messages success data tables pr_messages pr_success pr_data pr_tables
       fst snd].
  repeat split; assumption.
Qed.

(** X21. Where the transformer returns a result for a response, so does the
    JSON processor's parser, with the same messages, the same export
    parameters before normalization, and the same table names. *)
Theorem parsers_agree_on_structure (bapi_response : dict pyval)
    (a : BAPIResult) :
  _transform_bapi_result bapi_response = Ok a ->
  exists b,
    sap_bapi_response_parser bapi_response = Ok b
    /\ Forall2 same_message (messages a) (pr_messages b)
    /\ data a
       = map (fun kv => (fst kv, _transform_sap_field (snd kv))) (pr_data b)
    /\ dict_keys (tables a) = dict_keys (pr_tables b).
Proof.
  intros H. destruct (parsers_related _ _ H) as (b & Hb & Hm & _ & _ & Hd & Ht).
  exists b. repeat split; assumption.
Qed.

Lemma parsers_agree_on_structure_witness :
  exists a b,
    _transform_bapi_result abort_example = Ok a
    /\ sap_bapi_response_parser abort_example = Ok b
    /\ Forall2 same_message (messages a) (pr_messages b)
    /\ data a
       = map (fun kv => (fst kv, _transform_sap_field (snd kv))) (pr_data b)
    /\ dict_keys (tables a) = dict_keys (pr_tables b).
Proof.
  assert (H : exists a, _transform_bapi_result abort_example = Ok a)
    by (eexists; reflexivity).
  destruct H as [a H].
  destruct (parsers_agree_on_structure abort_example a H) as (b & Hb & Hrest).
  exists a, b. split; [exact H|]. split; [exact Hb | exact Hrest].
Defined.

(** X22. The two parsers do not read success alike: the transformer clears
    it on a message of type E or A, the JSON processor's parser on type E
    only. So a success of the transformer is one of the parser, and a
    response with an abort message and no error message is a failure for
    the first and a success for the second. *)
Theorem parsers_differ_on_abort (bapi_response : dict pyval)
    (a : BAPIResult) (b : ParsedResponse) :
  _transform_bapi_result bapi_response = Ok a ->
  sap_bapi_response_parser bapi_response = Ok b ->
  (success a = true -> pr_success b = true)
  /\ (In (Some "A") (map m_type (messages a)) ->
      ~ In (Some "E") (map m_type (messages a)) ->
      success a = false /\ pr_success b = true).
Proof.
  intros Ha Hb.
  destruct (parsers_related _ _ Ha) as (b' & Hb' & _ & Hs & Ht & _).
  rewrite Hb in Hb'. inversion Hb'; subst b'; clear Hb'.
  rewrite Hs, Ht. split.
  - intros H. apply negb_true_iff in H. apply negb_true_iff.
    apply not_true_is_false. intros E. apply existsb_exists in E.
    destruct E as (ty & Hin & Hty).
    assert (X : existsb is_error_type (map m_type (messages a)) = true).
    { apply existsb_exists. exists ty. split; [exact Hin|].
      destruct ty as [ty|]; [|discriminate Hty].
      unfold is_error, str_is in Hty. simpl. now rewrite Hty. }
    congruence.
  - intros HA HE. split.
    + apply negb_false_iff, existsb_exists. exists (Some "A"). now split.
    + apply negb_true_iff, not_true_is_false. intros E.
      apply existsb_exists in E. destruct E as (ty & Hin & Hty).
      destruct ty as [ty|]; [|discriminate Hty].
      unfold is_error, str_is in Hty. apply String.eqb_eq in Hty.
      subst ty. now apply HE.
Qed.

Lemma parsers_differ_on_abort_witness :
  exists a b,
    _transform_bapi_result abort_example = Ok a
    /\ sap_bapi_response_parser abort_example = Ok b
    /\ In (Some "A") (map m_type (messages a))
    /\ ~ In (Some "E") (map m_type (messages a))
    /\ (success a = true -> pr_success b = true)
    /\ success a = false /\ pr_success b = true.
Proof.
  assert (Ha : exists a, _transform_bapi_result abort_example = Ok a
                         /\ In (Some "A") (map m_type (messages a))
                         /\ ~ In (Some "E") (map m_type (messages a))).
  { eexists. split; [reflexivity|]. split.
    - simpl. right. now left.
    - simpl. intros [E|[E|[]]]; discriminate E. }
  assert (Hb : exists b, sap_bapi_response_parser abort_example = Ok b)
    by (eexists; reflexivity).
  destruct Ha as (a & Ha & HA & HE). destruct Hb as (b & Hb).
  destruct (parsers_differ_on_abort abort_example a b Ha Hb) as [H1 H2].
  exists a, b. repeat split; try assumption; now apply H2.
Defined.

Lemma parse_parameters_partition (items : list (string * pyval)) :
  forall data tables,
    NoDup (dict_keys data ++ dict_keys tables ++ dict_keys items) ->
    parse_parameters items data tables
    = ((data ++ filter is_export items)%list,
       (tables ++ filter is_table items)%list).
Proof.
  induction items as [|[key value] items IH]; intros data tables H.
  - simpl. now rewrite !app_nil_r.
  - cbn [parse_parameters filter]. unfold is_export at 1, is_table at 1.
    cbn [fst snd].
    assert (Hskip : NoDup (dict_keys data ++ dict_keys tables
                           ++ dict_keys items)).
    { cbn [dict_keys map] in H. rewrite app_assoc in H.
      apply NoDup_remove_1 in H. now rewrite <- app_assoc in H. }
    assert (Hkd : ~ In key (dict_keys data)).
    { cbn [dict_keys map] in H. rewrite app_assoc in H.
      apply NoDup_remove_2 in H. intros Hin. apply H.
      apply in_or_app. left. apply in_or_app. now left. }
    assert (Hkt : ~ In key (dict_keys tables)).
    { cbn [dict_keys map] in H. rewrite app_assoc in H.
      apply NoDup_remove_2 in H. intros Hin. apply H.
      apply in_or_app. left. apply in_or_app. now right. }
    assert (Hki : ~ In key (dict_keys items)).
    { cbn [dict_keys map] in H. rewrite app_assoc in H.
      apply NoDup_remove_2 in H. intros Hin. apply H.
      apply in_or_app. now right. }
    destruct (String.eqb key "RETURN"); cbn [negb andb].
    + now apply IH.
    + assert (Hexport :
        parse_parameters items (dict_set data key value) tables
        = ((data ++ (key, value) :: filter is_export items)%list,
           (tables ++ filter is_table items)%list)).
      { rewrite SAPRecordsProps.dict_set_fresh by exact Hkd.
        rewrite IH; [now rewrite <- app_assoc|].
        unfold dict_keys in *. rewrite map_app. cbn [map fst].
        rewrite <- app_assoc. cbn [app].
        apply (NoDup_Add (Add_app key _ _)). split; [exact Hskip|].
        intros Hin. apply in_app_or in Hin as [Hin|Hin]; [tauto|].
        apply in_app_or in Hin as [Hin|Hin]; tauto. }
      destruct value as [| | | | |[|first rest]|]; try exact Hexport.
      rewrite SAPRecordsProps.dict_set_fresh by exact Hkt.
      rewrite IH; [now rewrite <- app_assoc|].
      unfold dict_keys in *. rewrite map_app. cbn [map fst].
      rewrite <- app_assoc. cbn [app]. exact H.
Qed.

(** X23. On a response without a repeated name, the JSON processor's
    parser puts every parameter but RETURN, unchanged and in order, in
    exactly one of [data] and [tables]: the lists that are not empty in
    [tables], all the others in [data]. *)
Theorem response_parameters_are_partitioned (bapi_response : dict pyval)
    (b : ParsedResponse) :
  NoDup (dict_keys bapi_response) ->
  sap_bapi_response_parser bapi_response = Ok b ->
  pr_data b = filter is_export bapi_response
  /\ pr_tables b = filter is_table bapi_response.
Proof.
  unfold sap_bapi_response_parser. intros Hnd H.
  match type of H with
  | bind ?m _ = _ => destruct m as [sm|e]
  end; cbn [bind] in H; [|discriminate H].
  inversion H; subst b; clear H. cbn [pr_data pr_tables].
  rewrite parse_parameters_partition by exact Hnd. now split.
Qed.

Lemma response_parameters_are_partitioned_witness :
  exists b,
    NoDup (dict_keys abort_example)
    /\ sap_bapi_response_parser abort_example = Ok b
    /\ pr_data b = filter is_export abort_example
    /\ pr_tables b = filter is_table abort_example.
Proof.
  assert (Hnd : NoDup (dict_keys abort_example)).
  { simpl. repeat constructor; simpl; intuition discriminate. }
  eexists. split; [exact Hnd|]. split; [reflexivity|].
  exact (response_parameters_are_partitioned abort_example _ Hnd eq_refl).
Defined.

End JSONBapiProps.

(** ** The aggregation functions and the moving average *)
Module MathMoreProps.
Import Py MathUtilsCy MathMoreCy DictFacts.

Section AnyKey.
Context {K : Type} {HK : Hashable K} {V : Type}.

Lemma dict_set_new (d : keyed K V) k v :
  ~ In k (dict_keys d) -> dict_set d k v = (d ++ [(k, v)])%list.
Proof.
  induction d as [|[k0 v0] d IH]; simpl; intros N; [reflexivity|].
  destruct (key_eqb_spec k0 k) as [->|_]; [tauto|].
  rewrite IH; [reflexivity | tauto].
Qed.

Lemma dict_set_old (d : keyed K V) k v :
  dict_keys (dict_set d k v)
  = if dict_mem d k then dict_keys d else (dict_keys d ++ [k])%list.
Proof.
  unfold dict_mem.
  induction d as [|[k0 v0] d IH]; simpl; [reflexivity|].
  destruct (key_eqb_spec k0 k) as [->|N]; simpl; [reflexivity|].
  rewrite IH. now destruct (dict_get d k).
Qed.

Lemma dict_mem_in (d : keyed K V) k :
  dict_mem d k = true <-> In k (dict_keys d).
Proof.
  unfold dict_mem.
  induction d as [|[k0 v0] d IH]; simpl; [split; [discriminate | tauto]|].
  destruct (key_eqb_spec k0 k) as [->|N].
  - split; [now left | reflexivity].
  - rewrite IH. split; [now right | intros [E|H]; [congruence | exact H]].
Qed.

Lemma dict_update_new (e : keyed K V) :
  forall d,
    NoDup (dict_keys d ++ dict_keys e) ->
    dict_update d e = (d ++ e)%list.
Proof.
  unfold dict_update.
  induction e as [|[k v] e IH]; intros d H; simpl.
  - now rewrite app_nil_r.
  - assert (Hk : ~ In k (dict_keys d)).
    { intros Hin. apply NoDup_remove_2 in H. apply H.
      apply in_or_app. now left. }
    rewrite dict_set_new by exact Hk.
    rewrite IH.
    + now rewrite <- app_assoc.
    + unfold dict_keys in *. rewrite map_app. simpl.
      rewrite <- app_assoc. exact H.
Qed.

Lemma dict_get_all_none (d : keyed K V) :
  (forall k, dict_get d k = None) -> d = [].
Proof.
  destruct d as [|[k v] d]; [reflexivity|]. intros H.
  specialize (H k). simpl in H.
  now destruct (key_eqb_spec k k).
Qed.

End AnyKey.

(** The aggregation loop stores, for every group, what [aggregate] gives
    for its values. *)
Lemma aggregate_loop_update np_sort (agg_func : string)
    (groups : list (Z * list float)) :
  forall results,
    aggregate_loop np_sort agg_func groups results
    = dict_update results
        (flat_map (fun gv => match aggregate np_sort agg_func (snd gv) with
                             | Some x => [(fst gv, x)]
                             | None => []
                             end) groups).
Proof.
  induction groups as [|[group_id group_values] groups IH];
    intros results; [reflexivity|].
  cbn [aggregate_loop flat_map fst snd]. cbv zeta. rewrite IH.
  unfold aggregate.
  repeat match goal with
         | |- context [String.eqb agg_func ?n] =>
             destruct (String.eqb agg_func n); [reflexivity|]
         end.
  reflexivity.
Qed.

Lemma last_binding_flat_map {A} (f : list float -> option A)
    (groups : list (Z * list float)) (g : Z) :
  NoDup (dict_keys groups) ->
  last_binding
    (flat_map (fun gv => match f (snd gv) with
                         | Some x => [(fst gv, x)]
                         | None => []
                         end) groups) g
  = match dict_get groups g with
    | Some vs => f vs
    | None => None
    end.
Proof.
  induction groups as [|[group_id vs] groups IH]; intros Hnd;
    [reflexivity|].
  inversion Hnd as [|? ? Hn Hd]; subst.
  cbn [flat_map fst snd dict_get]. specialize (IH Hd).
  change (key_eqb group_id g) with (Z.eqb group_id g).
  destruct (Z.eqb_spec group_id g) as [->|N].
  - rewrite (dict_get_none groups g Hn) in IH.
    destruct (f vs) as [x|]; cbn [app].
    + rewrite last_binding_cons, IH.
      change (key_eqb g g) with (Z.eqb g g). now rewrite Z.eqb_refl.
    + exact IH.
  - destruct (f vs) as [x|]; cbn [app].
    + rewrite last_binding_cons, IH.
      change (key_eqb group_id g) with (Z.eqb group_id g).
      destruct (Z.eqb_spec group_id g) as [E|_]; [contradiction|].
      now destruct (dict_get groups g) as [vs'|]; [destruct (f vs')|].
    + exact IH.
Qed.

(** X24. Whatever the aggregation name, [erp_group_aggregation] gives every
    group that has values the aggregate of exactly its values, in input
    order, and no entry to any other id; under a name that is none of the
    seven no group gets an entry. *)
Theorem group_aggregate_by_group np_sort (group_ids : list Z)
    (values : list float) (agg_func : string) :
  List.length values <= List.length group_ids ->
  exists results,
    erp_group_aggregation np_sort group_ids values agg_func = Some results
    /\ forall g,
         dict_get results g
         = match values_of g group_ids values with
           | [] => None
           | vs => aggregate np_sort agg_func vs
           end.
Proof.
  intros Hlen.
  destruct (AggregationProps.group_loop_spec values group_ids [] Hlen
              (NoDup_nil _)) as (groups & E & Hnd & Hget).
  unfold erp_group_aggregation. rewrite E. eexists. split; [reflexivity|].
  intros g. rewrite aggregate_loop_update, dict_get_update.
  rewrite (last_binding_flat_map _ _ _ Hnd), Hget. cbn [dict_get].
  unfold dict_get_default. cbn [dict_get app].
  destruct (values_of g group_ids values) as [|v vs]; [reflexivity|].
  now destruct (aggregate np_sort agg_func (v :: vs)).
Qed.

Lemma group_aggregate_by_group_witness :
  List.length [10; 20; 5]%float <= List.length [1; 1; 2]%Z
  /\ exists results,
       erp_group_aggregation (fun l => l) [1; 1; 2]%Z [10; 20; 5]%float "count"
       = Some results
       /\ forall g,
            dict_get results g
            = match values_of g [1; 1; 2]%Z [10; 20; 5]%float with
              | [] => None
              | vs => aggregate (fun l => l) "count" vs
              end.
Proof.
  assert (H : List.length [10; 20; 5]%float <= List.length [1; 1; 2]%Z)
    by (simpl; lia).
  split; [exact H|].
  exact (group_aggregate_by_group (fun l => l) [1; 1; 2]%Z [10; 20; 5]%float
           "count" H).
Defined.

Lemma filter_filter_and {A} (p q : A -> bool) (l : list A) :
  filter p (filter q l) = filter (fun x => q x && p x) l.
Proof.
  induction l as [|x l IH]; [reflexivity|]. simpl.
  destruct (q x); simpl; [|exact IH].
  destruct (p x); [now rewrite IH | exact IH].
Qed.

Lemma dict_mem_set {V} (d : keyed Z V) k v k' :
  dict_mem (dict_set d k v) k' = Z.eqb k k' || dict_mem d k'.
Proof.
  unfold dict_mem. rewrite dict_get_set.
  change (key_eqb k k') with (Z.eqb k k'). now destruct (Z.eqb k k').
Qed.

(** The grouping loop adds the ids to the groups at their first
    occurrence. *)
Lemma group_loop_keys (values : list float) :
  forall group_ids groups groups',
    group_loop group_ids values groups = Some groups' ->
    dict_keys groups'
    = (dict_keys groups
       ++ filter (fun x => negb (dict_mem groups x))
            (first_seen (firstn (List.length values) group_ids)))%list.
Proof.
  induction values as [|value values IH]; intros group_ids groups groups' H.
  - inversion H; subst. simpl. now rewrite app_nil_r.
  - destruct group_ids as [|group_id group_ids]; [discriminate H|].
    cbn [group_loop] in H. cbv zeta in H.
    apply IH in H. rewrite H. clear H.
    cbn [List.length firstn first_seen filter].
    set (FS := first_seen (firstn (List.length values) group_ids)).
    rewrite dict_set_old.
    assert (Hmem : forall x,
               dict_mem
                 (dict_set
                    (if negb (dict_mem groups group_id)
                     then dict_set groups group_id [] else groups)
                    group_id
                    (dict_get_default
                       (if negb (dict_mem groups group_id)
                        then dict_set groups group_id [] else groups)
                       group_id [] ++ [value])%list) x
               = Z.eqb group_id x || dict_mem groups x).
    { intros x. rewrite dict_mem_set.
      destruct (dict_mem groups group_id); cbn [negb]; [reflexivity|].
      rewrite dict_mem_set. now destruct (Z.eqb group_id x). }
    rewrite (filter_ext _ _ (fun x => f_equal negb (Hmem x))).
    rewrite filter_filter_and.
    destruct (dict_mem groups group_id) eqn:E; cbn [negb].
    + rewrite E. f_equal. apply filter_ext_in. intros x _.
      destruct (Z.eqb_spec group_id x) as [->|N].
      * rewrite E, Z.eqb_refl. reflexivity.
      * destruct (Z.eqb_spec x group_id) as [->|_]; [contradiction|].
        reflexivity.
    + rewrite dict_mem_set, Z.eqb_refl. cbn [orb].
      rewrite dict_set_old, E. rewrite <- app_assoc. cbn [app].
      f_equal. f_equal. apply filter_ext. intros x.
      rewrite (Z.eqb_sym group_id x).
      destruct (Z.eqb x group_id), (dict_mem groups x); reflexivity.
Qed.

Lemma known_function_aggregate np_sort (agg_func : string) :
  if known_function agg_func
  then exists f, forall vs, aggregate np_sort agg_func vs = Some (f vs)
  else forall vs, aggregate np_sort agg_func vs = None.
Proof.
  unfold known_function, aggregate. cbn [existsb].
  repeat match goal with
         | |- context [String.eqb agg_func ?n] =>
             destruct (String.eqb agg_func n);
             [cbn [orb]; eexists; intros vs; reflexivity|]
         end.
  cbn [orb]. reflexivity.
Qed.

(** X25. The result of [erp_group_aggregation] lists the groups in the
    order in which their ids first occur in the input, under any of the
    seven names; under any other name the result is empty, and no error is
    raised. *)
Theorem group_result_order np_sort (group_ids : list Z)
    (values : list float) (agg_func : string) :
  List.length values <= List.length group_ids ->
  exists results,
    erp_group_aggregation np_sort group_ids values agg_func = Some results
    /\ dict_keys results
       = if known_function agg_func
         then first_seen (firstn (List.length values) group_ids)
         else [].
Proof.
  intros Hlen.
  destruct (AggregationProps.group_loop_spec values group_ids [] Hlen
              (NoDup_nil _)) as (groups & E & Hnd & _).
  unfold erp_group_aggregation. rewrite E. eexists. split; [reflexivity|].
  rewrite aggregate_loop_update.
  pose proof (group_loop_keys values group_ids [] groups E) as Hkeys.
  cbn [dict_keys map app] in Hkeys.
  rewrite (filter_ext _ (fun _ => true)) in Hkeys by reflexivity.
  assert (Hall : forall l : list Z, filter (fun _ => true) l = l).
  { induction l as [|x l IHl]; [reflexivity|]. simpl. now rewrite IHl. }
  rewrite Hall in Hkeys.
  pose proof (known_function_aggregate np_sort agg_func) as Hk.
  destruct (known_function agg_func).
  - destruct Hk as [f Hf].
    assert (Hmap :
      flat_map (fun gv => match aggregate np_sort agg_func (snd gv) with
                          | Some x => [(fst gv, x)]
                          | None => []
                          end) groups
      = map (fun gv => (fst gv, f (snd gv))) groups).
    { clear - Hf. induction groups as [|gv groups IH]; [reflexivity|].
      cbn [flat_map map]. now rewrite Hf, IH. }
    rewrite Hmap, dict_update_new.
    + cbn [app]. unfold dict_keys. rewrite map_map. cbn [fst].
      exact Hkeys.
    + cbn [dict_keys map app]. unfold dict_keys. rewrite map_map.
      exact Hnd.
  - assert (Hnone :
      flat_map (fun gv => match aggregate np_sort agg_func (snd gv) with
                          | Some x => [(fst gv, x)]
                          | None => []
                          end) groups
      = []).
    { clear - Hk. induction groups as [|gv groups IH]; [reflexivity|].
      cbn [flat_map]. now rewrite Hk, IH. }
    now rewrite Hnone.
Qed.

Lemma group_result_order_witness :
  List.length [5; 10; 20]%float <= List.length [2; 1; 2]%Z
  /\ exists results,
       erp_group_aggregation (fun l => l) [2; 1; 2]%Z [5; 10; 20]%float "sum"
       = Some results
       /\ dict_keys results
          = if known_function "sum"
            then first_seen (firstn (List.length [5; 10; 20]%float)
                               [2; 1; 2]%Z)
            else [].
Proof.
  assert (H : List.length [5; 10; 20]%float <= List.length [2; 1; 2]%Z)
    by (simpl; lia).
  split; [exact H|].
  exact (group_result_order (fun l => l) [2; 1; 2]%Z [5; 10; 20]%float
           "sum" H).
Defined.

(** *** The moving average *)









End MathMoreProps.

(** ** Flattening twice *)
Module FlattenMoreProps.
Import PyStr Py JSONProcessorCy JSONTransformCy DictFacts FlattenProps.

Lemma flat_dict_set (d : dict pyval) k v :
  flat d -> is_scalar v = true -> flat (dict_set d k v).
Proof.
  intros Hd Hv. apply SAPRecordsProps.Forall_dict_set; assumption.
Qed.

Lemma flat_dict_update (e : dict pyval) :
  forall d, flat d -> flat e -> flat (dict_update d e).
Proof.
  unfold dict_update.
  induction e as [|[k v] e IH]; intros d Hd He; [exact Hd|].
  inversion He; subst. cbn [fold_left fst snd]. apply IH; [|assumption].
  now apply flat_dict_set.
Qed.

Lemma stores_scalars_every_value sep (v : pyval) : stores_scalars sep v.
Proof.
  induction v as [| | | | |l IH|obj IH] using pyval_nested_ind;
    try (intros _; exact I).
  - intros Hnl new_key. revert Hnl.
    induction IH as [|item l Hitem _ IHl]; intros Hnl i items Hitems;
      [exact Hitems|].
    rewrite no_list_in_list_cons_list in Hnl.
    apply andb_prop in Hnl. destruct Hnl as [Hi Hl].
    cbn [flatten_list]. apply (IHl Hl).
    destruct item as [| | | | |l'|d];
      try (now apply flat_dict_set).
    apply flat_dict_update; [exact Hitems|]. exact (Hitem Hi _).
  - intros Hnl parent_key. rewrite flatten_value_dict.
    assert (Hloop : forall items,
               flat items -> flat (flatten_items sep parent_key obj items)).
    { revert Hnl. induction IH as [|[k v] obj Hv _ IHobj];
        intros Hnl items Hitems; [exact Hitems|].
      rewrite no_list_in_list_cons_dict in Hnl.
      apply andb_prop in Hnl. destruct Hnl as [Hnv Hobj].
      cbn [flatten_items]. cbv zeta. apply (IHobj Hobj).
      cbn [snd] in Hv.
      destruct v as [| | | | |l|d]; try (now apply flat_dict_set).
      - exact (Hv Hnv _ 0 items Hitems).
      - apply flat_dict_update; [exact Hitems|]. exact (Hv Hnv _). }
    apply Hloop. constructor.
Qed.

(** On a dictionary of scalars the loop over the items stores every item
    under its own key. *)
Lemma flatten_items_flat sep (kvs : list (string * pyval)) :
  flat kvs ->
  forall items, flatten_items sep "" kvs items = dict_update items kvs.
Proof.
  intros H. induction H as [|[k v] kvs Hv _ IH]; intros items;
    [reflexivity|].
  cbn [flatten_items is_empty]. cbv zeta. rewrite IH.
  cbn [snd] in Hv. now destruct v.
Qed.

(** X28. On a dictionary in which no list is directly an element of a list,
    [flatten] is idempotent: the flattened dictionary holds scalars only
    and has no key twice, and flattening it again returns it. *)
Theorem flatten_idempotent (sep : string) (data : dict pyval) :
  no_list_in_list (PDict data) = true ->
  flat (flatten data sep)
  /\ NoDup (dict_keys (flatten data sep))
  /\ flatten (flatten data sep) sep = flatten data sep.
Proof.
  intros Hnl.
  assert (Hflat : flat (flatten data sep))
    by exact (stores_scalars_every_value sep (PDict data) Hnl "").
  assert (Hnd : NoDup (dict_keys (flatten data sep)))
    by apply flatten_value_nodup.
  split; [exact Hflat|]. split; [exact Hnd|].
  unfold flatten at 1, _flatten_dict_fast.
  rewrite flatten_value_dict, (flatten_items_flat sep _ Hflat).
  now apply JSONTransformProps.dict_update_fresh.
Qed.

Lemma flatten_idempotent_witness :
  no_list_in_list (PDict nested_example) = true
  /\ flat (flatten nested_example "_")
  /\ NoDup (dict_keys (flatten nested_example "_"))
  /\ flatten (flatten nested_example "_") "_" = flatten nested_example "_".
Proof.
  assert (H : no_list_in_list (PDict nested_example) = true) by reflexivity.
  split; [exact H|].
  exact (flatten_idempotent "_" nested_example H).
Defined.

End FlattenMoreProps.

(** ** CSV field escaping and material numbers *)
Module StringMoreProps.
Import PyStr Py CSVProcessorCy CSVWriterCy StringMoreCy StrFacts.
Import StringToolsProps CSVMoreProps.



(** *** Material numbers *)

Lemma digit_is_no_sign (c : ascii) :
  is_digit c = true -> Ascii.eqb c "+" = false /\ Ascii.eqb c "-" = false.
Proof.
  destruct c as [[] [] [] [] [] [] [] []]; vm_compute; intuition congruence.
Qed.

Lemma all_digits_lstrip (s : string) :
  all_chars is_digit s = true ->
  all_chars is_digit (lstrip_by (Ascii.eqb "0") s) = true.
Proof.
  induction s as [|c s IH]; [reflexivity|]. intros H. pose proof H as H'.
  cbn [all_chars] in H. apply andb_prop in H. destruct H as [Hc Hs].
  cbn [lstrip_by].
  destruct (Ascii.eqb "0" c); [now apply IH | exact H'].
Qed.

Lemma isdigit_strip_zeros (s : string) :
  all_chars is_digit s = true -> isdigit (SAPRecordsCy.strip_zeros s) = true.
Proof.
  intros H. apply all_digits_lstrip in H. unfold SAPRecordsCy.strip_zeros.
  destruct (lstrip_by (Ascii.eqb "0") s) as [|c r]; [reflexivity|].
  unfold isdigit. cbn [is_empty negb andb]. exact H.
Qed.

Lemma lstrip_zeros (n : nat) (s : string) :
  lstrip_by (Ascii.eqb "0") (zeros n ++ s) = lstrip_by (Ascii.eqb "0") s.
Proof. induction n as [|n IH]; [reflexivity | exact IH]. Qed.

Lemma length_zeros (n : nat) : String.length (zeros n) = n.
Proof. induction n as [|n IH]; [reflexivity | simpl; now rewrite IH]. Qed.

Lemma all_digits_zeros (n : nat) (s : string) :
  all_chars is_digit s = true -> all_chars is_digit (zeros n ++ s) = true.
Proof. intros H. induction n as [|n IH]; [exact H | exact IH]. Qed.

Lemma strip_zeros_idem (s : string) :
  SAPRecordsCy.strip_zeros (SAPRecordsCy.strip_zeros s)
  = SAPRecordsCy.strip_zeros s.
Proof.
  unfold SAPRecordsCy.strip_zeros.
  pose proof (lstrip_by_head (Ascii.eqb "0") s) as Hh.
  destruct (lstrip_by (Ascii.eqb "0") s) as [|c r]; [reflexivity|].
  cbn [is_empty]. rewrite (lstrip_by_fixed _ _ Hh). reflexivity.
Qed.

(** Padding a string of digits. *)
Lemma zfill_digits (width : nat) (s : string) :
  isdigit s = true ->
  zfill width s = zeros (width - String.length s) ++ s.
Proof.
  intros H. unfold zfill.
  destruct (Nat.leb_spec width (String.length s)) as [Hle|Hlt].
  - replace (width - String.length s) with 0 by lia. reflexivity.
  - destruct s as [|c r]; [discriminate H|].
    unfold isdigit in H. cbn [is_empty negb andb all_chars] in H.
    apply andb_prop in H. destruct H as [Hc _].
    destruct (digit_is_no_sign c Hc) as [-> ->]. reflexivity.
Qed.

Section MaterialNumberProps.
Variable str_upper : string -> string.

(** X30. On a material number that is, once stripped, a string of digits
    which [str.upper] leaves as it is, [sap_material_number_normalize]
    returns at least 18 digits: the number without its leading zeros,
    padded with zeros. Stripping the zeros again, as the record
    transformers do, gives the same number as on the input, and
    normalizing the result again changes nothing. *)
Theorem material_number_padded (material_number : string) :
  (forall s, all_chars is_digit s = true -> str_upper s = s) ->
  isdigit (strip material_number) = true ->
  let result :=
    sap_material_number_normalize str_upper (Some material_number) in
  let number := SAPRecordsCy.strip_zeros (strip material_number) in
  result = zeros (18 - String.length number) ++ number
  /\ isdigit result = true
  /\ 18 <= String.length result
  /\ SAPRecordsCy.strip_zeros result = number
  /\ sap_material_number_normalize str_upper (Some result) = result.
Proof.
  intros Hupper Hd result number.
  assert (Hall : all_chars is_digit (strip material_number) = true).
  { unfold isdigit in Hd. now apply andb_prop in Hd. }
  assert (Hnumber : isdigit number = true) by now apply isdigit_strip_zeros.
  assert (Hnall : all_chars is_digit number = true).
  { unfold isdigit in Hnumber. now apply andb_prop in Hnumber. }
  assert (Hr : result = zeros (18 - String.length number) ++ number).
  { subst result. unfold sap_material_number_normalize.
    destruct material_number as [|c m]; [discriminate Hd|].
    cbn [is_empty]. rewrite (Hupper _ Hall). fold number.
    rewrite Hnumber. now apply zfill_digits. }
  assert (Hrall : all_chars is_digit result = true).
  { rewrite Hr. now apply all_digits_zeros. }
  assert (Hne : is_empty result = false).
  { rewrite Hr. destruct (18 - String.length number); [|reflexivity].
    cbn [zeros append]. destruct number; [discriminate Hnumber|reflexivity]. }
  assert (Hstrip : SAPRecordsCy.strip_zeros result = number).
  { rewrite Hr. unfold SAPRecordsCy.strip_zeros. rewrite lstrip_zeros.
    exact (strip_zeros_idem (strip material_number)). }
  split; [exact Hr|]. split.
  { unfold isdigit. now rewrite Hne, Hrall. }
  split.
  { rewrite Hr, length_append, length_zeros. lia. }
  split; [exact Hstrip|].
  unfold sap_material_number_normalize. rewrite Hne.
  rewrite (SAPRecordsProps.digits_stripped _ Hrall), (Hupper _ Hrall).
  rewrite Hstrip, Hnumber, zfill_digits by exact Hnumber.
  now rewrite Hr.
Qed.

End MaterialNumberProps.

Lemma material_number_padded_witness :
  let material_number := " 00001234 " in
  let result :=
    sap_material_number_normalize (fun s => s) (Some material_number) in
  let number := SAPRecordsCy.strip_zeros (strip material_number) in
  (forall s, all_chars is_digit s = true -> (fun s => s) s = s)
  /\ isdigit (strip material_number) = true
  /\ result = "000000000000001234"
  /\ result = zeros (18 - String.length number) ++ number
  /\ isdigit result = true
  /\ 18 <= String.length result
  /\ SAPRecordsCy.strip_zeros result = number
  /\ sap_material_number_normalize (fun s => s) (Some result) = result.
Proof.
  assert (Hupper : forall s : string,
             all_chars is_digit s = true -> (fun s => s) s = s)
    by reflexivity.
  assert (Hd : isdigit (strip " 00001234 ") = true) by reflexivity.
  split; [exact Hupper|]. split; [exact Hd|]. split; [reflexivity|].
  exact (material_number_padded (fun s => s) " 00001234 " Hupper Hd).
Defined.

End StringMoreProps.
